(** * ERPNextImporter: mapping, transformation and import loop

    A shallow embedding of the field-mapping and import engine of the
    ERPNext importer (main.py and the erpnext_importer package), with the
    properties of its specification stated and settled against it.

    Conventions of the embedding.
    - A Python [str] is a Rocq [string] whose characters are the code
      points 0..255 (Latin-1).  This covers ASCII and the German letters of
      the rule table; [lower], [strip], [isdigit] are exact on that
      repertoire.
    - A Python [dict] is an insertion-ordered association list with unique
      keys ([PyDict]); iteration order is the list order.
    - A Python [float] is an IEEE-754 binary64 value ([spec_float] of the
      Standard Library, precision 53, maximal exponent 1024).
    - Exceptions are values of [exn]; a computation that may raise returns
      [result]. *)

From Stdlib Require Import ZArith List String Ascii Bool Lia.
From Stdlib Require Import Floats.SpecFloat DecimalString Sorting.Sorted.
Import ListNotations.
Open Scope string_scope.

Set Implicit Arguments.

(** ** Python strings over Latin-1 *)

Module PyStr.

Definition code (c : ascii) : nat := nat_of_ascii c.

Definition between (lo hi : nat) (c : ascii) : bool :=
  (lo <=? code c)%nat && (code c <=? hi)%nat.

(** [str.isspace] per character: TAB..CR, FS..US, SPACE, NEL, NBSP. *)
Definition is_space (c : ascii) : bool :=
  between 9 13 c || between 28 31 c || (code c =? 32)%nat
  || (code c =? 133)%nat || (code c =? 160)%nat.

(** [str.isdigit] per character: 0-9 and the superscripts 2, 3, 1. *)
Definition is_digit_char (c : ascii) : bool :=
  between 48 57 c || (code c =? 178)%nat || (code c =? 179)%nat
  || (code c =? 185)%nat.

(** The ASCII decimal digits, the only ones [float()] and the regular
    expression class [0-9] accept on this repertoire. *)
Definition is_ascii_digit (c : ascii) : bool := between 48 57 c.

Definition lower_char (c : ascii) : ascii :=
  if between 65 90 c then ascii_of_nat (code c + 32)
  else if between 192 222 c && negb (code c =? 215)%nat
       then ascii_of_nat (code c + 32)
  else c.

Fixpoint lower (s : string) : string :=
  match s with
  | EmptyString => EmptyString
  | String c r => String (lower_char c) (lower r)
  end.

(** [str.upper]: exact except for the two characters whose upper case lies
    outside Latin-1 (y-diaeresis and the micro sign), which are kept. *)
Definition upper_char (c : ascii) : string :=
  if between 97 122 c then String (ascii_of_nat (code c - 32)) ""
  else if between 224 254 c && negb (code c =? 247)%nat
       then String (ascii_of_nat (code c - 32)) ""
  else if (code c =? 223)%nat then "SS"
  else String c "".

Fixpoint upper (s : string) : string :=
  match s with
  | EmptyString => EmptyString
  | String c r => upper_char c ++ upper r
  end.

(** [s.replace(c, r)] for a one-character pattern. *)
Fixpoint replace (c : ascii) (r : string) (s : string) : string :=
  match s with
  | EmptyString => EmptyString
  | String d t => if Ascii.eqb d c then r ++ replace c r t
                  else String d (replace c r t)
  end.

Fixpoint filter (p : ascii -> bool) (s : string) : string :=
  match s with
  | EmptyString => EmptyString
  | String c r => if p c then String c (filter p r) else filter p r
  end.

Fixpoint forallb (p : ascii -> bool) (s : string) : bool :=
  match s with
  | EmptyString => true
  | String c r => p c && forallb p r
  end.

Fixpoint contains_char (c : ascii) (s : string) : bool :=
  match s with
  | EmptyString => false
  | String d r => Ascii.eqb d c || contains_char c r
  end.

(** [p in s] for strings: [p] occurs as a contiguous substring. *)
Fixpoint is_substring (p s : string) : bool :=
  String.prefix p s
  || match s with
     | EmptyString => false
     | String _ r => is_substring p r
     end.

Fixpoint lstrip (s : string) : string :=
  match s with
  | EmptyString => EmptyString
  | String c r => if is_space c then lstrip r else s
  end.

Fixpoint rstrip (s : string) : string :=
  match s with
  | EmptyString => EmptyString
  | String c r =>
      match rstrip r with
      | EmptyString => if is_space c then EmptyString else String c EmptyString
      | r' => String c r'
      end
  end.

Definition strip (s : string) : string := rstrip (lstrip s).

(** [str.isdigit]: non-empty and every character a digit. *)
Definition isdigit (s : string) : bool :=
  match s with
  | EmptyString => false
  | _ => forallb is_digit_char s
  end.

Fixpoint drop (n : nat) (s : string) : string :=
  match n, s with
  | O, _ => s
  | S _, EmptyString => EmptyString
  | S m, String _ r => drop m r
  end.

(** [s.split(sep)] for a non-empty separator: leftmost, non-overlapping
    occurrences.  [cur] is the piece read so far. *)
Fixpoint split_aux (fuel : nat) (sep : string) (cur : string) (s : string)
  : list string :=
  match fuel with
  | O => [cur ++ s]
  | S fuel' =>
      match s with
      | EmptyString => [cur]
      | String c r =>
          if String.prefix sep s
          then cur :: split_aux fuel' sep "" (drop (String.length sep) s)
          else split_aux fuel' sep (cur ++ String c "") r
      end
  end.

Definition split (sep s : string) : list string :=
  split_aux (S (String.length s)) sep "" s.

(** [sep.join(l)]. *)
Fixpoint join (sep : string) (l : list string) : string :=
  match l with
  | [] => ""
  | [x] => x
  | x :: r => x ++ sep ++ join sep r
  end.

(** [re.sub(r'[^a-z0-9_]', '', s)]. *)
Definition is_word_char (c : ascii) : bool :=
  between 97 122 c || is_ascii_digit c || (code c =? 95)%nat.

Definition strip_non_word (s : string) : string := filter is_word_char s.

(** [re.sub(r'<[^>]+>', '', s)].  At a ["<"] the pattern matches when the
    next character exists and is not [">"] and a [">"] follows later; the
    match then ends at the first such [">"]. *)
Fixpoint after_gt (s : string) : option string :=
  match s with
  | EmptyString => None
  | String c r => if Ascii.eqb c ">" then Some r else after_gt r
  end.

Fixpoint html_strip_aux (fuel : nat) (s : string) : string :=
  match fuel with
  | O => s
  | S fuel' =>
      match s with
      | EmptyString => EmptyString
      | String c r =>
          if Ascii.eqb c "<" then
            match r with
            | String d r' =>
                if Ascii.eqb d ">" then String c (html_strip_aux fuel' r)
                else match after_gt r' with
                     | Some rest => html_strip_aux fuel' rest
                     | None => String c (html_strip_aux fuel' r)
                     end
            | EmptyString => s
            end
          else String c (html_strip_aux fuel' r)
      end
  end.

Definition html_strip (s : string) : string :=
  html_strip_aux (String.length s) s.

Definition is_empty (s : string) : bool :=
  match s with EmptyString => true | _ => false end.

End PyStr.


(** ** Python dictionaries with string keys

    Insertion-ordered association lists.  [set] overwrites in place when the
    key is present (the key keeps its position) and appends otherwise, as
    [d[k] = v] does. *)

Module PyDict.

Section Dict.
Variable V : Type.

Definition t := list (string * V).

Fixpoint get (k : string) (d : t) : option V :=
  match d with
  | [] => None
  | (k', v) :: r => if String.eqb k' k then Some v else get k r
  end.

Definition mem (k : string) (d : t) : bool :=
  match get k d with Some _ => true | None => false end.

Fixpoint set (k : string) (v : V) (d : t) : t :=
  match d with
  | [] => [(k, v)]
  | (k', v') :: r =>
      if String.eqb k' k then (k, v) :: r else (k', v') :: set k v r
  end.

(** [del d[k]] and the removal part of [d.pop(k, None)]. *)
Fixpoint remove (k : string) (d : t) : t :=
  match d with
  | [] => []
  | (k', v') :: r =>
      if String.eqb k' k then remove k r else (k', v') :: remove k r
  end.

Definition keys (d : t) : list string := map fst d.

Definition values (d : t) : list V := map snd d.

End Dict.

Arguments get {V}.
Arguments mem {V}.
Arguments set {V}.
Arguments remove {V}.
Arguments keys {V}.
Arguments values {V}.

End PyDict.

(** ** Field catalog: the auto-mapping rule table

    [AUTO_MAPPING_RULES] of main.py, in source order (a Python dict iterates
    in insertion order; the literal has no repeated key). *)

Definition a_uml : ascii := "228"%char.
Definition o_uml : ascii := "246"%char.
Definition u_uml : ascii := "252"%char.
Definition eszett : ascii := "223"%char.

Definition AUTO_MAPPING_RULES : PyDict.t string :=
  [
    ("artikelnummer", "item_code");
    ("artikelname", "item_name");
    ("artikel-nr", "item_code");
    ("artikel-name", "item_name");
    ("sku", "item_code");
    ("name", "item_name");
    ("bezeichnung", "item_name");
    ("produktname", "item_name");
    ("beschreibung", "description");
    ("beschreibung (html)", "description");
    ("kurzbeschreibung", "description");
    ("langbeschreibung", "description");
    ("artikelbeschreibung", "description");
    ("aktiv", "disabled");
    ("artikel aktiv", "disabled");
    ("deaktiviert", "disabled");
    ("preis", "standard_rate");
    ("vk netto", "standard_rate");
    ("vk_netto", "standard_rate");
    ("netto_vk", "standard_rate");
    ("netto-vk", "standard_rate");
    ("verkaufspreis", "standard_rate");
    ("verkaufspreis netto", "standard_rate");
    ("vk brutto", "standard_rate_brutto");
    ("vk_brutto", "standard_rate_brutto");
    ("brutto_vk", "standard_rate_brutto");
    ("verkaufspreis brutto", "standard_rate_brutto");
    ("ek netto", "valuation_rate");
    ("ek_netto", "valuation_rate");
    ("einkaufspreis", "valuation_rate");
    ("einkaufspreis netto", "valuation_rate");
    ("ean", "barcode");
    ("ean/gtin", "barcode");
    ("gtin", "barcode");
    ("barcode", "barcode");
    ("upc", "barcode");
    ("isbn", "barcode");
    ("han", "manufacturer_part_no");
    ("herstellerartikelnummer", "manufacturer_part_no");
    ("hersteller-artikelnummer", "manufacturer_part_no");
    ("hersteller artikelnummer", "manufacturer_part_no");
    ("hersteller", "brand");
    ("marke", "brand");
    ("brand", "brand");
    ("manufacturer", "brand");
    ("gewicht", "weight_per_unit");
    ("artikelgewicht", "weight_per_unit");
    ("versandgewicht", "weight_per_unit");
    ("gewicht (kg)", "weight_per_unit");
    ("laenge", "item_length");
    (("l" ++ (String a_uml "") ++ "nge"), "item_length");
    (("l" ++ (String a_uml "") ++ "nge (cm)"), "item_length");
    ("breite", "item_width");
    ("breite (cm)", "item_width");
    ("hoehe", "item_height");
    (("h" ++ (String o_uml "") ++ "he"), "item_height");
    (("h" ++ (String o_uml "") ++ "he (cm)"), "item_height");
    ("warengruppe", "item_group");
    ("kategorie", "item_group");
    ("artikelgruppe", "item_group");
    ("kategorie ebene 1", "category_level_1");
    ("kategorie ebene 2", "category_level_2");
    ("kategorie ebene 3", "category_level_3");
    ("kategorie ebene 4", "category_level_4");
    ("kategorie (ebene 1)", "category_level_1");
    ("kategorie (ebene 2)", "category_level_2");
    ("kategorie (ebene 3)", "category_level_3");
    ("kategorie (ebene 4)", "category_level_4");
    ("kategorie_ebene_1", "category_level_1");
    ("kategorie_ebene_2", "category_level_2");
    ("kategorie_ebene_3", "category_level_3");
    ("kategorie_ebene_4", "category_level_4");
    ("category level 1", "category_level_1");
    ("category level 2", "category_level_2");
    ("category level 3", "category_level_3");
    ("category level 4", "category_level_4");
    ("kategoriepfad", "category_path");
    ("kategorie_pfad", "category_path");
    ("category_path", "category_path");
    ("hauptkategorie", "category_level_1");
    ("unterkategorie", "category_level_2");
    ("herkunftsland", "country_of_origin");
    ("ursprungsland", "country_of_origin");
    ("taric", "customs_tariff_number");
    ("taric-code", "customs_tariff_number");
    ("zolltarifnummer", "customs_tariff_number");
    ("zolltarif", "customs_tariff_number");
    ("seo titel", "seo_title");
    ("seo-titel", "seo_title");
    ("titel_tag", "seo_title");
    ("titel-tag (seo)", "seo_title");
    ("seo_title", "seo_title");
    ("meta_title", "seo_title");
    ("meta title", "seo_title");
    ("seo beschreibung", "seo_meta_description");
    ("seo-beschreibung", "seo_meta_description");
    ("meta_description", "seo_meta_description");
    ("meta description", "seo_meta_description");
    ("meta-description (seo)", "seo_meta_description");
    ("seo_description", "seo_meta_description");
    ("seo keywords", "seo_keywords");
    ("seo-keywords", "seo_keywords");
    ("meta_keywords", "seo_keywords");
    ("meta keywords", "seo_keywords");
    ("meta-keywords (seo)", "seo_keywords");
    ("suchbegriffe", "seo_keywords");
    ("url pfad", "seo_url_slug");
    ("url-pfad", "seo_url_slug");
    ("url_pfad", "seo_url_slug");
    ("url_slug", "seo_url_slug");
    ("seo url", "seo_url_slug");
    ("lieferstatus", "delivery_time");
    ("lieferzeit", "delivery_time");
    ("lieferzeit text", "delivery_time");
    ("farbe", "jattr_farbe");
    ("material", "jattr_material");
    (("gr" ++ (String o_uml "") ++ (String eszett "") ++ "e"), "jattr_groesse");
    ("groesse", "jattr_groesse");
    ("regalsystem", "jattr_regalsystem");
    ("fachlast", "jattr_fachlast");
    ("feldlast", "jattr_feldlast");
    ("gesamtbreite", "jattr_gesamtbreite_mm");
    ("gesamtbreite (mm)", "jattr_gesamtbreite_mm");
    (("gesamth" ++ (String o_uml "") ++ "he"), "jattr_gesamthoehe_mm");
    (("gesamth" ++ (String o_uml "") ++ "he (mm)"), "jattr_gesamthoehe_mm");
    ("bauweise", "jattr_bauweise");
    ("bodentyp", "jattr_bodentyp");
    (("anzahl b" ++ (String o_uml "") ++ "den"), "jattr_anzahl_boeden");
    ("anzahl boeden", "jattr_anzahl_boeden");
    ("ist vaterartikel", "has_variants");
    ("vaterartikel", "has_variants");
    ("identifizierungsspalte vaterartikel", "variant_of");
    ("variante von", "variant_of");
    ("lagerbestand", "opening_stock");
    ("bestand", "opening_stock");
    (("verf" ++ (String u_uml "") ++ "gbar"), "opening_stock");
    ("kategoriename", "item_group_name");
    ("oberkategorie", "parent_item_group")
  ].

(** ** Mapping resolver (ERPNextImporterApp, main.py)

    The application keeps [field_mappings], a dict from source column to
    [FieldMapping], and one mapping row per source column in
    [mapping_list.controls]; each row shows the source text and a dropdown
    holding the chosen target.  [mapping_dropdowns] maps a column name to the
    dropdown of the row created last for that name. *)

Record FieldMapping := mkFieldMapping {
  source_column : string;
  target_field : string;
  transform : string;
  default_value : string
}.

(** [FieldMapping(source_column=s, target_field=t)] with the dataclass
    defaults. *)
Definition new_mapping (s t : string) : FieldMapping :=
  mkFieldMapping s t "none" "".

Definition with_target (m : FieldMapping) (t : string) : FieldMapping :=
  mkFieldMapping (source_column m) t (transform m) (default_value m).

(** What the mapping handlers pass to [self.log]; each constructor carries
    exactly the values interpolated into the message. *)
Inductive notice :=
  | NoticeEvicted (target : string)
      (* "Feld '{target_field}' war bereits vergeben - altes Mapping entfernt" *)
  | NoticeAutoMapped (count : nat)
      (* "Auto-Mapping: {mapped_count} Felder zugeordnet" *)
  | NoticeAIMapped (count : nat)
      (* "AI Smart-Mapping: {mapped_count} Felder intelligent zugeordnet ..." *)
  | NoticeAINothing
      (* "AI konnte keine Mappings ermitteln", error *)
  | NoticeCleared.
      (* "Alle Mappings geloescht" *)

Record control := mkControl {
  source_text : string;
  dropdown_value : string
}.

Record MappingState := mkMappingState {
  field_mappings : PyDict.t FieldMapping;
  controls : list control;
  notices : list notice
}.

Module Mapping.

Definition mem_str (x : string) (l : list string) : bool :=
  existsb (String.eqb x) l.

(** [source.lower().replace(" ", "_").replace("-", "_")] *)
Definition col_lower (source : string) : string :=
  PyStr.replace "-" "_" (PyStr.replace " " "_" (PyStr.lower source)).

(** [re.sub(r'[^a-z0-9_]', '', col_lower)] *)
Definition col_normalized (source : string) : string :=
  PyStr.strip_non_word (col_lower source).

Section Rules.
Variable rules : PyDict.t string.

(** The fuzzy loop of [auto_map_fields]: [if rule_key in col_lower]. *)
Fixpoint fuzzy_forward_in (rs : PyDict.t string) (cl : string) : string :=
  match rs with
  | [] => ""
  | (rule_key, rule_target) :: r =>
      if PyStr.is_substring rule_key cl then rule_target
      else fuzzy_forward_in r cl
  end.

(** The fuzzy loop of [_create_mapping_row]:
    [if rule_key in col_lower or col_lower in rule_key]. *)
Fixpoint fuzzy_both_in (rs : PyDict.t string) (cl : string) : string :=
  match rs with
  | [] => ""
  | (rule_key, rule_target) :: r =>
      if PyStr.is_substring rule_key cl || PyStr.is_substring cl rule_key
      then rule_target
      else fuzzy_both_in r cl
  end.

(** The target computed per row by [auto_map_fields]. *)
Definition auto_map_target (source : string) : string :=
  match PyDict.get (col_lower source) rules with
  | Some t => t
  | None =>
      match PyDict.get (col_normalized source) rules with
      | Some t => t
      | None => fuzzy_forward_in rules (col_lower source)
      end
  end.

(** The target computed by [_create_mapping_row] when a file is loaded. *)
Definition create_row_target (source : string) : string :=
  match PyDict.get (col_lower source) rules with
  | Some t => t
  | None =>
      match PyDict.get (col_normalized source) rules with
      | Some t => t
      | None => fuzzy_both_in rules (col_lower source)
      end
  end.

(** [_create_mapping_row]: stores the auto-assigned mapping (no check for
    targets already taken) and returns the row. *)
Definition create_mapping_row (source_col : string)
    (fm : PyDict.t FieldMapping) : control * PyDict.t FieldMapping :=
  let auto_target := create_row_target source_col in
  let fm' := if PyStr.is_empty auto_target then fm
             else PyDict.set source_col (new_mapping source_col auto_target) fm in
  (mkControl source_col auto_target, fm').

(** [update_mapping_list]: rebuilds the rows; [field_mappings] is not
    cleared. *)
Fixpoint create_rows (cols : list string) (fm : PyDict.t FieldMapping)
  : list control * PyDict.t FieldMapping :=
  match cols with
  | [] => ([], fm)
  | c :: r =>
      let '(row, fm1) := create_mapping_row c fm in
      let '(rows, fm2) := create_rows r fm1 in
      (row :: rows, fm2)
  end.

Definition update_mapping_list (source_columns : list string)
    (st : MappingState) : MappingState :=
  let '(rows, fm) := create_rows source_columns (field_mappings st) in
  mkMappingState fm rows (notices st).

(** The loop of [auto_map_fields] over the rows.  Returns the rows with
    their dropdowns updated, the mappings, [used_targets] and
    [mapped_count]. *)
Fixpoint auto_map_loop (cs : list control) (fm : PyDict.t FieldMapping)
    (used_targets : list string) (mapped_count : nat)
  : list control * PyDict.t FieldMapping * list string * nat :=
  match cs with
  | [] => ([], fm, used_targets, mapped_count)
  | c :: r =>
      let target := auto_map_target (source_text c) in
      if negb (PyStr.is_empty target) && negb (mem_str target used_targets)
      then
        let '(r', fm', used', n') :=
          auto_map_loop r
            (PyDict.set (source_text c) (new_mapping (source_text c) target) fm)
            (target :: used_targets) (S mapped_count) in
        (mkControl (source_text c) target :: r', fm', used', n')
      else
        let '(r', fm', used', n') := auto_map_loop r fm used_targets mapped_count in
        (c :: r', fm', used', n')
  end.

Definition auto_map_fields (st : MappingState) : MappingState :=
  let '(cs, fm, _, n) := auto_map_loop (controls st) (field_mappings st) [] 0 in
  mkMappingState fm cs (notices st ++ [NoticeAutoMapped n]).

End Rules.

(** [self.mapping_dropdowns[col].value = v]: the dropdown registered for
    [col] is the one of the last row with that source text. *)
Fixpoint set_first_dropdown (col v : string) (cs : list control) : list control :=
  match cs with
  | [] => []
  | c :: r =>
      if String.eqb (source_text c) col then mkControl (source_text c) v :: r
      else c :: set_first_dropdown col v r
  end.

Definition set_registered_dropdown (col v : string) (cs : list control)
  : list control :=
  rev (set_first_dropdown col v (rev cs)).

(** [self.mapping_dropdowns.get(col)]: the row whose dropdown is registered
    for [col], if there is one. *)
Definition registered_dropdown (col : string) (cs : list control)
  : option control :=
  find (fun c => String.eqb (source_text c) col) (rev cs).

(** One iteration of the eviction loop of [on_mapping_changed] over the
    snapshot [list(self.field_mappings.items())]. *)
Definition evict_step (source_col target : string) (st : MappingState)
    (item : string * FieldMapping) : MappingState :=
  let '(other_col, mapping) := item in
  if negb (String.eqb other_col source_col)
     && String.eqb (target_field mapping) target
  then mkMappingState
         (PyDict.remove other_col (field_mappings st))
         (set_registered_dropdown other_col "" (controls st))
         (notices st ++ [NoticeEvicted target])
  else st.

Definition on_mapping_changed (source_col target : string)
    (st : MappingState) : MappingState :=
  if negb (PyStr.is_empty target) then
    let st1 := fold_left (evict_step source_col target) (field_mappings st) st in
    let fm := field_mappings st1 in
    let fm' :=
      match PyDict.get source_col fm with
      | None => PyDict.set source_col (new_mapping source_col target) fm
      | Some m => PyDict.set source_col (with_target m target) fm
      end in
    mkMappingState fm' (controls st1) (notices st1)
  else if PyDict.mem source_col (field_mappings st) then
    mkMappingState (PyDict.remove source_col (field_mappings st))
                   (controls st) (notices st)
  else st.

(** The user picks [target] in the dropdown of row [i]: the widget takes the
    value and its [on_change] handler calls [on_mapping_changed] with the
    row's column. *)
Fixpoint set_dropdown_at (i : nat) (v : string) (cs : list control) : list control :=
  match cs, i with
  | [], _ => []
  | c :: r, O => mkControl (source_text c) v :: r
  | c :: r, S j => c :: set_dropdown_at j v r
  end.

Definition select_target (i : nat) (target : string) (st : MappingState)
  : MappingState :=
  match nth_error (controls st) i with
  | None => st
  | Some c =>
      on_mapping_changed (source_text c) target
        (mkMappingState (field_mappings st)
                        (set_dropdown_at i target (controls st)) (notices st))
  end.

Definition on_transform_changed (source_col tr : string) (st : MappingState)
  : MappingState :=
  match PyDict.get source_col (field_mappings st) with
  | Some m =>
      mkMappingState
        (PyDict.set source_col
           (mkFieldMapping (source_column m) (target_field m) tr (default_value m))
           (field_mappings st))
        (controls st) (notices st)
  | None => st
  end.

Definition on_default_changed (source_col dv : string) (st : MappingState)
  : MappingState :=
  match PyDict.get source_col (field_mappings st) with
  | Some m =>
      mkMappingState
        (PyDict.set source_col
           (mkFieldMapping (source_column m) (target_field m) (transform m) dv)
           (field_mappings st))
        (controls st) (notices st)
  | None => st
  end.

(** [clear_mappings] *)
Definition clear_mappings (st : MappingState) : MappingState :=
  mkMappingState []
    (map (fun c => mkControl (source_text c) "") (controls st))
    (notices st ++ [NoticeCleared]).

(** Column [col] holds target [t] in the mapping set. *)
Definition holds (fm : PyDict.t FieldMapping) (col t : string) : Prop :=
  exists m, PyDict.get col fm = Some m /\ target_field m = t.

(** Each non-empty target field is held by at most one source column. *)
Definition unique_targets (fm : PyDict.t FieldMapping) : Prop :=
  forall c1 c2 t, t <> "" -> holds fm c1 t -> holds fm c2 t -> c1 = c2.

(** Every target held in [fm] is recorded in [used], and no target is held
    by two columns: what a mapping pass maintains between its rows. *)
Definition pass_invariant (fm : PyDict.t FieldMapping) (used : list string) : Prop :=
  (forall c t, holds fm c t -> In t used)
  /\ (forall c1 c2 t, holds fm c1 t -> holds fm c2 t -> c1 = c2).

(** The test of the eviction loop of [on_mapping_changed]. *)
Definition evicted_by (source_col target : string)
    (item : string * FieldMapping) : bool :=
  negb (String.eqb (fst item) source_col)
  && String.eqb (target_field (snd item)) target.

(** The validation at the end of [GeminiAPI.smart_map_fields]: keep a
    proposal when its source is a source column and its target a key of the
    target catalog. *)
Fixpoint validate_suggestion (mapping : PyDict.t string)
    (source_columns valid_targets : list string) : PyDict.t string :=
  match mapping with
  | [] => []
  | (source, target) :: r =>
      let rest := validate_suggestion r source_columns valid_targets in
      if mem_str source source_columns && mem_str target valid_targets
      then (source, target) :: rest else rest
  end.

(** The loop of [_run_ai_mapping] over the rows. *)
Fixpoint ai_map_loop (ai_mappings : PyDict.t string) (cs : list control)
    (fm : PyDict.t FieldMapping) (used_targets : list string) (mapped_count : nat)
  : list control * PyDict.t FieldMapping * list string * nat :=
  match cs with
  | [] => ([], fm, used_targets, mapped_count)
  | c :: r =>
      match PyDict.get (source_text c) ai_mappings with
      | Some target =>
          if negb (mem_str target used_targets) then
            let '(r', fm', used', n') :=
              ai_map_loop ai_mappings r
                (PyDict.set (source_text c) (new_mapping (source_text c) target) fm)
                (target :: used_targets) (S mapped_count) in
            (mkControl (source_text c) target :: r', fm', used', n')
          else
            let '(r', fm', used', n') :=
              ai_map_loop ai_mappings r fm used_targets mapped_count in
            (c :: r', fm', used', n')
      | None =>
          let '(r', fm', used', n') :=
            ai_map_loop ai_mappings r fm used_targets mapped_count in
          (c :: r', fm', used', n')
      end
  end.

(** [_run_ai_mapping], given the validated proposals the advisor returned;
    an empty answer changes nothing. *)
Definition run_ai_mapping (ai_mappings : PyDict.t string) (st : MappingState)
  : MappingState :=
  match ai_mappings with
  | [] => mkMappingState (field_mappings st) (controls st)
            (notices st ++ [NoticeAINothing])
  | _ =>
      let '(cs, fm, _, n) :=
        ai_map_loop ai_mappings (controls st) (field_mappings st) [] 0 in
      mkMappingState fm cs (notices st ++ [NoticeAIMapped n])
  end.

(** What a row proposes in a rule-based pass (a target that is not empty)
    and in an AI pass (the proposal stored for its column). *)
Definition rule_proposal (rules : PyDict.t string) (source : string)
  : option string :=
  let target := auto_map_target rules source in
  if PyStr.is_empty target then None else Some target.

Definition ai_proposal (ai_mappings : PyDict.t string) (source : string)
  : option string :=
  PyDict.get source ai_mappings.

(** The loop the two passes share: a row whose proposal is not among
    [used_targets] is assigned, every other row is passed over. *)
Fixpoint claim_loop (proposal : string -> option string) (cs : list control)
    (fm : PyDict.t FieldMapping) (used_targets : list string) (mapped_count : nat)
  : list control * PyDict.t FieldMapping * list string * nat :=
  match cs with
  | [] => ([], fm, used_targets, mapped_count)
  | c :: r =>
      match proposal (source_text c) with
      | Some target =>
          if negb (mem_str target used_targets) then
            let '(r', fm', used', n') :=
              claim_loop proposal r
                (PyDict.set (source_text c) (new_mapping (source_text c) target) fm)
                (target :: used_targets) (S mapped_count) in
            (mkControl (source_text c) target :: r', fm', used', n')
          else
            let '(r', fm', used', n') :=
              claim_loop proposal r fm used_targets mapped_count in
            (c :: r', fm', used', n')
      | None =>
          let '(r', fm', used', n') :=
            claim_loop proposal r fm used_targets mapped_count in
          (c :: r', fm', used', n')
      end
  end.

(** Proposal [p] is the target [t]. *)
Definition proposes (t : string) (p : option string) : bool :=
  match p with
  | Some t' => String.eqb t' t
  | None => false
  end.

(** The target row [i] claims in a pass over rows with these proposals: its
    own proposal, if no row before it proposed the same target. *)
Definition first_claim (proposals : list (option string)) (i : nat)
  : option string :=
  match nth_error proposals i with
  | Some (Some t) =>
      if existsb (proposes t) (firstn i proposals) then None else Some t
  | _ => None
  end.

(** The number of rows of a pass that claim a target. *)
Definition claim_count (proposals : list (option string)) : nat :=
  List.length
    (List.filter (fun i => match first_claim proposals i with
                           | Some _ => true
                           | None => false
                           end)
                 (seq 0 (List.length proposals))).

(** Every mapping is filed under its own source column. *)
Definition keyed (fm : PyDict.t FieldMapping) : Prop :=
  forall c m, PyDict.get c fm = Some m -> source_column m = c.

(** Every row that shows a target shows the one stored for its column. *)
Definition dropdowns_agree (st : MappingState) : Prop :=
  forall c, In c (controls st) -> dropdown_value c <> "" ->
            holds (field_mappings st) (source_text c) (dropdown_value c).

End Mapping.

(** ** Python floats: IEEE-754 binary64

    Values are [spec_float]; every operation rounds to nearest, ties to
    even, with exact integer arithmetic underneath. *)

Module PyFloat.

Local Open Scope Z_scope.

Definition prec : Z := 53.
Definition emax : Z := 1024.

Definition t := spec_float.

(** The binary64 value nearest to the rational [p / q]. *)
Definition of_ratio (neg : bool) (p q : positive) : t :=
  let '(mz, ez, lz) := SFdiv_core_binary prec emax (Zpos p) 0 (Zpos q) 0 in
  binary_round_aux prec emax neg mz ez lz.

(** The value nearest to [m * 10^e], the result of reading a decimal
    numeral with digit string [m] and decimal exponent [e]. *)
Definition of_decimal (neg : bool) (m : Z) (e : Z) : t :=
  match m with
  | Zpos p =>
      match e with
      | Zneg k => of_ratio neg p (Pos.pow 10 k)
      | Z0 => binary_round prec emax neg p 0
      | Zpos k => binary_round prec emax neg (p * Pos.pow 10 k) 0
      end
  | _ => S754_zero neg
  end.

(** [float(n)] for a Python int; [None] stands for [OverflowError]
    ("int too large to convert to float"). *)
Definition of_int (n : Z) : option t :=
  match binary_normalize prec emax n 0 false with
  | S754_infinity _ => None
  | x => Some x
  end.

Definition div (x y : t) : t := SFdiv prec emax x y.
Definition mul (x y : t) : t := SFmul prec emax x y.
Definition add (x y : t) : t := SFadd prec emax x y.

(** [x == y] on floats. *)
Definition eqb (x y : t) : bool := SFeqb x y.

(** Truth value of a float: [x != 0.0]; NaN is true. *)
Definition truthy (x : t) : bool :=
  match x with
  | S754_zero _ => false
  | _ => true
  end.

(** Round half to even of the rational [n / d] ([d > 0]) to an integer. *)
Definition round_half_even (n : Z) (d : Z) : Z :=
  let q := Z.div n d in
  let r := Z.modulo n d in
  match Z.compare (2 * r) d with
  | Lt => q
  | Gt => q + 1
  | Eq => if Z.even q then q else q + 1
  end.

(** [round(x, 2)]: the exact value of [x] is rounded half-even to two
    decimals and the resulting decimal numeral is read back as a float.
    NaN and the infinities round to themselves. *)
Definition round2 (x : t) : t :=
  match x with
  | S754_finite s m e =>
      let n :=
        match e with
        | Zneg k => round_half_even (Zpos m * 100) (Zpos (Pos.pow 2 k))
        | _ => Zpos m * 100 * Z.pow 2 e
        end in
      of_decimal s n (-2)
  | _ => x
  end.

(** *** [float(s)] for a string

    The accepted syntax after stripping white space: an optional sign, then
    [inf], [infinity] or [nan] in any letter case, or a decimal numeral
    [digits [. digits] [(e|E) [sign] digits]] with at least one mantissa
    digit.  A single underscore may separate two digits. *)

Definition digit_val (c : ascii) : Z := Z.of_nat (PyStr.code c - 48)%nat.

(** Reads a maximal run of ASCII digits: value so far, count, rest. *)
Fixpoint span_digits (acc : Z) (n : nat) (s : string) : Z * nat * string :=
  match s with
  | String c r =>
      if PyStr.is_ascii_digit c
      then span_digits (acc * 10 + digit_val c) (S n) r
      else (acc, n, s)
  | EmptyString => (acc, n, s)
  end.

(** Removes underscores, each of which must stand between two digits.
    [prev] is the previous character. *)
Fixpoint remove_underscores (prev : option ascii) (s : string) : option string :=
  match s with
  | EmptyString =>
      match prev with
      | Some p => if Ascii.eqb p "_" then None else Some EmptyString
      | None => Some EmptyString
      end
  | String c r =>
      let prev_digit :=
        match prev with Some p => PyStr.is_ascii_digit p | None => false end in
      let prev_us :=
        match prev with Some p => Ascii.eqb p "_" | None => false end in
      if Ascii.eqb c "_" then
        if prev_digit then remove_underscores (Some c) r else None
      else if prev_us && negb (PyStr.is_ascii_digit c) then None
      else match remove_underscores (Some c) r with
           | Some r' => Some (String c r')
           | None => None
           end
  end.

Definition parse_sign (s : string) : bool * string :=
  match s with
  | String c r =>
      if Ascii.eqb c "-" then (true, r)
      else if Ascii.eqb c "+" then (false, r)
      else (false, s)
  | EmptyString => (false, s)
  end.

Definition parse_exponent (s : string) : option Z :=
  match s with
  | EmptyString => Some 0
  | String c r =>
      if Ascii.eqb c "e" || Ascii.eqb c "E" then
        let '(neg, r1) := parse_sign r in
        match span_digits 0 0 r1 with
        | (_, O, _) => None
        | (v, S _, EmptyString) => Some (if neg then - v else v)
        | _ => None
        end
      else None
  end.

Definition parse_decimal (neg : bool) (s : string) : option t :=
  let '(ip, ni, r1) := span_digits 0 0 s in
  let '(m, nf, r2) :=
    match r1 with
    | String c r =>
        if Ascii.eqb c "." then span_digits ip 0 r else (ip, O, r1)
    | EmptyString => (ip, O, r1)
    end in
  match (ni + nf)%nat with
  | O => None
  | S _ =>
      match parse_exponent r2 with
      | Some e => Some (of_decimal neg m (e - Z.of_nat nf))
      | None => None
      end
  end.

Definition parse_body (neg : bool) (s : string) : option t :=
  let l := PyStr.lower s in
  if String.eqb l "inf" || String.eqb l "infinity" then Some (S754_infinity neg)
  else if String.eqb l "nan" then Some S754_nan
  else parse_decimal neg s.

(** The white space [float()] skips around the text: TAB..CR and SPACE,
    and NEL and NBSP, which it first turns into spaces.  FS..US, which
    [str.strip] removes, are not skipped. *)
Definition is_float_space (c : ascii) : bool :=
  PyStr.between 9 13 c || (PyStr.code c =? 32)%nat
  || (PyStr.code c =? 133)%nat || (PyStr.code c =? 160)%nat.

Fixpoint skip_left (s : string) : string :=
  match s with
  | EmptyString => EmptyString
  | String c r => if is_float_space c then skip_left r else s
  end.

Fixpoint skip_right (s : string) : string :=
  match s with
  | EmptyString => EmptyString
  | String c r =>
      match skip_right r with
      | EmptyString => if is_float_space c then EmptyString else String c EmptyString
      | r' => String c r'
      end
  end.

(** [float(s)]; [None] stands for [ValueError]. *)
Definition of_string (s : string) : option t :=
  match remove_underscores None (skip_right (skip_left s)) with
  | Some s1 => let '(neg, s2) := parse_sign s1 in parse_body neg s2
  | None => None
  end.

(** *** [repr(x)], which is also [str(x)]

    The shortest decimal digit string that reads back as [x] (the nearest
    to [x] among the shortest), printed in fixed notation when the decimal
    point position [decpt] satisfies [-4 < decpt <= 16] and in exponent
    notation otherwise. *)

Definition pow10 (k : Z) : Z := Z.pow 10 k.

(** Rationals [n / d] with [d > 0], scaled by a power of ten. *)
Definition scale10 (q : Z * Z) (j : Z) : Z * Z :=
  let '(n, d) := q in
  if 0 <=? j then (n * pow10 j, d) else (n, d * pow10 (- j)).

Definition q_of_bin (n : Z) (e : Z) : Z * Z :=
  if 0 <=? e then (n * Z.pow 2 e, 1) else (n, Z.pow 2 (- e)).

(** [10^k <= n/d] *)
Definition pow10_le (k : Z) (q : Z * Z) : bool :=
  let '(n, d) := scale10 q (- k) in d <=? n.

Fixpoint find_decpt (fuel : nat) (k : Z) (q : Z * Z) : Z :=
  match fuel with
  | O => k
  | S f => if pow10_le k q then find_decpt f (k + 1) q else k
  end.

Definition decpt_of (m : positive) (e : Z) : Z :=
  let d := Z.pos (digits2_pos m) + e in
  find_decpt 8 ((d - 1) * 30103 / 100000 - 1) (q_of_bin (Zpos m) e).

(** Does the decimal [c] (in the current unit) read back as the float? *)
Definition in_interval (inclusive : bool) (lo hi : Z * Z) (c : Z) : bool :=
  let '(nl, dl) := lo in
  let '(nh, dh) := hi in
  if inclusive then (nl <=? c * dl) && (c * dh <=? nh)
  else (nl <? c * dl) && (c * dh <? nh).

Fixpoint shortest (fuel : nat) (n : Z) (k : Z) (inclusive : bool)
    (x lo hi : Z * Z) : Z * Z :=
  match fuel with
  | O => (0, n)
  | S f =>
      let j := n - k in
      let '(nx, dx) := scale10 x j in
      let lo' := scale10 lo j in
      let hi' := scale10 hi j in
      let c1 := nx / dx in
      let c2 := c1 + 1 in
      let ok1 := in_interval inclusive lo' hi' c1 in
      let ok2 := in_interval inclusive lo' hi' c2 in
      if ok1 && ok2 then
        match Z.compare (nx - c1 * dx) (c2 * dx - nx) with
        | Lt => (c1, n)
        | Gt => (c2, n)
        | Eq => (if Z.even c1 then c1 else c2, n)
        end
      else if ok1 then (c1, n)
      else if ok2 then (c2, n)
      else shortest f (n + 1) k inclusive x lo hi
  end.

Fixpoint rstrip_zeros (s : string) : string :=
  match s with
  | EmptyString => EmptyString
  | String c r =>
      match rstrip_zeros r with
      | EmptyString => if Ascii.eqb c "0" then EmptyString else String c EmptyString
      | r' => String c r'
      end
  end.

Definition string_of_Z (z : Z) : string :=
  match z with
  | Zpos p => NilEmpty.string_of_uint (Pos.to_uint p)
  | Z0 => "0"
  | Zneg p => String "-" (NilEmpty.string_of_uint (Pos.to_uint p))
  end.

Fixpoint zeros (n : nat) : string :=
  match n with O => EmptyString | S k => String "0" (zeros k) end.

Fixpoint take (n : nat) (s : string) : string :=
  match n, s with
  | S k, String c r => String c (take k r)
  | _, _ => EmptyString
  end.

(** Digits (without trailing zeros) and [decpt] of a positive finite
    float: the value is [0.digits * 10^decpt]. *)
Definition shortest_digits (m : positive) (e : Z) : string * Z :=
  let k := decpt_of m e in
  let boundary := (Zpos m =? Z.pow 2 (prec - 1)) && (3 - emax - prec <? e) in
  let x := q_of_bin (4 * Zpos m) (e - 2) in
  let lo := q_of_bin (if boundary then 4 * Zpos m - 1 else 4 * Zpos m - 2) (e - 2) in
  let hi := q_of_bin (4 * Zpos m + 2) (e - 2) in
  let '(c, n) := shortest 17 1 k (Z.even (Zpos m)) x lo hi in
  let full := string_of_Z c in
  (rstrip_zeros full, k + (Z.of_nat (String.length full) - n)).

Definition format_repr (digits : string) (decpt : Z) : string :=
  let len := Z.of_nat (String.length digits) in
  if (decpt <=? -4) || (16 <? decpt) then
    let ex := decpt - 1 in
    let mant :=
      match digits with
      | String c EmptyString => String c EmptyString
      | String c r => String c (String "." r)
      | EmptyString => EmptyString
      end in
    let ea := Z.abs ex in
    (mant ++ "e" ++ (if (ex <? 0)%Z then "-" else "+")
       ++ (if (ea <? 10)%Z then "0" else "") ++ string_of_Z ea)%string
  else if decpt <=? 0 then
    ("0." ++ zeros (Z.to_nat (- decpt)%Z) ++ digits)%string
  else if len <=? decpt then
    (digits ++ zeros (Z.to_nat (decpt - len)%Z) ++ ".0")%string
  else
    (take (Z.to_nat decpt) digits ++ "."
       ++ PyStr.drop (Z.to_nat decpt) digits)%string.

Definition repr (x : t) : string :=
  match x with
  | S754_nan => "nan"
  | S754_infinity false => "inf"
  | S754_infinity true => "-inf"
  | S754_zero false => "0.0"
  | S754_zero true => "-0.0"
  | S754_finite s m e =>
      let '(digits, decpt) := shortest_digits m e in
      ((if s then "-" else "") ++ format_repr digits decpt)%string
  end.

End PyFloat.

(** ** Python values and exceptions *)

Set Warnings "-register-all".

Inductive pyval :=
  | VNone
  | VBool (b : bool)
  | VInt (n : Z)
  | VFloat (x : PyFloat.t)
  | VStr (s : string)
  | VList (l : list pyval)
  | VDict (d : list (string * pyval)).

Inductive exn :=
  | ValueError
  | TypeError
  | AttributeError
  | OverflowError
  | ZeroDivisionError
  | KeyError (key : string)
  | RequestError (msg : string).
      (* anything raised by the HTTP layer, with its [str(e)] *)

Inductive result (A : Type) :=
  | Ok (a : A)
  | Raise (e : exn).

Arguments Ok {A}.
Arguments Raise {A}.

Definition bind {A B : Type} (r : result A) (k : A -> result B) : result B :=
  match r with
  | Ok a => k a
  | Raise e => Raise e
  end.

Module PyVal.

(** Truth value, as tested by [if v:], [v or d], [not v]. *)
Definition truthy (v : pyval) : bool :=
  match v with
  | VNone => false
  | VBool b => b
  | VInt n => negb (n =? 0)%Z
  | VFloat x => PyFloat.truthy x
  | VStr s => negb (PyStr.is_empty s)
  | VList l => match l with [] => false | _ => true end
  | VDict d => match d with [] => false | _ => true end
  end.

Definition hex_digit (n : nat) : ascii :=
  if (n <? 10)%nat then ascii_of_nat (48 + n) else ascii_of_nat (87 + n).

(** Characters [repr] of a string prints as they are. *)
Definition is_printable (c : ascii) : bool :=
  PyStr.between 32 126 c
  || (PyStr.between 161 255 c && negb (PyStr.code c =? 173)%nat).

Definition repr_char (quote : ascii) (c : ascii) : string :=
  if Ascii.eqb c quote || Ascii.eqb c "\" then String "\" (String c "")
  else if (PyStr.code c =? 10)%nat then "\n"
  else if (PyStr.code c =? 13)%nat then "\r"
  else if (PyStr.code c =? 9)%nat then "\t"
  else if is_printable c then String c ""
  else String "\" (String "x"
         (String (hex_digit (PyStr.code c / 16))
            (String (hex_digit (PyStr.code c mod 16)) ""))).

Fixpoint repr_chars (quote : ascii) (s : string) : string :=
  match s with
  | EmptyString => EmptyString
  | String c r => repr_char quote c ++ repr_chars quote r
  end.

(** [repr(s)] of a string: single quotes unless the string has a single
    quote and no double quote. *)
Definition repr_str (s : string) : string :=
  let dq := ascii_of_nat 34 in
  let quote :=
    if PyStr.contains_char "'" s && negb (PyStr.contains_char dq s)
    then dq else "'"%char in
  String quote (repr_chars quote s ++ String quote "").

Fixpoint repr (v : pyval) : string :=
  match v with
  | VNone => "None"
  | VBool true => "True"
  | VBool false => "False"
  | VInt n => PyFloat.string_of_Z n
  | VFloat x => PyFloat.repr x
  | VStr s => repr_str s
  | VList l => "[" ++ PyStr.join ", " (map repr l) ++ "]"
  | VDict d =>
      "{" ++ PyStr.join ", "
               (map (fun kv => repr_str (fst kv) ++ ": " ++ repr (snd kv)) d)
          ++ "}"
  end.

(** [str(v)]; also what an f-string interpolates. *)
Definition str (v : pyval) : string :=
  match v with
  | VStr s => s
  | _ => repr v
  end.

(** [a == b] on the values that can be dictionary keys here. *)
Definition num_of (v : pyval) : option Z :=
  match v with
  | VBool b => Some (if b then 1 else 0)%Z
  | VInt n => Some n
  | VFloat (S754_zero _) => Some 0%Z
  | VFloat (S754_finite s m (Zpos e)) =>
      Some (if s then - (Zpos m * Z.pow 2 (Zpos e)) else Zpos m * Z.pow 2 (Zpos e))%Z
  | VFloat (S754_finite s m Z0) => Some (if s then Zneg m else Zpos m)
  | VFloat (S754_finite s m (Zneg e)) =>
      if (Zpos m mod Z.pow 2 (Zpos e) =? 0)%Z
      then Some (if s then - (Zpos m / Z.pow 2 (Zpos e)) else Zpos m / Z.pow 2 (Zpos e))%Z
      else None
  | _ => None
  end.

Definition eqb (a b : pyval) : bool :=
  match a, b with
  | VNone, VNone => true
  | VStr s, VStr t => String.eqb s t
  | VFloat x, VFloat y => PyFloat.eqb x y
  | _, _ =>
      match num_of a, num_of b with
      | Some m, Some n => (m =? n)%Z
      | _, _ => false
      end
  end.

Definition is_str (v : pyval) : bool :=
  match v with VStr _ => true | _ => false end.

Definition eq_str (v : pyval) (s : string) : bool :=
  match v with VStr t => String.eqb t s | _ => false end.

End PyVal.

(** ** Value transform library (erpnext_importer/utils.py) *)

Module Utils.

Definition zero : PyFloat.t := S754_zero false.

(** [None if allow_empty else 0.0] *)
Definition fallback (allow_empty : bool) : option PyFloat.t :=
  if allow_empty then None else Some zero.

(** The string branch of [parse_number] after [strip]: remove spaces, apply
    the German convention, leave the rest to [float]. *)
Definition normalize_number (str_val : string) : string :=
  let s := PyStr.replace " " "" str_val in
  if PyStr.contains_char "," s && PyStr.contains_char "." s
  then PyStr.replace "," "." (PyStr.replace "." "" s)
  else if PyStr.contains_char "," s then PyStr.replace "," "." s
  else s.

(** The body of the [try] block of [parse_number]. *)
Definition parse_number_try (value : pyval) (allow_empty : bool)
  : result (option PyFloat.t) :=
  match value with
  | VBool b => Ok (Some (PyFloat.of_decimal false (if b then 1 else 0) 0))
  | VInt n =>
      match PyFloat.of_int n with
      | Some x => Ok (Some x)
      | None => Raise OverflowError
      end
  | VFloat x => Ok (Some x)
  | _ =>
      let str_val := PyStr.strip (PyVal.str value) in
      if PyStr.is_empty str_val then Ok (fallback allow_empty)
      else match PyFloat.of_string (normalize_number str_val) with
           | Some x => Ok (Some x)
           | None => Raise ValueError
           end
  end.

(** [parse_number(value, allow_empty)]: [except (ValueError, TypeError)]
    turns those two exceptions into the fallback; any other propagates. *)
Definition parse_number (value : pyval) (allow_empty : bool)
  : result (option PyFloat.t) :=
  match value with
  | VNone => Ok (fallback allow_empty)
  | VStr EmptyString => Ok (fallback allow_empty)
  | _ =>
      match parse_number_try value allow_empty with
      | Raise ValueError => Ok (fallback allow_empty)
      | Raise TypeError => Ok (fallback allow_empty)
      | r => r
      end
  end.

Definition hundred : PyFloat.t := PyFloat.of_decimal false 100 0.
Definition one : PyFloat.t := PyFloat.of_decimal false 1 0.

(** [brutto_to_netto(brutto, tax_rate)]; a zero divisor (tax rate -100)
    raises [ZeroDivisionError]. *)
Definition brutto_to_netto (brutto : option PyFloat.t) (tax_rate : PyFloat.t)
  : result PyFloat.t :=
  match brutto with
  | None => Ok zero
  | Some b =>
      if PyFloat.eqb b zero then Ok zero
      else
        let tax_divisor := PyFloat.add one (PyFloat.div tax_rate hundred) in
        if PyFloat.eqb tax_divisor zero then Raise ZeroDivisionError
        else Ok (PyFloat.round2 (PyFloat.div b tax_divisor))
  end.

Definition netto_to_brutto (netto : option PyFloat.t) (tax_rate : PyFloat.t)
  : PyFloat.t :=
  match netto with
  | None => zero
  | Some n =>
      if PyFloat.eqb n zero then zero
      else PyFloat.round2
             (PyFloat.mul n (PyFloat.add one (PyFloat.div tax_rate hundred)))
  end.

Definition INVALID_BARCODES : list string :=
  ["0"; "00000000"; "0000000000000"; "4017980000000"].

Definition is_valid_barcode (barcode : string) : bool :=
  if PyStr.is_empty barcode then false
  else
    let b := PyStr.strip barcode in
    if negb (PyStr.isdigit b) then false
    else if (String.length b <? 8)%nat then false
    else if existsb (String.eqb b) INVALID_BARCODES then false
    else true.

Definition detect_barcode_type (barcode : string) : string :=
  if PyStr.is_empty barcode then "EAN"
  else
    let length := String.length (PyStr.strip barcode) in
    if (length =? 13)%nat then
      if String.prefix "978" barcode || String.prefix "979" barcode
      then "ISBN" else "EAN"
    else if (length =? 12)%nat then "UPC-A"
    else if (length =? 8)%nat then "EAN-8"
    else "EAN".

(** [result[:n]]: the first [n] characters, or all but the last [-n] when
    [n] is negative. *)
Definition slice_to (n : Z) (s : string) : string :=
  if (0 <=? n)%Z then PyFloat.take (Z.to_nat n) s
  else PyFloat.take (String.length s - Z.to_nat (- n)) s.

(** [clean_string(value, strip, max_length)]; [max_length] is an int or
    [None]. *)
Definition clean_string (value : pyval) (strip : bool) (max_length : option Z)
  : string :=
  match value with
  | VNone => ""
  | _ =>
      let result := PyVal.str value in
      let result := if strip then PyStr.strip result else result in
      match max_length with
      | Some n =>
          if negb (n =? 0)%Z && (n <? Z.of_nat (String.length result))%Z
          then slice_to n result else result
      | None => result
      end
  end.

End Utils.

(** ** The ERPNext REST client (class ERPNextAPI)

    The remote system is an oracle [remote history request] giving the
    outcome of each HTTP request from the requests answered before it.
    The client state holds the two name caches and the list [sent] of
    requests issued so far, oldest first. *)

Inductive http_method := GET | POST | PUT | DELETE.

Record request := mkRequest {
  req_method : http_method;
  req_endpoint : string;
  req_data : option (PyDict.t pyval)
}.

Inductive response :=
  | RespJson (body : PyDict.t pyval)   (* decoded JSON object, [{}] if empty *)
  | RespError (msg : string).          (* the request raised; [str(e)] *)

Record api_state := mkApi {
  default_item_group : string;
  default_price_list : string;
  has_session : bool;
  item_cache : list (pyval * pyval);
  item_group_cache : list (pyval * pyval);
  sent : list request
}.

(** The second component of the [(ok, message)] tuples; each constructor
    carries the values interpolated into the text. *)
Inductive api_msg :=
  | MsgCreated (name : pyval)          (* "Erstellt: {name}" *)
  | MsgUpdated (code : pyval)          (* "Aktualisiert: {item_code}" *)
  | MsgExistsAlready (name : pyval)    (* "Existiert bereits: {name}" *)
  | MsgItemCodeMissing                 (* "item_code fehlt" *)
  | MsgPriceCreated (price : pyval)    (* "Preis erstellt: {price} EUR" *)
  | MsgException (e : exn)             (* str(e) *)
  | MsgText (s : string).

(** What is passed to a [log_callback] / [self.log]. *)
Inductive log_entry :=
  | LogCategoryExists (level : string)
      (* "Kategorie existiert: {level_name}" *)
  | LogCategoryCreated (level : string) (parent : pyval)
      (* "Kategorie erstellt: {level_name} (unter {parent})" *)
  | LogCategoryFailed (level : string) (msg : api_msg)
      (* "FEHLER: Kategorie {level_name} konnte nicht erstellt werden: {msg}" *)
  | LogDryHierarchy (chain : string)
      (* "[DRY] Kategorie-Hierarchie: {' > '.join(category_levels)}" *)
  | LogDry (identifier : pyval) (keys : list string)
      (* "[DRY] {identifier}: {list(item_data.keys())}" *)
  | LogNoApi (identifier : pyval)
      (* "[NO API] {identifier}" *)
  | LogFailure (identifier : pyval) (msg : api_msg)
      (* "Fehler {identifier}: {msg}", error *)
  | LogAttribute (msg : api_msg)
      (* "Attribut: {msg}" *)
  | LogAttributeFailure (name : pyval) (msg : api_msg)
      (* "Fehler Attribut {attr_name}: {msg}", error *)
  | LogVariant (msg : api_msg)
      (* "Variante: {msg}" *)
  | LogVariantFailure (code : pyval) (msg : api_msg)
      (* "Fehler Variante {variant_code}: {msg}", error *)
  | LogNoAttributeName (row : nat)
      (* "Zeile {i+1}: Kein Attribut-Name", error *)
  | LogVariantIncomplete (row : nat)
      (* "Zeile {i+1}: Varianten-Code oder Vorlage fehlt", error *)
  | LogNoVariantAttributes (row : nat)
      (* "Zeile {i+1}: Keine Attribute für Variante", error *)
  | LogRowException (row : nat) (e : exn)
      (* "Fehler Zeile {i+1}: {ex}", error *)
  | LogFinished (success errors skipped : nat).
      (* "=== Import abgeschlossen ===" and the tallies *)

Module Api.

Definition hashable (v : pyval) : bool :=
  match v with
  | VList _ | VDict _ => false
  | _ => true
  end.

(** The two caches, keyed by value: lookup compares keys with [==].  A
    Python dict tries object identity first, which differs only for a NaN
    key looked up through the very same float object; the import loop
    builds a new float for every row, and the statements below that look a
    key up twice are about string codes. *)
Fixpoint cache_get (k : pyval) (c : list (pyval * pyval)) : option pyval :=
  match c with
  | [] => None
  | (k', v) :: r => if PyVal.eqb k' k then Some v else cache_get k r
  end.

Fixpoint cache_set (k v : pyval) (c : list (pyval * pyval)) : list (pyval * pyval) :=
  match c with
  | [] => [(k, v)]
  | (k', v') :: r =>
      if PyVal.eqb k' k then (k', v) :: r else (k', v') :: cache_set k v r
  end.

Definition with_sent (st : api_state) (l : list request) : api_state :=
  mkApi (default_item_group st) (default_price_list st) (has_session st)
        (item_cache st) (item_group_cache st) l.

Definition with_item_cache (st : api_state) (c : list (pyval * pyval)) : api_state :=
  mkApi (default_item_group st) (default_price_list st) (has_session st)
        c (item_group_cache st) (sent st).

Definition with_group_cache (st : api_state) (c : list (pyval * pyval)) : api_state :=
  mkApi (default_item_group st) (default_price_list st) (has_session st)
        (item_cache st) c (sent st).

(** [result.get("data")] *)
Definition get_data (body : PyDict.t pyval) : pyval :=
  match PyDict.get "data" body with
  | Some d => d
  | None => VNone
  end.

(** [d[key]] for a value [d] that should be a dict. *)
Definition subscript (d : pyval) (key : string) : result pyval :=
  match d with
  | VDict dd =>
      match PyDict.get key dd with
      | Some v => Ok v
      | None => Raise (KeyError key)
      end
  | _ => Raise TypeError
  end.

(** [d.get(key, default)] for a value [d] that should be a dict. *)
Definition get_or (d : pyval) (key : string) (default : pyval) : result pyval :=
  match d with
  | VDict dd =>
      match PyDict.get key dd with
      | Some v => Ok v
      | None => Ok default
      end
  | _ => Raise AttributeError
  end.

(** [cache.pop(k, None)] *)
Fixpoint cache_remove (k : pyval) (c : list (pyval * pyval)) : list (pyval * pyval) :=
  match c with
  | [] => []
  | (k', v') :: r =>
      if PyVal.eqb k' k then cache_remove k r else (k', v') :: cache_remove k r
  end.

Section Remote.
Variable remote : list request -> request -> response.

(** [_make_request] *)
Definition make_request (m : http_method) (endpoint : string)
    (data : option (PyDict.t pyval)) (st : api_state)
  : result (PyDict.t pyval) * api_state :=
  if negb (has_session st)
  then (Raise (RequestError "requests library not available"), st)
  else
    let req := mkRequest m endpoint data in
    let st' := with_sent st (sent st ++ [req]) in
    match remote (sent st) req with
    | RespJson body => (Ok body, st')
    | RespError msg => (Raise (RequestError msg), st')
    end.

(** [get_item]; the membership test on the cache is outside the [try]. *)
Definition get_item (item_code : pyval) (st : api_state)
  : result pyval * api_state :=
  if negb (hashable item_code) then (Raise TypeError, st) else
  match cache_get item_code (item_cache st) with
  | Some name => (Ok (VDict [("name", name)]), st)
  | None =>
      match make_request GET ("Item/" ++ PyVal.str item_code) None st with
      | (Raise _, st1) => (Ok VNone, st1)
      | (Ok body, st1) =>
          let data := get_data body in
          if PyVal.truthy data then
            match subscript data "name" with
            | Ok name =>
                (Ok data, with_item_cache st1 (cache_set item_code name (item_cache st1)))
            | Raise _ => (Ok VNone, st1)
            end
          else (Ok data, st1)
      end
  end.

(** The keys [update_item] pops from the caller's dict. *)
Definition update_stripped_keys : list string := ["item_code"; "doctype"; "gtin"].

(** [update_item]: returns the tuple, the caller's dict as mutated, and the
    client state. *)
Definition update_item (item_code : pyval) (data : PyDict.t pyval)
    (st : api_state) : (bool * api_msg) * PyDict.t pyval * api_state :=
  let data1 := PyDict.remove "item_code" data in
  let data2 := PyDict.remove "doctype" data1 in
  let data3 := PyDict.remove "gtin" data2 in
  match make_request PUT ("Item/" ++ PyVal.str item_code) (Some data3) st with
  | (Ok _, st1) => ((true, MsgUpdated item_code), data3, st1)
  | (Raise e, st1) => ((false, MsgException e), data3, st1)
  end.

Definition set_default (k : string) (v : pyval) (d : PyDict.t pyval)
  : PyDict.t pyval :=
  if PyDict.mem k d then d else PyDict.set k v d.

(** The barcode block of [create_item] (main.py). *)
Definition attach_barcode (data : PyDict.t pyval) : PyDict.t pyval :=
  match PyDict.get "gtin" data with
  | Some g =>
      if PyVal.truthy g then
        let data1 := PyDict.remove "gtin" data in
        if negb (PyVal.eq_str g "4017980000000") then
          PyDict.set "barcodes"
            (VList [VDict
               [("barcode", g);
                ("barcode_type",
                 VStr (if (String.length (PyVal.str g) =? 13)%nat
                       then "EAN" else "UPC-A"))]])
            data1
        else data1
      else data
  | None => data
  end.

(** [create_item] (main.py). *)
Definition create_item (data : PyDict.t pyval) (st : api_state)
  : (bool * api_msg) * PyDict.t pyval * api_state :=
  match PyDict.get "item_code" data with
  | None => ((false, MsgItemCodeMissing), data, st)
  | Some code =>
      let d1 := set_default "item_name" code data in
      let d2 := set_default "item_group" (VStr (default_item_group st)) d1 in
      let d3 := set_default "stock_uom" (VStr "Stk") d2 in
      let d4 := PyDict.set "doctype" (VStr "Item") d3 in
      let d5 := PyDict.set "is_sales_item" (VInt 1) d4 in
      let d6 := PyDict.set "is_purchase_item" (VInt 1) d5 in
      let d7 := attach_barcode d6 in
      match make_request POST "Item" (Some d7) st with
      | (Raise e, st1) => ((false, MsgException e), d7, st1)
      | (Ok body, st1) =>
          let data_part :=
            match PyDict.get "data" body with
            | Some d => d
            | None => VDict []
            end in
          match get_or data_part "name" code with
          | Raise e => ((false, MsgException e), d7, st1)
          | Ok name =>
              if hashable code then
                ((true, MsgCreated name), d7,
                 with_item_cache st1 (cache_set code name (item_cache st1)))
              else ((false, MsgException TypeError), d7, st1)
          end
      end
  end.

(** [create_item_price] *)
Definition create_item_price (item_code price : pyval) (st : api_state)
  : (bool * api_msg) * api_state :=
  let data :=
    [("doctype", VStr "Item Price");
     ("item_code", item_code);
     ("price_list", VStr (default_price_list st));
     ("price_list_rate", price);
     ("currency", VStr "EUR");
     ("selling", VInt 1)] in
  match make_request POST "Item Price" (Some data) st with
  | (Ok _, st1) => ((true, MsgPriceCreated price), st1)
  | (Raise e, st1) => ((false, MsgException e), st1)
  end.

(** [get_item_group] *)
Definition get_item_group (name : pyval) (st : api_state)
  : result pyval * api_state :=
  if negb (hashable name) then (Raise TypeError, st) else
  match cache_get name (item_group_cache st) with
  | Some n => (Ok (VDict [("name", n)]), st)
  | None =>
      match make_request GET ("Item Group/" ++ PyVal.str name) None st with
      | (Raise _, st1) => (Ok VNone, st1)
      | (Ok body, st1) =>
          let data := get_data body in
          if PyVal.truthy data then
            match subscript data "name" with
            | Ok n =>
                (Ok data,
                 with_group_cache st1 (cache_set name n (item_group_cache st1)))
            | Raise _ => (Ok VNone, st1)
            end
          else (Ok data, st1)
      end
  end.

(** [create_item_group]: everything is inside the [try]. *)
Definition create_item_group (data : PyDict.t pyval) (st : api_state)
  : (bool * api_msg) * PyDict.t pyval * api_state :=
  let name :=
    match PyDict.get "item_group_name" data with
    | Some n => n
    | None => VStr ""
    end in
  match get_item_group name st with
  | (Raise e, st1) => ((false, MsgException e), data, st1)
  | (Ok existing, st1) =>
      if PyVal.truthy existing then ((true, MsgExistsAlready name), data, st1)
      else
        let d1 := PyDict.set "doctype" (VStr "Item Group") data in
        let d2 := PyDict.set "is_group" (VInt 1) d1 in
        let d3 := set_default "parent_item_group"
                    (VStr (default_item_group st1)) d2 in
        match make_request POST "Item Group" (Some d3) st1 with
        | (Raise e, st2) => ((false, MsgException e), d3, st2)
        | (Ok body, st2) =>
            let data_part :=
              match PyDict.get "data" body with
              | Some d => d
              | None => VDict []
              end in
            match get_or data_part "name" name with
            | Raise e => ((false, MsgException e), d3, st2)
            | Ok created_name =>
                ((true, MsgCreated created_name), d3,
                 with_group_cache st2
                   (cache_set name created_name (item_group_cache st2)))
            end
        end
  end.

(** The loop of [ensure_category_hierarchy] over the filtered levels;
    returns [last_category], the log lines, and the client state. *)
Fixpoint hierarchy_loop (levels : list string) (parent last_category : string)
    (st : api_state) : result (string * list log_entry) * api_state :=
  match levels with
  | [] => (Ok (last_category, []), st)
  | level_name :: rest =>
      match get_item_group (VStr level_name) st with
      | (Raise e, st1) => (Raise e, st1)
      | (Ok existing, st1) =>
          if PyVal.truthy existing then
            match hierarchy_loop rest level_name level_name st1 with
            | (Ok (res, logs), st2) =>
                (Ok (res, LogCategoryExists level_name :: logs), st2)
            | (Raise e, st2) => (Raise e, st2)
            end
          else
            let data := [("item_group_name", VStr level_name);
                         ("parent_item_group", VStr parent)] in
            let '(ok_msg, data', st2) := create_item_group data st1 in
            if fst ok_msg then
              let shown_parent :=
                match PyDict.get "parent_item_group" data' with
                | Some p => p
                | None => VNone
                end in
              match hierarchy_loop rest level_name level_name st2 with
              | (Ok (res, logs), st3) =>
                  (Ok (res, LogCategoryCreated level_name shown_parent :: logs), st3)
              | (Raise e, st3) => (Raise e, st3)
              end
            else
              (Ok (last_category, [LogCategoryFailed level_name (snd ok_msg)]), st2)
      end
  end.

(** The comprehension [[l.strip() for l in levels if l and l.strip()]];
    a true value that is not a string has no [strip]. *)
Fixpoint filter_levels (levels : list pyval) : result (list string) :=
  match levels with
  | [] => Ok []
  | l :: rest =>
      if PyVal.truthy l then
        match l with
        | VStr s =>
            bind (filter_levels rest) (fun r =>
              Ok (if PyStr.is_empty (PyStr.strip s) then r else PyStr.strip s :: r))
        | _ => Raise AttributeError
        end
      else filter_levels rest
  end.

(** [ensure_category_hierarchy(levels, log_callback)] *)
Definition ensure_category_hierarchy (levels : list pyval) (st : api_state)
  : result (string * list log_entry) * api_state :=
  match levels with
  | [] => (Ok (default_item_group st, []), st)
  | _ =>
      match filter_levels levels with
      | Raise e => (Raise e, st)
      | Ok [] => (Ok (default_item_group st, []), st)
      | Ok ls =>
          hierarchy_loop ls (default_item_group st) (default_item_group st) st
      end
  end.

(** [delete_item]; the message is "Gelöscht: {item_code}". *)
Definition delete_item (item_code : pyval) (st : api_state)
  : (bool * api_msg) * api_state :=
  match make_request DELETE ("Item/" ++ PyVal.str item_code) None st with
  | (Raise e, st1) => ((false, MsgException e), st1)
  | (Ok _, st1) =>
      if hashable item_code then
        ((true, MsgText ("Gel" ++ String o_uml "" ++ "scht: " ++ PyVal.str item_code)),
         with_item_cache st1 (cache_remove item_code (item_cache st1)))
      else ((false, MsgException TypeError), st1)
  end.

End Remote.

(** Is [name] in [_item_group_cache]? *)
Definition group_cached (name : string) (st : api_state) : bool :=
  match cache_get (VStr name) (item_group_cache st) with
  | Some _ => true
  | None => false
  end.

(** [st'] has the configuration of [st] and at least its cached groups. *)
Definition extends (st st' : api_state) : Prop :=
  default_item_group st' = default_item_group st
  /\ forall l, group_cached l st = true -> group_cached l st' = true.

(** A log line reporting that a category could not be created. *)
Definition is_failure (e : log_entry) : bool :=
  match e with
  | LogCategoryFailed _ _ => true
  | _ => false
  end.

(** The requests issued between two client states, and those among them
    that create an item group. *)
Definition requests_since (st st' : api_state) : list request :=
  skipn (List.length (sent st)) (sent st').

Definition is_group_create (r : request) : bool :=
  match req_method r with
  | POST => String.eqb (req_endpoint r) "Item Group"
  | _ => false
  end.

(** [parse_category_path]: the first separator of the list found in the
    path splits it; empty pieces are dropped. *)
Definition separators : list string :=
  [" > "; " -> "; " >> "; " / "; "/"; ">"; "|"].

Definition split_levels (sep path : string) : list string :=
  List.filter (fun p => negb (PyStr.is_empty p))
    (map PyStr.strip (PyStr.split sep path)).

Fixpoint parse_with (seps : list string) (path : string) : list string :=
  match seps with
  | [] => if PyStr.is_empty (PyStr.strip path) then [] else [PyStr.strip path]
  | sep :: rest =>
      if PyStr.is_substring sep path then split_levels sep path
      else parse_with rest path
  end.

Definition parse_category_path (path : string) : list string :=
  if PyStr.is_empty path then [] else parse_with separators path.

(** [UOM_MAPPING] of erpnext_importer/fields.py. *)
Definition UOM_MAPPING : PyDict.t string :=
  [ ("st" ++ String u_uml "" ++ "ck", "Stk"); ("stk", "Stk"); ("stck", "Stk");
    ("pcs", "Stk"); ("piece", "Stk"); ("pieces", "Stk");
    ("kg", "Kg"); ("kilogramm", "Kg"); ("kilo", "Kg");
    ("g", "Gramm"); ("gramm", "Gramm"); ("gram", "Gramm");
    ("l", "Liter"); ("liter", "Liter"); ("litre", "Liter");
    ("ml", "Milliliter"); ("milliliter", "Milliliter");
    ("m", "Meter"); ("meter", "Meter");
    ("cm", "Zentimeter"); ("zentimeter", "Zentimeter");
    ("mm", "Millimeter"); ("millimeter", "Millimeter");
    ("set", "Set"); ("paar", "Paar"); ("pair", "Paar");
    ("box", "Box"); ("karton", "Karton"); ("palette", "Palette") ].

(** [normalize_uom(uom)] of erpnext_importer/api.py, with [self._uom_cache]
    passed in and handed back. *)
Definition normalize_uom (uom : string) (uom_cache : PyDict.t string)
  : string * PyDict.t string :=
  if PyStr.is_empty uom then ("Stk", uom_cache)
  else
    let uom_lower := PyStr.strip (PyStr.lower uom) in
    match PyDict.get uom_lower uom_cache with
    | Some r => (r, uom_cache)
    | None =>
        match PyDict.get uom_lower UOM_MAPPING with
        | Some r => (r, PyDict.set uom_lower r uom_cache)
        | None => (uom, uom_cache)
        end
    end.

(** The cache holds nothing but entries of the table. *)
Definition uom_cache_ok (uom_cache : PyDict.t string) : Prop :=
  forall k v, PyDict.get k uom_cache = Some v -> PyDict.get k UOM_MAPPING = Some v.

(** Between [st] and [st'] requests were only appended, and each of them
    satisfies [P]. *)
Definition sent_all (P : request -> Prop) (st st' : api_state) : Prop :=
  exists new, sent st' = (sent st ++ new)%list /\ Forall P new.

Definition is_put (r : request) : bool :=
  match req_method r with PUT => true | _ => false end.

(** A request that creates an item or an item price. *)
Definition is_item_create (r : request) : bool :=
  match req_method r with
  | POST => String.eqb (req_endpoint r) "Item" || String.eqb (req_endpoint r) "Item Price"
  | _ => false
  end.

(** The payload field [k] of a request, if any. *)
Definition payload_field (k : string) (r : request) : option pyval :=
  match req_data r with
  | Some d => PyDict.get k d
  | None => None
  end.

(** [r] is a read, or creates the item group [l] of [levels] under the level
    before it ([root] for the first). *)
Definition chained (root : string) (levels : list string) (r : request) : Prop :=
  req_method r = GET
  \/ (is_group_create r = true
      /\ exists pre l post,
           levels = (pre ++ l :: post)%list
           /\ payload_field "item_group_name" r = Some (VStr l)
           /\ payload_field "parent_item_group" r = Some (VStr (last pre root))).

End Api.

(** ** Row transformation and the import loop
    (ERPNextImporterApp._run_import, main.py) *)

(** A source row: column name to raw cell text.  A missing cell (absent key,
    or the [None] that [csv.DictReader] stores for a short row) reads as
    absent. *)
Definition SourceRow := PyDict.t string.

Record run_state := mkRun {
  api : option api_state;          (* [self.api] *)
  log : list log_entry;
  success : nat;
  errors : nat;
  skipped : nat;
  progress : list (nat * nat)      (* [(i + 1, total)] per progress update *)
}.

(** How the body of one loop iteration ends. *)
Inductive row_end :=
  | Completed                      (* ran to the progress update *)
  | Continued                      (* left by [continue] *)
  | Raised (e : exn).              (* left by an exception *)

(** How [start_import] ends: with the error line it logs, or with the
    start line and the run. *)
Inductive start_outcome :=
  | NoData                            (* "Keine Daten!", error *)
  | NoMappings                        (* "Keine Mappings!", error *)
  | MissingRequired (field : string)  (* "Pflichtfelder fehlen: {missing}", error *)
  | Started (dry_run : bool) (rs : run_state).
      (* "=== Import gestartet (DRY RUN|LIVE) ===", then [_run_import] *)

Module Importer.

Definition add_log (e : log_entry) (rs : run_state) : run_state :=
  mkRun (api rs) (log rs ++ [e]) (success rs) (errors rs) (skipped rs) (progress rs).

Definition add_logs (es : list log_entry) (rs : run_state) : run_state :=
  mkRun (api rs) (log rs ++ es) (success rs) (errors rs) (skipped rs) (progress rs).

Definition set_api (st : api_state) (rs : run_state) : run_state :=
  mkRun (Some st) (log rs) (success rs) (errors rs) (skipped rs) (progress rs).

Definition inc_success (rs : run_state) : run_state :=
  mkRun (api rs) (log rs) (S (success rs)) (errors rs) (skipped rs) (progress rs).

Definition inc_errors (rs : run_state) : run_state :=
  mkRun (api rs) (log rs) (success rs) (S (errors rs)) (skipped rs) (progress rs).

Definition inc_skipped (rs : run_state) : run_state :=
  mkRun (api rs) (log rs) (success rs) (errors rs) (S (skipped rs)) (progress rs).

Definition report_progress (i total : nat) (rs : run_state) : run_state :=
  mkRun (api rs) (log rs) (success rs) (errors rs) (skipped rs)
        (progress rs ++ [(S i, total)]).

Definition mem_str (x : string) (l : list string) : bool :=
  existsb (String.eqb x) l.

(** *** Step 1-3: mapping, transform, write *)

(** [row.get(source_col, "") or mapping.default_value] *)
Definition raw_value (row : SourceRow) (source_col : string) (m : FieldMapping)
  : string :=
  match PyDict.get source_col row with
  | Some v => if PyStr.is_empty v then default_value m else v
  | None => default_value m
  end.

(** [float(str(v).replace(",", ".").replace(" ", ""))]; [None] when it
    raises. *)
Definition float_of_text (s : string) : option PyFloat.t :=
  PyFloat.of_string (PyStr.replace " " "" (PyStr.replace "," "." s)).

Definition truthy_words : list string := ["1"; "true"; "ja"; "yes"; "y"].

Definition apply_transform (tr : string) (value : string) : pyval :=
  if String.eqb tr "trim" then VStr (PyStr.strip value)
  else if String.eqb tr "uppercase" then VStr (PyStr.upper value)
  else if String.eqb tr "lowercase" then VStr (PyStr.lower value)
  else if String.eqb tr "number" then
    match float_of_text value with
    | Some x => VFloat x
    | None => VFloat Utils.zero
    end
  else if String.eqb tr "bool" then VBool (mem_str (PyStr.lower value) truthy_words)
  else if String.eqb tr "html_strip" then VStr (PyStr.html_strip value)
  else VStr value.

(** One iteration of the loop over [self.field_mappings.items()]. *)
Definition write_field (row : SourceRow) (item_data : PyDict.t pyval)
    (entry : string * FieldMapping) : PyDict.t pyval :=
  let '(source_col, mapping) := entry in
  let value := apply_transform (transform mapping) (raw_value row source_col mapping) in
  if PyVal.truthy value then PyDict.set (target_field mapping) value item_data
  else item_data.

Definition transform_row (row : SourceRow) (fm : PyDict.t FieldMapping)
  : PyDict.t pyval :=
  fold_left (write_field row) fm [].

(** *** Step 4: field-specific post-processing *)

(** The literal [1.19]. *)
Definition tax_divisor_19 : PyFloat.t := PyFloat.of_decimal false 119 (-2).

Definition convert_brutto (item_data : PyDict.t pyval) : PyDict.t pyval :=
  match PyDict.get "standard_rate_brutto" item_data with
  | None => item_data
  | Some brutto =>
      let d := PyDict.remove "standard_rate_brutto" item_data in
      match float_of_text (PyVal.str brutto) with
      | Some brutto_val =>
          PyDict.set "standard_rate"
            (VFloat (PyFloat.round2 (PyFloat.div brutto_val tax_divisor_19))) d
      | None => d
      end
  end.

Definition normalize_barcode (item_data : PyDict.t pyval) : PyDict.t pyval :=
  match PyDict.get "barcode" item_data with
  | None => item_data
  | Some barcode =>
      let d := PyDict.remove "barcode" item_data in
      let barcode_str := PyStr.strip (PyVal.str barcode) in
      if PyVal.truthy barcode && negb (PyStr.is_empty barcode_str) then
        if (8 <=? String.length barcode_str)%nat
           && negb (mem_str barcode_str ["0"; ""])
        then PyDict.set "gtin" (VStr barcode_str) d
        else d
      else d
  end.

Definition active_words : list string :=
  ["1"; "true"; "ja"; "yes"; "y"; "aktiv"].

Definition invert_active (item_data : PyDict.t pyval) : PyDict.t pyval :=
  match PyDict.get "disabled" item_data with
  | Some (VStr aktiv) =>
      PyDict.set "disabled"
        (VInt (if mem_str (PyStr.lower aktiv) active_words then 0 else 1)) item_data
  | Some (VBool aktiv) =>
      PyDict.set "disabled" (VInt (if aktiv then 0 else 1)) item_data
  | _ => item_data
  end.

Definition alias_description (item_data : PyDict.t pyval) : PyDict.t pyval :=
  match PyDict.get "description_html" item_data with
  | Some html =>
      if negb (PyDict.mem "description" item_data)
      then PyDict.set "description" html (PyDict.remove "description_html" item_data)
      else PyDict.remove "description_html" item_data
  | None => item_data
  end.

Definition post_process (item_data : PyDict.t pyval) : PyDict.t pyval :=
  alias_description (invert_active (normalize_barcode (convert_brutto item_data))).

(** [item_data.get("item_code") or item_data.get("item_group_name", f"Row {i+1}")] *)
Definition identifier_of (i : nat) (item_data : PyDict.t pyval) : pyval :=
  let code := match PyDict.get "item_code" item_data with
              | Some v => v | None => VNone end in
  if PyVal.truthy code then code
  else match PyDict.get "item_group_name" item_data with
       | Some v => v
       | None => VStr ("Row " ++ PyFloat.string_of_Z (Z.of_nat (S i)))
       end.

(** *** Category resolution *)

Definition level_keys : list string :=
  ["category_level_1"; "category_level_2"; "category_level_3"; "category_level_4"].

Fixpoint gather_levels (keys : list string) (item_data : PyDict.t pyval)
  : list pyval * PyDict.t pyval :=
  match keys with
  | [] => ([], item_data)
  | k :: rest =>
      match PyDict.get k item_data with
      | Some v =>
          let '(ls, d) := gather_levels rest (PyDict.remove k item_data) in
          (v :: ls, d)
      | None => gather_levels rest item_data
      end
  end.

(** [self.api.parse_category_path(path)] on a true value: [sep in path]
    needs a container; a float, int or bool raises [TypeError], a list or
    dict ends in an attribute error. *)
Definition parse_path_value (path : pyval) : result (list string) :=
  match path with
  | VStr s => Ok (Api.parse_category_path s)
  | VList _ | VDict _ => Raise AttributeError
  | _ => Raise TypeError
  end.

(** [' > '.join(category_levels)]; [None] stands for the [TypeError] raised
    on an element that is not a string. *)
Fixpoint strings_of (levels : list pyval) : option (list string) :=
  match levels with
  | [] => Some []
  | VStr s :: rest =>
      match strings_of rest with
      | Some r => Some (s :: r)
      | None => None
      end
  | _ :: _ => None
  end.

(** The values of the level columns a record has, from level 1 to 4. *)
Definition level_values (item_data : PyDict.t pyval) : list pyval :=
  flat_map (fun k => match PyDict.get k item_data with
                     | Some v => [v]
                     | None => []
                     end) level_keys.

(** [category_levels] as the category block leaves it: the levels of a
    category path that is true and parses to at least one level, provided a
    client object exists, and the values of the level columns otherwise. *)
Definition category_levels (has_client : bool) (item_data : PyDict.t pyval)
  : result (list pyval) :=
  match PyDict.get "category_path" item_data with
  | Some path =>
      if PyVal.truthy path && has_client then
        match parse_path_value path with
        | Raise e => Raise e
        | Ok [] => Ok (level_values item_data)
        | Ok parsed => Ok (map VStr parsed)
        end
      else Ok (level_values item_data)
  | None => Ok (level_values item_data)
  end.

Section Collaborators.
Variable remote : list request -> request -> response.

(** [ERPNextAPI.create_attribute(name, values, numeric, from_range,
    to_range, increment)] and [ERPNextAPI.create_variant(template, code,
    attributes, item_name, extra_data)]; both catch every exception and
    return a tuple. *)
Variable create_attribute :
  pyval -> list string -> pyval -> pyval -> pyval -> pyval ->
  api_state -> (bool * api_msg) * api_state.
Variable create_variant :
  pyval -> pyval -> PyDict.t pyval -> pyval -> PyDict.t pyval ->
  api_state -> (bool * api_msg) * api_state.

Definition resolve_category (dry_run : bool) (item_data : PyDict.t pyval)
    (rs : run_state) : result (PyDict.t pyval) * run_state :=
  let '(levels0, d0) := gather_levels level_keys item_data in
  let path_step : result (list pyval) * PyDict.t pyval :=
    match PyDict.get "category_path" d0 with
    | None => (Ok levels0, d0)
    | Some path =>
        let d1 := PyDict.remove "category_path" d0 in
        match api rs with
        | Some _ =>
            if PyVal.truthy path then
              match parse_path_value path with
              | Raise e => (Raise e, d1)
              | Ok [] => (Ok levels0, d1)
              | Ok parsed => (Ok (map VStr parsed), d1)
              end
            else (Ok levels0, d1)
        | None => (Ok levels0, d1)
        end
    end in
  match path_step with
  | (Raise e, _) => (Raise e, rs)
  | (Ok [], d1) => (Ok d1, rs)
  | (Ok category_levels, d1) =>
      if negb dry_run then
        match api rs with
        | Some st =>
            match Api.ensure_category_hierarchy remote category_levels st with
            | (Raise e, st') => (Raise e, set_api st' rs)
            | (Ok (final_category, logs), st') =>
                (Ok (PyDict.set "item_group" (VStr final_category) d1),
                 add_logs logs (set_api st' rs))
            end
        | None => (Ok d1, rs)
        end
      else
        match strings_of category_levels with
        | None => (Raise TypeError, rs)
        | Some names =>
            (Ok (PyDict.set "item_group" (last category_levels VNone) d1),
             add_log (LogDryHierarchy (PyStr.join " > " names)) rs)
        end
  end.

(** *** The four kinds of import, live mode with a connected client *)

Definition get_or_none (k : string) (d : PyDict.t pyval) : pyval :=
  match PyDict.get k d with Some v => v | None => VNone end.

Definition get_or_empty (k : string) (d : PyDict.t pyval) : pyval :=
  match PyDict.get k d with Some v => v | None => VStr "" end.

Definition import_item (mode : string) (identifier : pyval)
    (item_data : PyDict.t pyval) (st : api_state) (rs : run_state)
  : row_end * run_state :=
  match Api.get_item remote (get_or_empty "item_code" item_data) st with
  | (Raise e, st1) => (Raised e, set_api st1 rs)
  | (Ok existing, st1) =>
      if PyVal.truthy existing && String.eqb mode "create"
      then (Completed, inc_skipped (set_api st1 rs))
      else if negb (PyVal.truthy existing) && String.eqb mode "update"
      then (Completed, inc_skipped (set_api st1 rs))
      else if PyVal.truthy existing then
        match PyDict.get "item_code" item_data with
        | None => (Raised (KeyError "item_code"), set_api st1 rs)
        | Some code =>
            let '(ok_msg, _, st2) := Api.update_item remote code item_data st1 in
            if fst ok_msg then (Completed, inc_success (set_api st2 rs))
            else (Completed,
                  add_log (LogFailure identifier (snd ok_msg))
                    (inc_errors (set_api st2 rs)))
        end
      else
        let '(ok_msg, data', st2) := Api.create_item remote item_data st1 in
        if fst ok_msg then
          match PyDict.get "standard_rate" data' with
          | Some price =>
              match PyDict.get "item_code" data' with
              | Some code =>
                  let '(_, st3) := Api.create_item_price remote code price st2 in
                  (Completed, inc_success (set_api st3 rs))
              | None => (Raised (KeyError "item_code"), inc_success (set_api st2 rs))
              end
          | None => (Completed, inc_success (set_api st2 rs))
          end
        else (Completed,
              add_log (LogFailure identifier (snd ok_msg))
                (inc_errors (set_api st2 rs)))
  end.

Definition import_item_group (identifier : pyval) (item_data : PyDict.t pyval)
    (st : api_state) (rs : run_state) : row_end * run_state :=
  let '(ok_msg, _, st1) := Api.create_item_group remote item_data st in
  if fst ok_msg then (Completed, inc_success (set_api st1 rs))
  else (Completed,
        add_log (LogFailure identifier (snd ok_msg)) (inc_errors (set_api st1 rs))).

(** [[v.strip() for v in values_str.split(",") if v.strip()]] *)
Definition split_values (values_str : string) : list string :=
  List.filter (fun v => negb (PyStr.is_empty v))
    (map PyStr.strip (PyStr.split "," values_str)).

Definition import_attribute (i : nat) (item_data : PyDict.t pyval)
    (st : api_state) (rs : run_state) : row_end * run_state :=
  let attr_name := get_or_empty "attribute_name" item_data in
  if negb (PyVal.truthy attr_name)
  then (Continued, add_log (LogNoAttributeName (S i)) (inc_errors rs))
  else
    let values_str := get_or_empty "attribute_values" item_data in
    let values : result (list string) :=
      if PyVal.truthy values_str then
        match values_str with
        | VStr s => Ok (split_values s)
        | _ => Raise AttributeError
        end
      else Ok [] in
    match values with
    | Raise e => (Raised e, rs)
    | Ok vs =>
        let numeric :=
          match PyDict.get "numeric_values" item_data with
          | Some (VStr n) => VBool (mem_str (PyStr.lower n) ["1"; "true"; "ja"; "yes"])
          | Some v => v
          | None => VBool false
          end in
        let '(ok_msg, st1) :=
          create_attribute attr_name vs numeric
            (get_or_none "from_range" item_data)
            (get_or_none "to_range" item_data)
            (get_or_none "increment" item_data) st in
        if fst ok_msg
        then (Completed, add_log (LogAttribute (snd ok_msg)) (inc_success (set_api st1 rs)))
        else (Completed,
              add_log (LogAttributeFailure attr_name (snd ok_msg))
                (inc_errors (set_api st1 rs)))
    end.

(** [s.split(":", 1)] when [":" in s]: the text before and after the first
    colon. *)
Fixpoint split_colon (s : string) : string * string :=
  match s with
  | EmptyString => (EmptyString, EmptyString)
  | String c r =>
      if Ascii.eqb c ":" then (EmptyString, r)
      else let '(a, b) := split_colon r in (String c a, b)
  end.

Definition add_fixed_attribute (key name : string) (item_data : PyDict.t pyval)
    (attributes : PyDict.t pyval) : PyDict.t pyval :=
  match PyDict.get key item_data with
  | Some v => if PyVal.truthy v then PyDict.set name v attributes else attributes
  | None => attributes
  end.

Definition add_named_attribute (item_data : PyDict.t pyval)
    (attributes : PyDict.t pyval) (key : string) : PyDict.t pyval :=
  match PyDict.get key item_data with
  | Some v =>
      if PyVal.truthy v && PyStr.contains_char ":" (PyVal.str v) then
        let '(a, b) := split_colon (PyVal.str v) in
        PyDict.set (PyStr.strip a) (VStr (PyStr.strip b)) attributes
      else attributes
  | None => attributes
  end.

Definition groesse : string :=
  "Gr" ++ String o_uml "" ++ String eszett "" ++ "e".

Definition collect_attributes (item_data : PyDict.t pyval) : PyDict.t pyval :=
  let a1 := add_fixed_attribute "attribute_color" "Farbe" item_data [] in
  let a2 := add_fixed_attribute "attribute_size" groesse item_data a1 in
  let a3 := add_fixed_attribute "attribute_material" "Material" item_data a2 in
  fold_left (add_named_attribute item_data)
    ["attribute_1"; "attribute_2"; "attribute_3"] a3.

Definition add_extra (key : string) (item_data : PyDict.t pyval)
    (extra : PyDict.t pyval) : PyDict.t pyval :=
  match PyDict.get key item_data with
  | Some v => if PyVal.truthy v then PyDict.set key v extra else extra
  | None => extra
  end.

Definition import_variant (i : nat) (item_data : PyDict.t pyval)
    (st : api_state) (rs : run_state) : row_end * run_state :=
  let variant_code := get_or_empty "item_code" item_data in
  let template := get_or_empty "variant_of" item_data in
  if negb (PyVal.truthy variant_code) || negb (PyVal.truthy template)
  then (Continued, add_log (LogVariantIncomplete (S i)) (inc_errors rs))
  else
    let attributes := collect_attributes item_data in
    match attributes with
    | [] => (Continued, add_log (LogNoVariantAttributes (S i)) (inc_errors rs))
    | _ =>
        let extra_data :=
          add_extra "gtin" item_data (add_extra "standard_rate" item_data []) in
        let '(ok_msg, st1) :=
          create_variant template variant_code attributes
            (get_or_none "item_name" item_data) extra_data st in
        if fst ok_msg
        then (Completed, add_log (LogVariant (snd ok_msg)) (inc_success (set_api st1 rs)))
        else (Completed,
              add_log (LogVariantFailure variant_code (snd ok_msg))
                (inc_errors (set_api st1 rs)))
    end.

Definition is_item_import (import_type : string) : bool :=
  mem_str import_type ["artikel"; "preise"].

(** *** One iteration of the loop, and the loop *)

(** The body of the [try] block up to, not including, the progress
    update. *)
Definition row_body (dry_run : bool) (mode import_type : string)
    (fm : PyDict.t FieldMapping) (i : nat) (row : SourceRow) (rs : run_state)
  : row_end * run_state :=
  let item_data := post_process (transform_row row fm) in
  let identifier := identifier_of i item_data in
  let resolved :=
    if is_item_import import_type then resolve_category dry_run item_data rs
    else (Ok item_data, rs) in
  match resolved with
  | (Raise e, rs1) => (Raised e, rs1)
  | (Ok item_data1, rs1) =>
      if dry_run then
        (Completed,
         inc_success (add_log (LogDry identifier (PyDict.keys item_data1)) rs1))
      else
        match api rs1 with
        | Some st =>
            if is_item_import import_type
            then import_item mode identifier item_data1 st rs1
            else if String.eqb import_type "kategorien"
            then import_item_group identifier item_data1 st rs1
            else if String.eqb import_type "attribute"
            then import_attribute i item_data1 st rs1
            else if String.eqb import_type "varianten"
            then import_variant i item_data1 st rs1
            else (Completed, rs1)
        | None => (Completed, inc_success (add_log (LogNoApi identifier) rs1))
        end
  end.

(** One iteration: the body, then the progress update; [continue] skips
    the update, and the [except] clause counts and logs the error. *)
Definition process_row (dry_run : bool) (mode import_type : string)
    (fm : PyDict.t FieldMapping) (total : nat) (i : nat) (row : SourceRow)
    (rs : run_state) : run_state :=
  match row_body dry_run mode import_type fm i row rs with
  | (Completed, rs1) => report_progress i total rs1
  | (Continued, rs1) => rs1
  | (Raised e, rs1) => add_log (LogRowException (S i) e) (inc_errors rs1)
  end.

Fixpoint import_loop (dry_run : bool) (mode import_type : string)
    (fm : PyDict.t FieldMapping) (total : nat) (i : nat)
    (rows : list SourceRow) (rs : run_state) : run_state :=
  match rows with
  | [] => rs
  | row :: rest =>
      import_loop dry_run mode import_type fm total (S i) rest
        (process_row dry_run mode import_type fm total i row rs)
  end.

(** [_run_import(dry_run)]: the counters start at zero. *)
Definition run_import (dry_run : bool) (mode import_type : string)
    (fm : PyDict.t FieldMapping) (source_data : list SourceRow)
    (client : option api_state) : run_state :=
  let rs := import_loop dry_run mode import_type fm (List.length source_data) 0
              source_data (mkRun client [] 0 0 0 []) in
  add_log (LogFinished (success rs) (errors rs) (skipped rs)) rs.

(** [start_import]: the checks before the run, which is the only caller of
    [_run_import]. *)
Definition required_field (import_type : string) : string :=
  if is_item_import import_type then "item_code" else "item_group_name".

Definition start_import (dry_run : bool) (mode import_type : string)
    (fm : PyDict.t FieldMapping) (source_data : list SourceRow)
    (client : option api_state) : start_outcome :=
  match source_data with
  | [] => NoData
  | _ :: _ =>
      match fm with
      | [] => NoMappings
      | _ :: _ =>
          if mem_str (required_field import_type)
                     (map target_field (PyDict.values fm))
          then Started dry_run
                 (run_import dry_run mode import_type fm source_data client)
          else MissingRequired (required_field import_type)
      end
  end.

End Collaborators.

(** The keys that only steer the transformation and are not fields of the
    remote record. *)
Definition helper_keys : list string :=
  ["standard_rate_brutto"; "barcode"; "description_html"].

Definition category_keys : list string :=
  level_keys ++ ["category_path"].

(** The import kinds [_run_import] has a branch for. *)
Definition known_import_type (import_type : string) : bool :=
  mem_str import_type ["artikel"; "preise"; "kategorien"; "attribute"; "varianten"].

(** The progress reports of a full run over [n] rows. *)
Definition full_progress (n : nat) : list (nat * nat) :=
  map (fun i => (S i, n)) (seq 0 n).

End Importer.

(** ** Import templates (class ImportTemplate)

    A dataclass does not check its field types, so the fields hold Python
    values; [mappings] is a list of [FieldMapping] objects. *)

Module Template.

(** A [FieldMapping] object with whatever values its fields were given. *)
Record mapping_object := mkMappingObject {
  mo_source_column : pyval;
  mo_target_field : pyval;
  mo_transform : pyval;
  mo_default_value : pyval
}.

Record ImportTemplate := mkTemplate {
  name : pyval;
  import_type : pyval;
  file_format : pyval;
  mappings : list mapping_object;
  csv_delimiter : pyval;
  csv_encoding : pyval;
  skip_first_row : pyval;
  created_at : pyval
}.

(** [asdict(m)] *)
Definition asdict (m : mapping_object) : pyval :=
  VDict [("source_column", mo_source_column m);
         ("target_field", mo_target_field m);
         ("transform", mo_transform m);
         ("default_value", mo_default_value m)].

(** [to_dict] *)
Definition to_dict (t : ImportTemplate) : PyDict.t pyval :=
  [("name", name t);
   ("import_type", import_type t);
   ("file_format", file_format t);
   ("mappings", VList (map asdict (mappings t)));
   ("csv_delimiter", csv_delimiter t);
   ("csv_encoding", csv_encoding t);
   ("skip_first_row", skip_first_row t);
   ("created_at", created_at t)].

Definition mapping_fields : list string :=
  ["source_column"; "target_field"; "transform"; "default_value"].

(** [FieldMapping] called with the keyword arguments [m]: [m] must be a
    mapping whose keys are field names and include the two fields without
    default. *)
Definition mapping_of_kwargs (m : pyval) : result mapping_object :=
  match m with
  | VDict d =>
      if forallb (fun k => existsb (String.eqb k) mapping_fields) (PyDict.keys d) then
        match PyDict.get "source_column" d, PyDict.get "target_field" d with
        | Some s, Some t =>
            Ok (mkMappingObject s t
                  (match PyDict.get "transform" d with
                   | Some v => v | None => VStr "none" end)
                  (match PyDict.get "default_value" d with
                   | Some v => v | None => VStr "" end))
        | _, _ => Raise TypeError
        end
      else Raise TypeError
  | _ => Raise TypeError
  end.

Fixpoint mappings_of_list (l : list pyval) : result (list mapping_object) :=
  match l with
  | [] => Ok []
  | m :: r =>
      bind (mapping_of_kwargs m) (fun o =>
      bind (mappings_of_list r) (fun os => Ok (o :: os)))
  end.

(** The comprehension over [data.get("mappings", [])] that builds one
    [FieldMapping] per element:
    iterating a string yields its characters and iterating a dict its keys,
    none of which is a mapping; a number, a boolean or [None] cannot be
    iterated. *)
Definition mappings_of (v : pyval) : result (list mapping_object) :=
  match v with
  | VList l => mappings_of_list l
  | VStr EmptyString => Ok []
  | VDict [] => Ok []
  | _ => Raise TypeError
  end.

Definition get_default (k : string) (default : pyval) (data : PyDict.t pyval)
  : pyval :=
  match PyDict.get k data with
  | Some v => v
  | None => default
  end.

(** [from_dict] *)
Definition from_dict (data : PyDict.t pyval) : result ImportTemplate :=
  bind (mappings_of (get_default "mappings" (VList []) data)) (fun ms =>
    Ok (mkTemplate
          (get_default "name" (VStr "") data)
          (get_default "import_type" (VStr "artikel") data)
          (get_default "file_format" (VStr "csv") data)
          ms
          (get_default "csv_delimiter" (VStr ";") data)
          (get_default "csv_encoding" (VStr "utf-8") data)
          (get_default "skip_first_row" (VBool true) data)
          (get_default "created_at" (VStr "") data))).

End Template.

(** ** Sample environments

    Concrete collaborators on which the definitions above are evaluated. *)

Module Sample.

(** A remote system that cannot be reached. *)
Definition offline : list request -> request -> response :=
  fun _ _ => RespError "connection refused".

(** A remote system with an empty catalog that accepts every write: reads
    find nothing, writes answer with an empty body. *)
Definition accepting : list request -> request -> response :=
  fun _ req =>
    match req_method req with
    | GET => RespError "404 Not Found"
    | _ => RespJson []
    end.

(** A remote system in which every item and item group asked for exists
    and every write is accepted. *)
Definition populated : list request -> request -> response :=
  fun _ req =>
    match req_method req with
    | GET => RespJson [("data", VDict [("name", VStr (req_endpoint req))])]
    | _ => RespJson []
    end.

(** A remote system that rejects the first write it receives and accepts
    every later one; reads find nothing. *)
Definition flaky : list request -> request -> response :=
  fun history req =>
    match req_method req with
    | GET => RespError "404 Not Found"
    | _ =>
        if existsb (fun r => match req_method r with GET => false | _ => true end)
                   history
        then RespJson []
        else RespError "503 Service Unavailable"
    end.

Definition no_attribute :
  pyval -> list string -> pyval -> pyval -> pyval -> pyval ->
  api_state -> (bool * api_msg) * api_state :=
  fun _ _ _ _ _ _ st => ((false, MsgText "unavailable"), st).

Definition no_variant :
  pyval -> pyval -> PyDict.t pyval -> pyval -> PyDict.t pyval ->
  api_state -> (bool * api_msg) * api_state :=
  fun _ _ _ _ _ st => ((false, MsgText "unavailable"), st).

(** A freshly connected client. *)
Definition client : api_state :=
  mkApi "Alle Artikelgruppen" "Standard-Vertrieb" true [] [] [].

Definition no_mappings : MappingState := mkMappingState [] [] [].

End Sample.

(** * Properties *)

Unset Implicit Arguments.

(** ** Dictionaries *)

Module PyDictFacts.
Import PyDict.

Section Facts.
Variable V : Type.
Implicit Types (k : string) (v : V) (d : t V).

Lemma get_set_same k v d : get k (set k v d) = Some v.
Proof.
  induction d as [|[k' v'] r IH]; simpl.
  - now rewrite String.eqb_refl.
  - destruct (String.eqb k' k) eqn:E; simpl.
    + now rewrite String.eqb_refl.
    + now rewrite E.
Qed.

Lemma get_set_other k k' v d : k' <> k -> get k' (set k v d) = get k' d.
Proof.
  intros Hne. induction d as [|[k0 v0] r IH]; simpl.
  - destruct (String.eqb k k') eqn:E; [apply String.eqb_eq in E; congruence|easy].
  - destruct (String.eqb k0 k) eqn:E; simpl.
    + apply String.eqb_eq in E; subst k0.
      destruct (String.eqb k k') eqn:E'; [apply String.eqb_eq in E'; congruence|easy].
    + now rewrite IH.
Qed.

Lemma get_remove_same k d : get k (remove k d) = None.
Proof.
  induction d as [|[k' v'] r IH]; simpl; [easy|].
  destruct (String.eqb k' k) eqn:E; simpl; [easy|now rewrite E].
Qed.

Lemma get_remove_other k k' d : k' <> k -> get k' (remove k d) = get k' d.
Proof.
  intros Hne. induction d as [|[k0 v0] r IH]; simpl; [easy|].
  destruct (String.eqb k0 k) eqn:E; simpl.
  - apply String.eqb_eq in E; subst k0.
    destruct (String.eqb k k') eqn:E'; [apply String.eqb_eq in E'; congruence|easy].
  - now rewrite IH.
Qed.

Lemma mem_keys k d : mem k d = true <-> In k (keys d).
Proof.
  unfold mem, keys. induction d as [|[k' v'] r IH]; simpl.
  - split; [discriminate|tauto].
  - destruct (String.eqb k' k) eqn:E.
    + apply String.eqb_eq in E. split; auto.
    + apply String.eqb_neq in E. rewrite IH. split; [auto|intros [?|?]; [congruence|easy]].
Qed.


Lemma mem_remove_same k d : mem k (remove k d) = false.
Proof. unfold mem. now rewrite get_remove_same. Qed.

Lemma mem_true_get k d : mem k d = true <-> exists v, get k d = Some v.
Proof.
  unfold mem. destruct (get k d) as [v|]; split; eauto; try discriminate.
  intros [v Hv]. discriminate.
Qed.

End Facts.

End PyDictFacts.

(** ** The REST client *)

Section ApiFacts.
Variable remote : list request -> request -> response.

(** A request either is refused before it is sent (no session) or is
    appended to [sent]; nothing else of the client state changes. *)
Lemma make_request_sent m endpoint data st :
  let '(_, st') := Api.make_request remote m endpoint data st in
  (sent st' = sent st \/ sent st' = (sent st ++ [mkRequest m endpoint data])%list)
  /\ item_cache st' = item_cache st
  /\ item_group_cache st' = item_group_cache st
  /\ default_item_group st' = default_item_group st
  /\ has_session st' = has_session st.
Proof.
  unfold Api.make_request.
  destruct (has_session st) eqn:Hs; simpl.
  - destruct (remote (sent st) (mkRequest m endpoint data)); simpl; auto 10.
  - auto 10.
Qed.

(** C10. [update_item(item_code, data)] removes the keys [item_code],
    [doctype] and [gtin] from the caller's dict before the request: the dict
    handed back has none of the three and agrees with the original on every
    other key (so it gains no key, in particular no barcode entry), and if a
    request is issued it is the single PUT to [Item/{item_code}] whose
    payload is that stripped dict. *)
Theorem update_item_strips_keys item_code data st :
  let '(_, data', st') := Api.update_item remote item_code data st in
  (forall k, In k Api.update_stripped_keys -> PyDict.get k data' = None)
  /\ (forall k, ~ In k Api.update_stripped_keys -> PyDict.get k data' = PyDict.get k data)
  /\ (sent st' = sent st
      \/ sent st' = (sent st ++ [mkRequest PUT ("Item/" ++ PyVal.str item_code) (Some data')])%list)
  /\ (forall req, In req (sent st') -> In req (sent st)
        \/ (req_method req = PUT
            /\ exists payload, req_data req = Some payload
               /\ forall k, In k Api.update_stripped_keys -> PyDict.get k payload = None)).
Proof.
  unfold Api.update_item.
  set (data3 := PyDict.remove "gtin" (PyDict.remove "doctype" (PyDict.remove "item_code" data))).
  assert (Hnone : forall k, In k Api.update_stripped_keys -> PyDict.get k data3 = None).
  { intros k [<-|[<-|[<-|[]]]]; unfold data3.
    - rewrite !PyDictFacts.get_remove_other by discriminate.
      apply PyDictFacts.get_remove_same.
    - rewrite PyDictFacts.get_remove_other by discriminate.
      apply PyDictFacts.get_remove_same.
    - apply PyDictFacts.get_remove_same. }
  assert (Hkeep : forall k, ~ In k Api.update_stripped_keys ->
                            PyDict.get k data3 = PyDict.get k data).
  { intros k Hk. unfold data3. simpl in Hk.
    rewrite !PyDictFacts.get_remove_other; auto; intros ->; tauto. }
  pose proof (make_request_sent PUT ("Item/" ++ PyVal.str item_code) (Some data3) st) as H.
  destruct (Api.make_request remote PUT ("Item/" ++ PyVal.str item_code) (Some data3) st)
    as [r st1].
  destruct H as [Hsent _].
  assert (Hreq : forall req, In req (sent st1) -> In req (sent st)
        \/ (req_method req = PUT
            /\ exists payload, req_data req = Some payload
               /\ forall k, In k Api.update_stripped_keys -> PyDict.get k payload = None)).
  { intros req Hin. destruct Hsent as [E|E]; rewrite E in Hin; auto.
    apply in_app_or in Hin. destruct Hin as [Hin|[<-|[]]]; auto.
    right. simpl. split; [reflexivity|]. exists data3. auto. }
  destruct r; simpl; auto.
Qed.

End ApiFacts.

(** ** Category hierarchy *)

Section HierarchyFacts.
Variable remote : list request -> request -> response.

Lemma cache_get_set_same k v c :
  PyVal.eqb k k = true -> Api.cache_get k (Api.cache_set k v c) = Some v.
Proof.
  intros Hk. induction c as [|[k0 v0] r IH]; simpl.
  - now rewrite Hk.
  - destruct (PyVal.eqb k0 k) eqn:E; simpl; rewrite E; auto.
Qed.

Lemma cache_get_set_mono k v k' c x :
  Api.cache_get k' c = Some x ->
  exists y, Api.cache_get k' (Api.cache_set k v c) = Some y.
Proof.
  induction c as [|[k0 v0] r IH]; simpl; [discriminate|].
  destruct (PyVal.eqb k0 k) eqn:E; simpl;
    destruct (PyVal.eqb k0 k') eqn:E'; intros H; eauto.
Qed.

Lemma group_cached_set l l' v st :
  Api.group_cached l' st = true ->
  Api.group_cached l' (Api.with_group_cache st
     (Api.cache_set (VStr l) v (item_group_cache st))) = true.
Proof.
  unfold Api.group_cached; simpl.
  destruct (Api.cache_get (VStr l') (item_group_cache st)) eqn:E; [|discriminate].
  intros _. destruct (cache_get_set_mono (VStr l) v _ _ _ E) as [y ->]. reflexivity.
Qed.

Lemma group_cached_set_same l v st :
  Api.group_cached l (Api.with_group_cache st
     (Api.cache_set (VStr l) v (item_group_cache st))) = true.
Proof.
  unfold Api.group_cached; simpl.
  rewrite cache_get_set_same; [reflexivity|]. simpl. apply String.eqb_refl.
Qed.

Lemma extends_refl st : Api.extends st st.
Proof. split; auto. Qed.

Lemma extends_trans a b c : Api.extends a b -> Api.extends b c -> Api.extends a c.
Proof. intros [H1 H2] [H3 H4]. split; [congruence|auto]. Qed.

Lemma extends_request m endpoint data st :
  Api.extends st (snd (Api.make_request remote m endpoint data st)).
Proof.
  pose proof (make_request_sent remote m endpoint data st) as H.
  destruct (Api.make_request remote m endpoint data st) as [r st1]; simpl.
  destruct H as (_ & _ & Hg & Hd & _). split; [assumption|].
  intros l. unfold Api.group_cached. now rewrite Hg.
Qed.

Lemma extends_set l v st st1 :
  Api.extends st st1 ->
  Api.extends st (Api.with_group_cache st1 (Api.cache_set (VStr l) v (item_group_cache st1))).
Proof.
  intros [Hd Hc]. split; [exact Hd|].
  intros l' H. apply group_cached_set. auto.
Qed.

(** [get_item_group] on a string never raises; a true answer leaves the
    name in the cache. *)
Lemma get_item_group_spec l st :
  exists existing st1,
    Api.get_item_group remote (VStr l) st = (Ok existing, st1)
    /\ Api.extends st st1
    /\ (PyVal.truthy existing = true -> Api.group_cached l st1 = true)
    /\ (Api.group_cached l st = true -> st1 = st /\ PyVal.truthy existing = true).
Proof.
  unfold Api.get_item_group.
  change (negb (Api.hashable (VStr l))) with false. cbv iota.
  unfold Api.group_cached at 2.
  destruct (Api.cache_get (VStr l) (item_group_cache st)) as [n|] eqn:Hc.
  - exists (VDict [("name", n)]), st.
    split; [reflexivity|]. split; [apply extends_refl|].
    split; [intros _; unfold Api.group_cached; now rewrite Hc|auto].
  - change (PyVal.str (VStr l)) with l.
    pose proof (extends_request GET ("Item Group/" ++ l) None st) as Hx.
    destruct (Api.make_request remote GET ("Item Group/" ++ l) None st) as [r st1].
    simpl in Hx.
    destruct r as [body|e].
    + destruct (PyVal.truthy (Api.get_data body)) eqn:Ht.
      * destruct (Api.subscript (Api.get_data body) "name") as [n|e] eqn:Hs.
        -- eexists _, _. split; [reflexivity|]. split; [now apply extends_set|].
           split; [intros _; apply group_cached_set_same|discriminate].
        -- eexists _, _. split; [reflexivity|]. split; [exact Hx|].
           split; discriminate.
      * eexists _, _. split; [reflexivity|]. split; [exact Hx|].
        split; [congruence|discriminate].
    + eexists _, _. split; [reflexivity|]. split; [exact Hx|]. split; discriminate.
Qed.

(** A successful [create_item_group] leaves the name in the cache. *)
Lemma create_item_group_spec l data st :
  PyDict.get "item_group_name" data = Some (VStr l) ->
  let '(ok_msg, _, st2) := Api.create_item_group remote data st in
  Api.extends st st2 /\ (fst ok_msg = true -> Api.group_cached l st2 = true).
Proof.
  intros Hname. unfold Api.create_item_group. rewrite Hname.
  destruct (get_item_group_spec l st) as (existing & st1 & -> & Hx & Ht & _).
  destruct (PyVal.truthy existing) eqn:Hex.
  - split; auto.
  - match goal with |- context [Api.make_request remote POST ?e ?d st1] =>
      pose proof (extends_request POST e d st1) as Hx2;
      destruct (Api.make_request remote POST e d st1) as [r st2]
    end.
    simpl in Hx2.
    destruct r as [body|e].
    + match goal with |- context [Api.get_or ?a ?b ?c] =>
        destruct (Api.get_or a b c) as [created|e]
      end.
      * split.
        -- eapply extends_trans; [exact Hx|]. now apply extends_set.
        -- intros _. apply group_cached_set_same.
      * split; [eapply extends_trans; eauto|discriminate].
    + split; [eapply extends_trans; eauto|discriminate].
Qed.

Lemma last_cons (rest : list string) : forall l d, last (l :: rest) d = last rest l.
Proof.
  induction rest as [|a r IH]; intros l d; [reflexivity|].
  change (last (l :: a :: r) d) with (last (a :: r) d).
  now rewrite (IH a d), (IH a l).
Qed.

(** A walk that logs no creation failure ends with every level cached and
    returns the last level. *)
Lemma hierarchy_loop_complete ls : forall parent last_category st res logs st1,
  Api.hierarchy_loop remote ls parent last_category st = (Ok (res, logs), st1) ->
  existsb Api.is_failure logs = false ->
  Api.extends st st1
  /\ res = last ls last_category
  /\ forall l, In l ls -> Api.group_cached l st1 = true.
Proof.
  induction ls as [|l rest IH]; intros parent lc st res logs st1 Hrun Hlogs.
  - simpl in Hrun. inversion Hrun; subst.
    split; [apply extends_refl|]. split; [reflexivity|]. intros l [].
  - simpl in Hrun.
    destruct (get_item_group_spec l st) as (existing & sta & Hget & Hx & Ht & _).
    rewrite Hget in Hrun.
    pose proof (last_cons rest l) as Hlast.
    destruct (PyVal.truthy existing) eqn:Hex.
    + destruct (Api.hierarchy_loop remote rest l l sta) as [[[res' logs']|e] stb] eqn:Hrec;
        [|discriminate].
      inversion Hrun; subst. simpl in Hlogs.
      destruct (@IH _ _ _ _ _ _ Hrec Hlogs) as (Hx2 & Hres & Hall).
      split; [eapply extends_trans; eauto|]. split; [now rewrite Hlast|].
      intros l' [<-|Hin]; auto. apply Hx2. auto.
    + match type of Hrun with context [Api.create_item_group remote ?d sta] =>
        pose proof (@create_item_group_spec l d sta eq_refl) as Hc;
        destruct (Api.create_item_group remote d sta) as [[ok_msg data'] stb]
      end.
      destruct Hc as [Hx2 Hok].
      destruct (fst ok_msg) eqn:Hf.
      * destruct (Api.hierarchy_loop remote rest l l stb) as [[[res' logs']|e] stc] eqn:Hrec;
          [|discriminate].
        inversion Hrun; subst. simpl in Hlogs.
        destruct (@IH _ _ _ _ _ _ Hrec Hlogs) as (Hx3 & Hres & Hall).
        split; [eapply extends_trans; [exact Hx|eapply extends_trans; eauto]|].
        split; [now rewrite Hlast|].
        intros l' [<-|Hin]; auto. apply Hx3. auto.
      * inversion Hrun; subst. simpl in Hlogs. discriminate.
Qed.

(** With every level cached the walk sends nothing and creates nothing. *)
Lemma hierarchy_loop_cached ls : forall parent last_category st,
  (forall l, In l ls -> Api.group_cached l st = true) ->
  Api.hierarchy_loop remote ls parent last_category st
  = (Ok (last ls last_category, map LogCategoryExists ls), st).
Proof.
  induction ls as [|l rest IH]; intros parent lc st Hall; [reflexivity|].
  simpl.
  destruct (get_item_group_spec l st) as (existing & sta & Hget & _ & _ & Hhit).
  destruct (Hhit (Hall l (or_introl eq_refl))) as [-> Hex].
  rewrite Hget, Hex, IH by (intros; apply Hall; now right).
  change (match rest with [] => l | _ :: _ => last rest lc end)
    with (last (l :: rest) lc).
  now rewrite last_cons.
Qed.

(** C8 (amended). When a call of [ensure_category_hierarchy] returns
    without having logged a creation failure, a second call with the same
    levels on the resulting client returns the same bottom category and
    leaves the client unchanged: every level is answered from the cache, so
    no request at all is sent and nothing is created. *)
Theorem ensure_hierarchy_rerun levels st res logs st1 :
  Api.ensure_category_hierarchy remote levels st = (Ok (res, logs), st1) ->
  existsb Api.is_failure logs = false ->
  exists logs' st2,
    Api.ensure_category_hierarchy remote levels st1 = (Ok (res, logs'), st2)
    /\ st2 = st1
    /\ Api.requests_since st1 st2 = []
    /\ existsb Api.is_failure logs' = false.
Proof.
  intros Hrun Hlogs.
  assert (Hskip : Api.requests_since st1 st1 = []).
  { unfold Api.requests_since. apply skipn_all. }
  unfold Api.ensure_category_hierarchy in *.
  destruct levels as [|v vs].
  - inversion Hrun; subst. exists [], st1. auto.
  - destruct (Api.filter_levels (v :: vs)) as [[|l ls]|e]; [| |discriminate].
    + inversion Hrun; subst. exists [], st1. auto.
    + destruct (@hierarchy_loop_complete _ _ _ _ _ _ _ Hrun Hlogs) as ([Hd _] & Hres & Hall).
      rewrite Hd, (@hierarchy_loop_cached _ _ _ _ Hall).
      exists (map LogCategoryExists (l :: ls)), st1.
      split; [now rewrite Hres|]. split; [reflexivity|]. split; [exact Hskip|].
      clear. induction (l :: ls); simpl; auto.
Qed.

End HierarchyFacts.

(** A run on a remote system that accepts every write. *)
Lemma ensure_hierarchy_rerun_witness :
  let levels := [VStr "A"; VStr "B"] in
  let st1 := snd (Api.ensure_category_hierarchy Sample.accepting levels Sample.client) in
  exists logs' st2,
    Api.ensure_category_hierarchy Sample.accepting levels st1 = (Ok ("B", logs'), st2)
    /\ st2 = st1
    /\ Api.requests_since st1 st2 = []
    /\ existsb Api.is_failure logs' = false.
Proof.
  intros levels st1.
  eapply (ensure_hierarchy_rerun Sample.accepting levels Sample.client);
    reflexivity.
Defined.

(** C8 as stated fails when a creation fails during the first call: on a
    remote system that rejects the first write and accepts later ones, the
    first call creates nothing (so the existence check of the second call,
    which finds nothing, reflects all it created), and the second call
    sends a creating request and returns another category. *)
Lemma ensure_hierarchy_rerun_counterexample :
  exists r1 l1 st1 r2 l2 st2,
    Api.ensure_category_hierarchy Sample.flaky [VStr "A"] Sample.client
      = (Ok (r1, l1), st1)
    /\ Api.ensure_category_hierarchy Sample.flaky [VStr "A"] st1
      = (Ok (r2, l2), st2)
    /\ List.filter Api.is_group_create (Api.requests_since st1 st2) <> []
    /\ r2 <> r1.
Proof.
  do 6 eexists. split; [reflexivity|]. split; [reflexivity|].
  split; discriminate.
Qed.

(** ** Mapping resolver *)

Section MappingFacts.

Lemma evict_step_test source_col target st item :
  Mapping.evict_step source_col target st item
  = if Mapping.evicted_by source_col target item
    then mkMappingState
           (PyDict.remove (fst item) (field_mappings st))
           (Mapping.set_registered_dropdown (fst item) "" (controls st))
           (notices st ++ [NoticeEvicted target])
    else st.
Proof. destruct item as [k m]. reflexivity. Qed.

(** The mappings after the eviction loop: a column is gone exactly when
    some snapshot entry for it met the test. *)
Lemma evict_fold_get source_col target items : forall st c,
  PyDict.get c (field_mappings (fold_left (Mapping.evict_step source_col target) items st))
  = if existsb (fun it => Mapping.evicted_by source_col target it
                          && String.eqb (fst it) c) items
    then None else PyDict.get c (field_mappings st).
Proof.
  induction items as [|it rest IH]; intros st c; [reflexivity|].
  simpl. rewrite IH, evict_step_test.
  destruct (Mapping.evicted_by source_col target it) eqn:Ev; simpl.
  - destruct (String.eqb (fst it) c) eqn:Ec; simpl.
    + apply String.eqb_eq in Ec. subst c.
      rewrite PyDictFacts.get_remove_same.
      now destruct (existsb _ rest).
    + apply String.eqb_neq in Ec.
      rewrite PyDictFacts.get_remove_other by congruence. reflexivity.
  - reflexivity.
Qed.

(** One notice per evicted entry, each naming the target field only. *)
Lemma evict_fold_notices source_col target items : forall st,
  notices (fold_left (Mapping.evict_step source_col target) items st)
  = (notices st
     ++ repeat (NoticeEvicted target)
          (List.length (List.filter (Mapping.evicted_by source_col target) items)))%list.
Proof.
  induction items as [|it rest IH]; intros st; simpl.
  - now rewrite app_nil_r.
  - rewrite IH, evict_step_test.
    destruct (Mapping.evicted_by source_col target it); simpl; [|reflexivity].
    now rewrite <- app_assoc.
Qed.

Lemma get_In (V : Type) (k : string) (v : V) (d : PyDict.t V) :
  PyDict.get k d = Some v -> In (k, v) d.
Proof.
  induction d as [|[k0 v0] r IH]; simpl; [discriminate|].
  destruct (String.eqb k0 k) eqn:E.
  - apply String.eqb_eq in E. intros [= ->]. left. congruence.
  - auto.
Qed.

Lemma on_mapping_changed_get_other source_col target st other :
  PyStr.is_empty target = false -> other <> source_col ->
  PyDict.get other (field_mappings (Mapping.on_mapping_changed source_col target st))
  = if existsb (fun it => Mapping.evicted_by source_col target it
                          && String.eqb (fst it) other) (field_mappings st)
    then None else PyDict.get other (field_mappings st).
Proof.
  intros Ht Hne. unfold Mapping.on_mapping_changed. rewrite Ht. simpl.
  set (st1 := fold_left _ _ _).
  destruct (PyDict.get source_col (field_mappings st1));
    rewrite PyDictFacts.get_set_other by assumption;
    apply evict_fold_get.
Qed.

(** After a manual edit the edited column holds the target. *)
Lemma on_mapping_changed_holds source_col target st :
  PyStr.is_empty target = false ->
  Mapping.holds (field_mappings (Mapping.on_mapping_changed source_col target st))
    source_col target.
Proof.
  intros Ht. unfold Mapping.on_mapping_changed, Mapping.holds. rewrite Ht. simpl.
  set (st1 := fold_left _ _ _).
  destruct (PyDict.get source_col (field_mappings st1)) as [m|];
    rewrite PyDictFacts.get_set_same; eauto.
Qed.

(** ... and no other column does. *)
Lemma on_mapping_changed_exclusive source_col target st other :
  PyStr.is_empty target = false -> other <> source_col ->
  ~ Mapping.holds (field_mappings (Mapping.on_mapping_changed source_col target st))
      other target.
Proof.
  intros Ht Hne (m & Hget & Hm).
  rewrite on_mapping_changed_get_other in Hget by assumption.
  destruct (existsb _ _) eqn:Ex; [discriminate|].
  apply get_In in Hget.
  assert (existsb (fun it => Mapping.evicted_by source_col target it
                             && String.eqb (fst it) other) (field_mappings st) = true).
  { apply existsb_exists. exists (other, m). split; [assumption|].
    unfold Mapping.evicted_by. simpl.
    rewrite Hm, !String.eqb_refl.
    apply String.eqb_neq in Hne. now rewrite Hne. }
  congruence.
Qed.

Lemma on_mapping_changed_unique source_col target st :
  PyStr.is_empty target = false ->
  Mapping.unique_targets (field_mappings st) ->
  Mapping.unique_targets
    (field_mappings (Mapping.on_mapping_changed source_col target st)).
Proof.
  intros Ht Hu c1 c2 t Hne H1 H2.
  assert (Hold : forall c, c <> source_col ->
            Mapping.holds (field_mappings (Mapping.on_mapping_changed source_col target st)) c t ->
            Mapping.holds (field_mappings st) c t /\ t <> target).
  { intros c Hc Hh. split.
    - destruct Hh as (m & Hget & Hm).
      rewrite on_mapping_changed_get_other in Hget by assumption.
      destruct (existsb _ _); [discriminate|]. exists m. auto.
    - intros ->. now apply (on_mapping_changed_exclusive source_col target st c Ht Hc). }
  assert (Hnew : forall t', Mapping.holds (field_mappings (Mapping.on_mapping_changed source_col target st)) source_col t' -> t' = target).
  { intros t' (m & Hget & Hm).
    destruct (on_mapping_changed_holds source_col target st Ht) as (m' & Hget' & Hm').
    congruence. }
  destruct (String.eqb_spec c1 source_col) as [E1|E1];
    destruct (String.eqb_spec c2 source_col) as [E2|E2]; subst.
  - reflexivity.
  - apply Hnew in H1. destruct (Hold _ E2 H2) as [_ Hx]. congruence.
  - apply Hnew in H2. destruct (Hold _ E1 H1) as [_ Hx]. congruence.
  - destruct (Hold _ E1 H1) as [H1' _]. destruct (Hold _ E2 H2) as [H2' _].
    eapply Hu; eauto.
Qed.

Lemma mem_str_In x l : Mapping.mem_str x l = true <-> In x l.
Proof.
  unfold Mapping.mem_str. rewrite existsb_exists. split.
  - intros (y & Hy & E). apply String.eqb_eq in E. now subst.
  - intros H. exists x. split; [assumption|apply String.eqb_refl].
Qed.

Lemma holds_set_same fm c t t' :
  Mapping.holds (PyDict.set c (new_mapping c t) fm) c t' -> t' = t.
Proof.
  intros (m & Hget & Hm). rewrite PyDictFacts.get_set_same in Hget.
  injection Hget as <-. now simpl in Hm.
Qed.

Lemma holds_set_other fm c m c' t :
  c' <> c -> Mapping.holds (PyDict.set c m fm) c' t -> Mapping.holds fm c' t.
Proof.
  intros Hne (m' & Hget & Hm). rewrite PyDictFacts.get_set_other in Hget by assumption.
  exists m'. auto.
Qed.

(** Assigning a target not yet used keeps the invariant of a pass. *)
Lemma assign_fresh fm used c t :
  Mapping.pass_invariant fm used -> Mapping.mem_str t used = false ->
  Mapping.pass_invariant (PyDict.set c (new_mapping c t) fm) (t :: used).
Proof.
  intros [Hin Hun] Hfresh.
  assert (Hnot : ~ In t used) by (rewrite <- mem_str_In; congruence).
  split.
  - intros c' t' Hh. destruct (String.eqb_spec c' c) as [->|Hne].
    + left. symmetry. eapply holds_set_same; eauto.
    + right. eapply Hin, holds_set_other; eauto.
  - intros c1 c2 t' H1 H2.
    destruct (String.eqb_spec c1 c) as [->|N1];
      destruct (String.eqb_spec c2 c) as [->|N2]; auto.
    + apply holds_set_same in H1. subst t'.
      apply holds_set_other in H2; [|assumption]. apply Hin in H2. contradiction.
    + apply holds_set_same in H2. subst t'.
      apply holds_set_other in H1; [|assumption]. apply Hin in H1. contradiction.
    + eapply Hun; eapply holds_set_other; eauto.
Qed.

Lemma mem_set_mono (V : Type) (k k' : string) (v : V) (d : PyDict.t V) :
  PyDict.mem k' d = true -> PyDict.mem k' (PyDict.set k v d) = true.
Proof.
  unfold PyDict.mem. destruct (String.eqb_spec k' k) as [->|Hne].
  - now rewrite PyDictFacts.get_set_same.
  - now rewrite PyDictFacts.get_set_other.
Qed.

(** The mappings a pass ends with. *)
Lemma auto_map_loop_invariant rules cs : forall fm used n,
  Mapping.pass_invariant fm used ->
  let '(_, fm', used', _) := Mapping.auto_map_loop rules cs fm used n in
  Mapping.pass_invariant fm' used'.
Proof.
  induction cs as [|c r IH]; intros fm used n Hinv; simpl; [auto|].
  destruct (negb (PyStr.is_empty (Mapping.auto_map_target rules (source_text c)))
            && negb (Mapping.mem_str (Mapping.auto_map_target rules (source_text c)) used))
    eqn:Hc.
  - apply andb_prop in Hc. destruct Hc as [_ Hf]. apply negb_true_iff in Hf.
    specialize (IH _ _ (S n) (assign_fresh _ _ (source_text c) _ Hinv Hf)).
    destruct (Mapping.auto_map_loop rules r _ _ (S n)) as [[[r' fm'] used'] n'].
    assumption.
  - specialize (IH _ _ n Hinv).
    destruct (Mapping.auto_map_loop rules r fm used n) as [[[r' fm'] used'] n'].
    assumption.
Qed.

Lemma auto_map_loop_keeps rules c cs : forall fm used n,
  PyDict.mem c fm = true ->
  let '(_, fm', _, _) := Mapping.auto_map_loop rules cs fm used n in
  PyDict.mem c fm' = true.
Proof.
  induction cs as [|c0 r IH]; intros fm used n Hm; simpl; [assumption|].
  destruct (negb _ && negb _).
  - specialize (IH _ (Mapping.auto_map_target rules (source_text c0) :: used) (S n)
                  (mem_set_mono _ (source_text c0) c
                     (new_mapping (source_text c0)
                        (Mapping.auto_map_target rules (source_text c0))) fm Hm)).
    destruct (Mapping.auto_map_loop rules r _ _ (S n)) as [[[r' fm'] used'] n'].
    assumption.
  - specialize (IH fm used n Hm).
    destruct (Mapping.auto_map_loop rules r fm used n) as [[[r' fm'] used'] n'].
    assumption.
Qed.

Lemma ai_map_loop_invariant ai cs : forall fm used n,
  Mapping.pass_invariant fm used ->
  let '(_, fm', used', _) := Mapping.ai_map_loop ai cs fm used n in
  Mapping.pass_invariant fm' used'.
Proof.
  induction cs as [|c r IH]; intros fm used n Hinv; simpl; [auto|].
  destruct (PyDict.get (source_text c) ai) as [target|].
  - destruct (negb (Mapping.mem_str target used)) eqn:Hc.
    + apply negb_true_iff in Hc.
      specialize (IH _ _ (S n) (assign_fresh _ _ (source_text c) _ Hinv Hc)).
      destruct (Mapping.ai_map_loop ai r _ _ (S n)) as [[[r' fm'] used'] n'].
      assumption.
    + specialize (IH _ _ n Hinv).
      destruct (Mapping.ai_map_loop ai r fm used n) as [[[r' fm'] used'] n'].
      assumption.
  - specialize (IH _ _ n Hinv).
    destruct (Mapping.ai_map_loop ai r fm used n) as [[[r' fm'] used'] n'].
    assumption.
Qed.

Lemma ai_map_loop_keeps ai c cs : forall fm used n,
  PyDict.mem c fm = true ->
  let '(_, fm', _, _) := Mapping.ai_map_loop ai cs fm used n in
  PyDict.mem c fm' = true.
Proof.
  induction cs as [|c0 r IH]; intros fm used n Hm; simpl; [assumption|].
  destruct (PyDict.get (source_text c0) ai) as [target|].
  - destruct (negb (Mapping.mem_str target used)).
    + specialize (IH _ (target :: used) (S n)
                    (mem_set_mono _ (source_text c0) c
                       (new_mapping (source_text c0) target) fm Hm)).
      destruct (Mapping.ai_map_loop ai r _ _ (S n)) as [[[r' fm'] used'] n'].
      assumption.
    + specialize (IH fm used n Hm).
      destruct (Mapping.ai_map_loop ai r fm used n) as [[[r' fm'] used'] n'].
      assumption.
  - specialize (IH fm used n Hm).
    destruct (Mapping.ai_map_loop ai r fm used n) as [[[r' fm'] used'] n'].
    assumption.
Qed.

Lemma pass_invariant_empty : Mapping.pass_invariant [] [].
Proof.
  split.
  - intros c t (m & Hget & _). discriminate.
  - intros c1 c2 t (m & Hget & _). discriminate.
Qed.

Lemma pass_invariant_unique fm used :
  Mapping.pass_invariant fm used -> Mapping.unique_targets fm.
Proof. intros [_ Hun] c1 c2 t _ H1 H2. eauto. Qed.

(** *** The dropdown registered for an evicted column *)

Lemma set_first_find_same col v l :
  find (fun c => String.eqb (source_text c) col) (Mapping.set_first_dropdown col v l)
  = option_map (fun r => mkControl (source_text r) v)
      (find (fun c => String.eqb (source_text c) col) l).
Proof.
  induction l as [|c r IH]; [reflexivity|].
  cbn [Mapping.set_first_dropdown find].
  destruct (String.eqb (source_text c) col) eqn:E; cbn [find source_text].
  - now rewrite E.
  - now rewrite E.
Qed.

Lemma set_first_find_other col col' v l :
  col' <> col ->
  find (fun c => String.eqb (source_text c) col') (Mapping.set_first_dropdown col v l)
  = find (fun c => String.eqb (source_text c) col') l.
Proof.
  intros Hne. induction l as [|c r IH]; [reflexivity|].
  cbn [Mapping.set_first_dropdown find].
  destruct (String.eqb (source_text c) col) eqn:E; cbn [find source_text].
  - apply String.eqb_eq in E.
    destruct (String.eqb (source_text c) col') eqn:E'; [|reflexivity].
    apply String.eqb_eq in E'. congruence.
  - destruct (String.eqb (source_text c) col'); [reflexivity|exact IH].
Qed.

Lemma registered_set_same col v cs :
  Mapping.registered_dropdown col (Mapping.set_registered_dropdown col v cs)
  = option_map (fun r => mkControl (source_text r) v)
      (Mapping.registered_dropdown col cs).
Proof.
  unfold Mapping.registered_dropdown, Mapping.set_registered_dropdown.
  rewrite rev_involutive. apply set_first_find_same.
Qed.

Lemma registered_set_other col col' v cs :
  col' <> col ->
  Mapping.registered_dropdown col' (Mapping.set_registered_dropdown col v cs)
  = Mapping.registered_dropdown col' cs.
Proof.
  intros Hne. unfold Mapping.registered_dropdown, Mapping.set_registered_dropdown.
  rewrite rev_involutive. now apply set_first_find_other.
Qed.

Lemma evict_fold_registered source_col target other items : forall st,
  Mapping.registered_dropdown other
    (controls (fold_left (Mapping.evict_step source_col target) items st))
  = if existsb (fun it => Mapping.evicted_by source_col target it
                          && String.eqb (fst it) other) items
    then option_map (fun r => mkControl (source_text r) "")
           (Mapping.registered_dropdown other (controls st))
    else Mapping.registered_dropdown other (controls st).
Proof.
  induction items as [|[k m] r IH]; intros st; [reflexivity|].
  cbn [fold_left existsb]. rewrite IH, evict_step_test. cbn [fst].
  destruct (Mapping.evicted_by source_col target (k, m)) eqn:Hev; cbn [andb orb controls].
  - destruct (String.eqb k other) eqn:E; cbn [orb].
    + apply String.eqb_eq in E. subst k. rewrite registered_set_same.
      destruct (existsb _ r); [|reflexivity].
      destruct (Mapping.registered_dropdown other (controls st)); reflexivity.
    + apply String.eqb_neq in E.
      rewrite registered_set_other by congruence. reflexivity.
  - reflexivity.
Qed.

(** *** Who gets a target in a pass *)

Lemma auto_map_loop_claim rules cs : forall fm used n,
  Mapping.auto_map_loop rules cs fm used n
  = Mapping.claim_loop (Mapping.rule_proposal rules) cs fm used n.
Proof.
  induction cs as [|c r IH]; intros fm used n; [reflexivity|].
  cbn [Mapping.auto_map_loop Mapping.claim_loop].
  unfold Mapping.rule_proposal; cbv zeta.
  destruct (PyStr.is_empty (Mapping.auto_map_target rules (source_text c)));
    cbn [negb andb].
  - rewrite IH. reflexivity.
  - destruct (negb (Mapping.mem_str _ used)); rewrite IH; reflexivity.
Qed.

Lemma ai_map_loop_claim ai cs : forall fm used n,
  Mapping.ai_map_loop ai cs fm used n
  = Mapping.claim_loop (Mapping.ai_proposal ai) cs fm used n.
Proof.
  induction cs as [|c r IH]; intros fm used n; [reflexivity|].
  cbn [Mapping.ai_map_loop Mapping.claim_loop]. unfold Mapping.ai_proposal.
  destruct (PyDict.get (source_text c) ai) as [target|]; [|now rewrite IH].
  destruct (negb (Mapping.mem_str target used)); now rewrite IH.
Qed.

Lemma first_claim_inv l i t :
  Mapping.first_claim l i = Some t ->
  nth_error l i = Some (Some t)
  /\ existsb (Mapping.proposes t) (firstn i l) = false.
Proof.
  unfold Mapping.first_claim.
  destruct (nth_error l i) as [[t'|]|]; try discriminate.
  destruct (existsb (Mapping.proposes t') (firstn i l)) eqn:E; [discriminate|].
  intros H. inversion H; subst. auto.
Qed.

Lemma existsb_firstn (A : Type) (f : A -> bool) (l : list A) : forall k i x,
  nth_error l k = Some x -> k < i -> f x = true ->
  existsb f (firstn i l) = true.
Proof.
  induction l as [|a r IH]; intros k i x Hn Hlt Hf; [destruct k; discriminate|].
  destruct i as [|i']; [lia|]. cbn [firstn existsb].
  destruct k as [|k'].
  - simpl in Hn. inversion Hn; subst. now rewrite Hf.
  - simpl in Hn. rewrite (IH k' i' x Hn) by (assumption || lia). apply orb_true_r.
Qed.

Lemma nth_error_all (P : control -> option string) pre cs j row :
  nth_error cs j = Some row ->
  nth_error (map P (pre ++ cs)) (List.length pre + j) = Some (P row).
Proof.
  intros H. rewrite map_app, nth_error_app2 by (rewrite length_map; lia).
  rewrite length_map.
  replace (List.length pre + j - List.length pre) with j by lia.
  now apply map_nth_error.
Qed.

Lemma first_claim_head (P : control -> option string) pre c r :
  Mapping.first_claim (map P (pre ++ c :: r)) (List.length pre)
  = match P c with
    | Some t => if existsb (Mapping.proposes t) (map P pre) then None else Some t
    | None => None
    end.
Proof.
  unfold Mapping.first_claim.
  pose proof (nth_error_all P pre (c :: r) 0 c eq_refl) as H.
  rewrite Nat.add_0_r in H. rewrite H.
  assert (Hf : firstn (List.length pre) (map P (pre ++ c :: r)) = map P pre).
  { rewrite map_app. rewrite <- (length_map P pre).
    rewrite firstn_app, firstn_all, Nat.sub_diag. cbn [firstn]. apply app_nil_r. }
  rewrite Hf. reflexivity.
Qed.

Lemma count_from (f : nat -> bool) n :
  List.length (List.filter f (seq 0 (S n)))
  = (if f 0 then 1 else 0)
    + List.length (List.filter (fun j => f (S j)) (seq 0 n)).
Proof.
  cbn [seq List.filter]. rewrite <- seq_shift.
  assert (H : forall l, List.length (List.filter f (map S l))
                        = List.length (List.filter (fun j => f (S j)) l)).
  { induction l as [|a r IH]; [reflexivity|]. cbn [map List.filter].
    destruct (f (S a)); simpl; now rewrite IH. }
  destruct (f 0); simpl; now rewrite H.
Qed.

(** The pass over the rows [cs] that follow the rows [pre] already seen,
    when [used] holds what those rows proposed. *)
Lemma claim_loop_spec (prop : string -> option string) cs : forall pre fm used n,
  (forall t, Mapping.mem_str t used
             = existsb (Mapping.proposes t)
                 (map (fun c => prop (source_text c)) pre)) ->
  let all := map (fun c => prop (source_text c)) (pre ++ cs) in
  let '(cs', fm', _, n') := Mapping.claim_loop prop cs fm used n in
  (forall j row, nth_error cs j = Some row ->
     nth_error cs' j
     = Some (match Mapping.first_claim all (List.length pre + j) with
             | Some t => mkControl (source_text row) t
             | None => row
             end))
  /\ List.length cs' = List.length cs
  /\ (forall j row t, nth_error cs j = Some row ->
        Mapping.first_claim all (List.length pre + j) = Some t ->
        PyDict.get (source_text row) fm'
        = Some (new_mapping (source_text row) t))
  /\ (forall c,
        (forall j row t, nth_error cs j = Some row ->
           Mapping.first_claim all (List.length pre + j) = Some t ->
           source_text row <> c) ->
        PyDict.get c fm' = PyDict.get c fm)
  /\ n' = n + List.length
               (List.filter
                  (fun j => match Mapping.first_claim all (List.length pre + j) with
                            | Some _ => true
                            | None => false
                            end)
                  (seq 0 (List.length cs))).
Proof.
  set (P := fun c : control => prop (source_text c)).
  induction cs as [|c r IH]; intros pre fm used n Hused.
  - cbn [Mapping.claim_loop]. cbv zeta.
    split; [intros j row H; destruct j; discriminate|].
    split; [reflexivity|].
    split; [intros j row t H; destruct j; discriminate|].
    split; [reflexivity|]. simpl. lia.
  - cbv zeta.
    assert (Hall : map P ((pre ++ [c]) ++ r) = map P (pre ++ c :: r)).
    { now rewrite <- app_assoc. }
    assert (Hidx : forall j, List.length (pre ++ [c]) + j = List.length pre + S j).
    { intros j. rewrite length_app. simpl. lia. }
    pose proof (first_claim_head P pre c r) as Hhead.
    assert (Hhead' : Mapping.first_claim (map P (pre ++ c :: r)) (List.length pre + 0)
                     = match P c with
                       | Some t => if Mapping.mem_str t used then None else Some t
                       | None => None
                       end).
    { rewrite Nat.add_0_r, Hhead. destruct (P c) as [t|]; [|reflexivity].
      now rewrite Hused. }
    clear Hhead.
    (* what the recursive call gives, for the seen rows [pre ++ [c]] *)
    assert (Hrec : forall fm1 used1 n1,
      (forall t, Mapping.mem_str t used1
                 = existsb (Mapping.proposes t) (map P (pre ++ [c]))) ->
      let '(r', fm', _, n') := Mapping.claim_loop prop r fm1 used1 n1 in
      (forall j row, nth_error r j = Some row ->
         nth_error r' j
         = Some (match Mapping.first_claim (map P (pre ++ c :: r))
                         (List.length pre + S j) with
                 | Some t => mkControl (source_text row) t
                 | None => row
                 end))
      /\ List.length r' = List.length r
      /\ (forall j row t, nth_error r j = Some row ->
            Mapping.first_claim (map P (pre ++ c :: r)) (List.length pre + S j)
            = Some t ->
            PyDict.get (source_text row) fm'
            = Some (new_mapping (source_text row) t))
      /\ (forall c0,
            (forall j row t, nth_error r j = Some row ->
               Mapping.first_claim (map P (pre ++ c :: r)) (List.length pre + S j)
               = Some t ->
               source_text row <> c0) ->
            PyDict.get c0 fm' = PyDict.get c0 fm1)
      /\ n' = n1 + List.length
                     (List.filter
                        (fun j => match Mapping.first_claim (map P (pre ++ c :: r))
                                          (List.length pre + S j) with
                                  | Some _ => true
                                  | None => false
                                  end)
                        (seq 0 (List.length r)))).
    { intros fm1 used1 n1 Hu. specialize (IH (pre ++ [c])%list fm1 used1 n1 Hu).
      cbv zeta in IH. fold P in IH. rewrite Hall in IH.
      destruct (Mapping.claim_loop prop r fm1 used1 n1) as [[[r' fm'] used'] n'].
      destruct IH as (I1 & I2 & I3 & I4 & I5).
      split; [intros j row H; rewrite (I1 j row H), Hidx; reflexivity|].
      split; [exact I2|].
      split; [intros j row t H Hc; apply (I3 j row t H); now rewrite Hidx|].
      split.
      { intros c0 H. apply I4. intros j row t Hn Hc. rewrite Hidx in Hc. eauto. }
      rewrite I5. f_equal. f_equal. apply filter_ext. intros j. now rewrite Hidx. }
    assert (Hskip : forall t, P c = Some t -> Mapping.mem_str t used = true ->
              forall t0, Mapping.mem_str t0 used
                         = existsb (Mapping.proposes t0) (map P (pre ++ [c]))).
    { intros t Hp Hm t0. rewrite map_app, existsb_app. cbn [map existsb].
      rewrite Hp, orb_false_r, <- Hused. cbn [Mapping.proposes].
      destruct (String.eqb t t0) eqn:E; [|now rewrite orb_false_r].
      apply String.eqb_eq in E. subst t0. now rewrite Hm. }
    assert (Hnone : P c = None ->
              forall t0, Mapping.mem_str t0 used
                         = existsb (Mapping.proposes t0) (map P (pre ++ [c]))).
    { intros Hp t0. rewrite map_app, existsb_app. cbn [map existsb].
      rewrite Hp, <- Hused. cbn [Mapping.proposes]. now rewrite !orb_false_r. }
    assert (Htake : forall t, P c = Some t ->
              forall t0, Mapping.mem_str t0 (t :: used)
                         = existsb (Mapping.proposes t0) (map P (pre ++ [c]))).
    { intros t Hp t0. rewrite map_app, existsb_app. cbn [map existsb].
      rewrite Hp, orb_false_r, <- Hused. cbn [Mapping.proposes].
      unfold Mapping.mem_str. cbn [existsb].
      rewrite (String.eqb_sym t0 t). apply orb_comm. }
    change (List.length (c :: r)) with (S (List.length r)).
    rewrite count_from. rewrite Hhead'.
    cbn [Mapping.claim_loop]. fold (P c).
    destruct (P c) as [t|] eqn:Hp.
    + destruct (Mapping.mem_str t used) eqn:Hm; cbn [negb].
      * (* proposed before: passed over *)
        specialize (Hrec fm used n (Hskip t eq_refl Hm)).
        destruct (Mapping.claim_loop prop r fm used n) as [[[r' fm'] used'] n'].
        destruct Hrec as (I1 & I2 & I3 & I4 & I5).
        split.
        { intros [|j] row H; [simpl in H; inversion H; subst; now rewrite Hhead'|].
          now apply I1. }
        split; [simpl; now rewrite I2|].
        split.
        { intros [|j] row t0 H Hc; [rewrite Hhead' in Hc; discriminate|].
          now apply (I3 j row t0). }
        split.
        { intros c0 H. apply I4. intros j row t0 Hn Hc. apply (H (S j) row t0 Hn Hc). }
        rewrite I5. simpl. lia.
      * (* first to propose [t]: assigned *)
        specialize (Hrec (PyDict.set (source_text c) (new_mapping (source_text c) t) fm)
                         (t :: used) (S n) (Htake t eq_refl)).
        destruct (Mapping.claim_loop prop r _ (t :: used) (S n))
          as [[[r' fm'] used'] n'].
        destruct Hrec as (I1 & I2 & I3 & I4 & I5).
        assert (Hlater : forall j row t0, nth_error r j = Some row ->
                  Mapping.first_claim (map P (pre ++ c :: r)) (List.length pre + S j)
                  = Some t0 ->
                  source_text row <> source_text c).
        { intros j row t0 Hn Hc Heq.
          destruct (first_claim_inv _ _ _ Hc) as [Hnth Hex].
          pose proof (nth_error_all P pre (c :: r) (S j) row Hn) as Hrow.
          rewrite Hrow in Hnth. unfold P in Hnth. rewrite Heq in Hnth.
          fold (P c) in Hnth. rewrite Hp in Hnth. inversion Hnth; subst t0.
          pose proof (nth_error_all P pre (c :: r) 0 c eq_refl) as Hc0.
          rewrite Hp in Hc0.
          rewrite (existsb_firstn _ (Mapping.proposes t) _ _ _ _ Hc0) in Hex;
            [discriminate|lia|].
          cbn [Mapping.proposes]. apply String.eqb_refl. }
        split.
        { intros [|j] row H; [simpl in H; inversion H; subst; now rewrite Hhead'|].
          now apply I1. }
        split; [simpl; now rewrite I2|].
        split.
        { intros [|j] row t0 H Hc; [|now apply (I3 j row t0)].
          simpl in H. inversion H; subst row.
          rewrite Hhead' in Hc. inversion Hc; subst t0.
          rewrite (I4 (source_text c)) by exact Hlater.
          apply PyDictFacts.get_set_same. }
        split.
        { intros c0 H. rewrite I4.
          - apply PyDictFacts.get_set_other.
            apply not_eq_sym. apply (H 0 c t eq_refl). now rewrite Hhead'.
          - intros j row t0 Hn Hc. apply (H (S j) row t0 Hn Hc). }
        rewrite I5. simpl. lia.
    + (* no proposal *)
      specialize (Hrec fm used n (Hnone eq_refl)).
      destruct (Mapping.claim_loop prop r fm used n) as [[[r' fm'] used'] n'].
      destruct Hrec as (I1 & I2 & I3 & I4 & I5).
      split.
      { intros [|j] row H; [simpl in H; inversion H; subst; now rewrite Hhead'|].
        now apply I1. }
      split; [simpl; now rewrite I2|].
      split.
      { intros [|j] row t0 H Hc; [rewrite Hhead' in Hc; discriminate|].
        now apply (I3 j row t0). }
      split.
      { intros c0 H. apply I4. intros j row t0 Hn Hc. apply (H (S j) row t0 Hn Hc). }
      rewrite I5. simpl. lia.
Qed.

(** A whole pass, from the first row on. *)
Lemma claim_pass_spec (prop : string -> option string) cs fm :
  let props := map (fun c => prop (source_text c)) cs in
  let '(cs', fm', _, n') := Mapping.claim_loop prop cs fm [] 0 in
  (forall i row, nth_error cs i = Some row ->
     nth_error cs' i
     = Some (match Mapping.first_claim props i with
             | Some t => mkControl (source_text row) t
             | None => row
             end))
  /\ List.length cs' = List.length cs
  /\ (forall i row t, nth_error cs i = Some row ->
        Mapping.first_claim props i = Some t ->
        PyDict.get (source_text row) fm' = Some (new_mapping (source_text row) t))
  /\ (forall c,
        (forall i row t, nth_error cs i = Some row ->
           Mapping.first_claim props i = Some t -> source_text row <> c) ->
        PyDict.get c fm' = PyDict.get c fm)
  /\ n' = Mapping.claim_count props.
Proof.
  cbv zeta.
  pose proof (claim_loop_spec prop cs [] fm [] 0 (fun t => eq_refl)) as H.
  cbv zeta in H. cbn [app List.length Nat.add] in H.
  destruct (Mapping.claim_loop prop cs fm [] 0) as [[[cs' fm'] used'] n'].
  destruct H as (H1 & H2 & H3 & H4 & H5).
  split; [exact H1|]. split; [exact H2|]. split; [exact H3|]. split; [exact H4|].
  rewrite H5. unfold Mapping.claim_count. now rewrite length_map.
Qed.

(** C1 (amended). A manual edit assigning a non-empty target evicts: the
    edited column holds the target afterwards and no other column does;
    every other column that held the target has lost its mapping and the
    dropdown registered for it is cleared, while every other column keeps
    its mapping and its dropdown; one notice per evicted mapping is logged
    and it names the target field (not the column that lost it); and a
    mapping set with unique targets keeps unique targets.  The rule-based
    pass and the AI pass do not evict.  Within one pass a row is assigned
    the target it proposes exactly when no earlier row of the pass proposed
    the same target: that row gets the mapping and shows the target, every
    later row proposing it is passed over unchanged, the mapping of a
    column that no assigned row stands for is left as it was (so no column
    loses a mapping), and only the summary with the number of assigned rows
    is logged.  So a pass over an empty mapping set yields unique targets.
    For the columns ["Artikel-Nr"; "VK Brutto"; "VK Brutto"], once
    "Artikel-Nr" holds [item_code] and the duplicate column is reassigned
    to it, exactly one mapping holds [item_code] and the mapping of
    "Artikel-Nr" is removed, its dropdown cleared. *)
Theorem mapping_assignment_resolution (st : MappingState)
    (source_col target : string) (rules ai : PyDict.t string)
    (cs : list control) (ns : list notice) :
  PyStr.is_empty target = false ->
  (let st' := Mapping.on_mapping_changed source_col target st in
   let evicted other :=
     existsb (fun it => Mapping.evicted_by source_col target it
                        && String.eqb (fst it) other) (field_mappings st) in
   Mapping.holds (field_mappings st') source_col target
   /\ (forall other, other <> source_col ->
         ~ Mapping.holds (field_mappings st') other target)
   /\ notices st'
      = (notices st
         ++ repeat (NoticeEvicted target)
              (List.length (List.filter (Mapping.evicted_by source_col target)
                              (field_mappings st))))%list
   /\ (Mapping.unique_targets (field_mappings st) ->
       Mapping.unique_targets (field_mappings st'))
   /\ (forall other m, In (other, m) (field_mappings st) -> other <> source_col ->
         target_field m = target -> evicted other = true)
   /\ (forall other, other <> source_col ->
         PyDict.get other (field_mappings st')
         = if evicted other then None else PyDict.get other (field_mappings st))
   /\ (forall other,
         Mapping.registered_dropdown other (controls st')
         = if evicted other
           then option_map (fun r => mkControl (source_text r) "")
                  (Mapping.registered_dropdown other (controls st))
           else Mapping.registered_dropdown other (controls st)))
  /\ (let p := Mapping.auto_map_fields rules st in
      let props := map (fun c => Mapping.rule_proposal rules (source_text c))
                     (controls st) in
      (forall i row, nth_error (controls st) i = Some row ->
         nth_error (controls p) i
         = Some (match Mapping.first_claim props i with
                 | Some t => mkControl (source_text row) t
                 | None => row
                 end))
      /\ List.length (controls p) = List.length (controls st)
      /\ (forall i row t, nth_error (controls st) i = Some row ->
            Mapping.first_claim props i = Some t ->
            PyDict.get (source_text row) (field_mappings p)
            = Some (new_mapping (source_text row) t))
      /\ (forall c,
            (forall i row t, nth_error (controls st) i = Some row ->
               Mapping.first_claim props i = Some t -> source_text row <> c) ->
            PyDict.get c (field_mappings p) = PyDict.get c (field_mappings st))
      /\ notices p = (notices st ++ [NoticeAutoMapped (Mapping.claim_count props)])%list
      /\ (forall c, PyDict.mem c (field_mappings st) = true ->
                    PyDict.mem c (field_mappings p) = true))
  /\ (let p := Mapping.run_ai_mapping ai st in
      let props := map (fun c => Mapping.ai_proposal ai (source_text c))
                     (controls st) in
      (forall i row, nth_error (controls st) i = Some row ->
         nth_error (controls p) i
         = Some (match Mapping.first_claim props i with
                 | Some t => mkControl (source_text row) t
                 | None => row
                 end))
      /\ List.length (controls p) = List.length (controls st)
      /\ (forall i row t, nth_error (controls st) i = Some row ->
            Mapping.first_claim props i = Some t ->
            PyDict.get (source_text row) (field_mappings p)
            = Some (new_mapping (source_text row) t))
      /\ (forall c,
            (forall i row t, nth_error (controls st) i = Some row ->
               Mapping.first_claim props i = Some t -> source_text row <> c) ->
            PyDict.get c (field_mappings p) = PyDict.get c (field_mappings st))
      /\ notices p
         = (notices st
            ++ [match ai with
                | [] => NoticeAINothing
                | _ :: _ => NoticeAIMapped (Mapping.claim_count props)
                end])%list
      /\ (forall c, PyDict.mem c (field_mappings st) = true ->
                    PyDict.mem c (field_mappings p) = true))
  /\ Mapping.unique_targets
       (field_mappings (Mapping.auto_map_fields rules (mkMappingState [] cs ns)))
  /\ Mapping.unique_targets
       (field_mappings (Mapping.run_ai_mapping ai (mkMappingState [] cs ns)))
  /\ (let st0 := Mapping.update_mapping_list AUTO_MAPPING_RULES
                   ["Artikel-Nr"; "VK Brutto"; "VK Brutto"] Sample.no_mappings in
      let st1 := Mapping.select_target 0 "item_code" st0 in
      let st2 := Mapping.select_target 2 "item_code" st1 in
      map (fun kv => (fst kv, target_field (snd kv))) (field_mappings st1)
        = [("VK Brutto", "standard_rate_brutto"); ("Artikel-Nr", "item_code")]
      /\ map (fun kv => (fst kv, target_field (snd kv))) (field_mappings st2)
        = [("VK Brutto", "item_code")]
      /\ map dropdown_value (controls st2) = [""; "standard_rate_brutto"; "item_code"]
      /\ notices st2 = [NoticeEvicted "item_code"]).
Proof.
  intros Ht. split.
  { cbv zeta. split; [now apply on_mapping_changed_holds|].
    split; [intros other Hne; now apply on_mapping_changed_exclusive|].
    split.
    { unfold Mapping.on_mapping_changed. rewrite Ht. simpl.
      apply evict_fold_notices. }
    split; [now apply on_mapping_changed_unique|].
    split.
    { intros other m Hin Hne Htf. apply existsb_exists. exists (other, m).
      split; [exact Hin|]. unfold Mapping.evicted_by. cbn [fst snd].
      apply String.eqb_neq in Hne. rewrite Hne, String.eqb_refl.
      subst target. now rewrite String.eqb_refl. }
    split; [intros other Hne; now apply on_mapping_changed_get_other|].
    intros other. unfold Mapping.on_mapping_changed. rewrite Ht. cbn [negb controls].
    apply evict_fold_registered. }
  split.
  { cbv zeta. unfold Mapping.auto_map_fields.
    pose proof (auto_map_loop_keeps rules) as Hkeep.
    specialize (fun c => Hkeep c (controls st) (field_mappings st) [] 0).
    rewrite auto_map_loop_claim in *.
    pose proof (claim_pass_spec (Mapping.rule_proposal rules) (controls st)
                  (field_mappings st)) as H. cbv zeta in H.
    destruct (Mapping.claim_loop (Mapping.rule_proposal rules) (controls st)
                (field_mappings st) [] 0) as [[[cs' fm'] used'] n].
    destruct H as (H1 & H2 & H3 & H4 & H5). cbn [controls field_mappings notices].
    split; [exact H1|]. split; [exact H2|]. split; [exact H3|]. split; [exact H4|].
    split; [now rewrite H5|]. intros c Hc. now apply Hkeep. }
  split.
  { cbv zeta. unfold Mapping.run_ai_mapping.
    destruct ai as [|a ai'].
    - cbn [controls field_mappings notices].
      assert (Hnone : forall i,
        Mapping.first_claim
          (map (fun c => Mapping.ai_proposal [] (source_text c)) (controls st)) i = None).
      { intros i. unfold Mapping.first_claim. rewrite nth_error_map.
        destruct (nth_error (controls st) i); reflexivity. }
      split; [intros i row H; now rewrite Hnone|]. split; [reflexivity|].
      split; [intros i row t H Hc; rewrite Hnone in Hc; discriminate|].
      split; [reflexivity|]. split; [reflexivity|auto].
    - pose proof (ai_map_loop_keeps (a :: ai')) as Hkeep.
      specialize (fun c => Hkeep c (controls st) (field_mappings st) [] 0).
      rewrite ai_map_loop_claim in *.
      pose proof (claim_pass_spec (Mapping.ai_proposal (a :: ai')) (controls st)
                    (field_mappings st)) as H. cbv zeta in H.
      destruct (Mapping.claim_loop (Mapping.ai_proposal (a :: ai')) (controls st)
                  (field_mappings st) [] 0) as [[[cs' fm'] used'] n].
      destruct H as (H1 & H2 & H3 & H4 & H5). cbn [controls field_mappings notices].
      split; [exact H1|]. split; [exact H2|]. split; [exact H3|]. split; [exact H4|].
      split; [now rewrite H5|]. intros c Hc. now apply Hkeep. }
  split.
  { unfold Mapping.auto_map_fields. simpl.
    pose proof (auto_map_loop_invariant rules cs [] [] 0 pass_invariant_empty) as H.
    destruct (Mapping.auto_map_loop rules cs [] [] 0) as [[[cs' fm'] used'] n].
    simpl. eapply pass_invariant_unique; eauto. }
  split.
  { unfold Mapping.run_ai_mapping.
    destruct ai as [|a ai'].
    - simpl. eapply pass_invariant_unique. apply pass_invariant_empty.
    - cbn [field_mappings controls].
      pose proof (ai_map_loop_invariant (a :: ai') cs [] [] 0 pass_invariant_empty) as H.
      destruct (Mapping.ai_map_loop (a :: ai') cs [] [] 0) as [[[cs' fm'] used'] n].
      simpl. eapply pass_invariant_unique; eauto. }
  vm_compute. repeat split.
Qed.

End MappingFacts.

(** A manual edit on a set in which another column holds the target. *)
Lemma mapping_assignment_resolution_witness :
  let st := mkMappingState [("Artikel-Nr", new_mapping "Artikel-Nr" "item_code")]
              [mkControl "Artikel-Nr" "item_code"; mkControl "SKU" ""] [] in
  let st' := Mapping.on_mapping_changed "SKU" "item_code" st in
  Mapping.holds (field_mappings st') "SKU" "item_code"
  /\ (forall other, other <> "SKU" ->
        ~ Mapping.holds (field_mappings st') other "item_code")
  /\ notices st' = [NoticeEvicted "item_code"].
Proof.
  intros st st'.
  destruct (mapping_assignment_resolution st "SKU" "item_code"
              AUTO_MAPPING_RULES [] [] [] eq_refl) as ((H1 & H2 & H3 & _) & _).
  split; [exact H1|]. split; [exact H2|]. exact H3.
Defined.

(** C1 as stated fails for the rule-based pass: "sku" and "artikelnummer"
    both map to [item_code] by rule; the pass keeps the first claimant,
    leaves the second column unmapped and logs no eviction notice.  And the
    notice of a manual edit is the same whichever column was evicted. *)
Lemma mapping_eviction_counterexample :
  let start := mkMappingState []
                 [mkControl "sku" ""; mkControl "artikelnummer" ""] [] in
  let p := Mapping.auto_map_fields AUTO_MAPPING_RULES start in
  Mapping.auto_map_target AUTO_MAPPING_RULES "sku" = "item_code"
  /\ Mapping.auto_map_target AUTO_MAPPING_RULES "artikelnummer" = "item_code"
  /\ option_map target_field (PyDict.get "sku" (field_mappings p)) = Some "item_code"
  /\ PyDict.get "artikelnummer" (field_mappings p) = None
  /\ notices p = [NoticeAutoMapped 1]
  /\ notices (Mapping.on_mapping_changed "c" "item_code"
               (mkMappingState [("a", new_mapping "a" "item_code")] [] []))
     = notices (Mapping.on_mapping_changed "c" "item_code"
               (mkMappingState [("b", new_mapping "b" "item_code")] [] [])).
Proof. vm_compute. repeat split. Qed.

(** C9. Steps 1 and 2 fail for the column "Artikel" and its normalized name
    is a substring of the rule key "artikelnummer"; [_create_mapping_row]
    accepts that rule, while the fuzzy loop of [auto_map_fields] tests only
    whether a rule key is a substring of the column name and leaves the
    column unmapped. *)
Theorem auto_map_fields_fuzzy_one_way :
  PyDict.get (Mapping.col_lower "Artikel") AUTO_MAPPING_RULES = None
  /\ PyDict.get (Mapping.col_normalized "Artikel") AUTO_MAPPING_RULES = None
  /\ PyStr.is_substring (Mapping.col_lower "Artikel") "artikelnummer" = true
  /\ Mapping.create_row_target AUTO_MAPPING_RULES "Artikel" = "item_code"
  /\ Mapping.auto_map_target AUTO_MAPPING_RULES "Artikel" = ""
  /\ field_mappings
       (Mapping.auto_map_fields AUTO_MAPPING_RULES
          (mkMappingState [] [mkControl "Artikel" ""] [])) = [].
Proof. vm_compute. repeat split. Qed.

(** ** Value transform library *)

Section UtilsFacts.

(** On a string, [parse_number] strips white space, normalizes with
    [normalize_number] and reads the result with [float]; empty and
    unreadable text gives the fallback. *)
Lemma parse_number_string s allow_empty :
  Utils.parse_number (VStr s) allow_empty
  = Ok (if PyStr.is_empty (PyStr.strip s) then Utils.fallback allow_empty
        else match PyFloat.of_string (Utils.normalize_number (PyStr.strip s)) with
             | Some x => Some x
             | None => Utils.fallback allow_empty
             end).
Proof.
  destruct s as [|c r]; [reflexivity|].
  unfold Utils.parse_number, Utils.parse_number_try.
  change (PyVal.str (VStr (String c r))) with (String c r).
  destruct (PyStr.is_empty (PyStr.strip (String c r))); [reflexivity|].
  destruct (PyFloat.of_string _); reflexivity.
Qed.

(** The German convention of [normalize_number]. *)
Lemma normalize_number_spec s :
  let t := PyStr.replace " " "" s in
  Utils.normalize_number s
  = if PyStr.contains_char "," t then
      if PyStr.contains_char "." t
      then PyStr.replace "," "." (PyStr.replace "." "" t)
      else PyStr.replace "," "." t
    else t.
Proof.
  unfold Utils.normalize_number. cbv zeta.
  destruct (PyStr.contains_char "," _), (PyStr.contains_char "." _); reflexivity.
Qed.

(** Floats and booleans are returned as numbers; an int is converted when
    it fits a float. *)
Lemma parse_number_numeric allow_empty :
  (forall x, Utils.parse_number (VFloat x) allow_empty = Ok (Some x))
  /\ (forall b, exists x, Utils.parse_number (VBool b) allow_empty = Ok (Some x))
  /\ (forall n x, PyFloat.of_int n = Some x ->
        Utils.parse_number (VInt n) allow_empty = Ok (Some x)).
Proof.
  split; [reflexivity|]. split.
  - intros b. eexists. reflexivity.
  - intros n x H. unfold Utils.parse_number, Utils.parse_number_try. now rewrite H.
Qed.

(** The only exception that leaves [parse_number] is the [OverflowError]
    of an int beyond the float range. *)
Lemma parse_number_raises_only_overflow value allow_empty e :
  Utils.parse_number value allow_empty = Raise e ->
  e = OverflowError /\ exists n, value = VInt n /\ PyFloat.of_int n = None.
Proof.
  destruct value as [|b|n|x|s|l|d].
  - discriminate.
  - discriminate.
  - unfold Utils.parse_number, Utils.parse_number_try.
    destruct (PyFloat.of_int n) eqn:E; [discriminate|].
    intros [= <-]. eauto.
  - discriminate.
  - rewrite parse_number_string. discriminate.
  - unfold Utils.parse_number, Utils.parse_number_try.
    destruct (PyStr.is_empty _); [discriminate|].
    destruct (PyFloat.of_string _); discriminate.
  - unfold Utils.parse_number, Utils.parse_number_try.
    destruct (PyStr.is_empty _); [discriminate|].
    destruct (PyFloat.of_string _); discriminate.
Qed.

(** The examples of the specification. *)
Lemma parse_number_examples :
  Utils.parse_number (VStr "1.234,56") true = Ok (PyFloat.of_string "1234.56")
  /\ Utils.parse_number (VStr "1234,56") true = Ok (PyFloat.of_string "1234.56")
  /\ PyFloat.of_string "1234.56" = Some (PyFloat.of_decimal false 123456 (-2))
  /\ Utils.parse_number (VStr "") true = Ok None
  /\ Utils.parse_number (VStr "") false = Ok (Some Utils.zero)
  /\ Utils.parse_number (VStr "abc") true = Ok None
  /\ Utils.parse_number (VStr "abc") false = Ok (Some Utils.zero).
Proof. vm_compute. repeat split. Qed.

(** C7. [parse_number] on the int [2**1024]: [float(value)] raises
    [OverflowError], which [except (ValueError, TypeError)] does not catch,
    so the call raises instead of returning the fallback.  The largest int
    that still converts is [2**1024 - 2**970 - 1]. *)
Theorem parse_number_int_overflow :
  Utils.parse_number (VInt (2 ^ 1024)) true = Raise OverflowError
  /\ Utils.parse_number (VInt (2 ^ 1024)) false = Raise OverflowError
  /\ Utils.parse_number (VInt (2 ^ 1024 - 2 ^ 970)) true = Raise OverflowError
  /\ (exists x, Utils.parse_number (VInt (2 ^ 1024 - 2 ^ 970 - 1)) true = Ok (Some x)).
Proof.
  split; [vm_compute; reflexivity|].
  split; [vm_compute; reflexivity|].
  split; [vm_compute; reflexivity|].
  eexists. vm_compute. reflexivity.
Qed.

End UtilsFacts.

(** ** Row transformation *)

Section TransformFacts.



Lemma write_field_get row item_data c m t :
  PyDict.get t (Importer.write_field row item_data (c, m))
  = if String.eqb (target_field m) t
       && PyVal.truthy (Importer.apply_transform (transform m) (Importer.raw_value row c m))
    then Some (Importer.apply_transform (transform m) (Importer.raw_value row c m))
    else PyDict.get t item_data.
Proof.
  unfold Importer.write_field.
  destruct (PyVal.truthy _) eqn:Ht; rewrite ?andb_false_r, ?andb_true_r; [|reflexivity].
  destruct (String.eqb_spec (target_field m) t) as [<-|Hne].
  - apply PyDictFacts.get_set_same.
  - apply PyDictFacts.get_set_other. congruence.
Qed.

Lemma find_snoc (A : Type) (f : A -> bool) (l : list A) (x : A) :
  find f (l ++ [x])
  = match find f l with
    | Some v => Some v
    | None => if f x then Some x else None
    end.
Proof.
  induction l as [|a r IH]; simpl; [reflexivity|].
  destruct (f a); [reflexivity|exact IH].
Qed.

Lemma transform_fold_last row t entries : forall item_data,
  PyDict.get t (fold_left (Importer.write_field row) entries item_data)
  = match find PyVal.truthy
            (rev (map (fun e => Importer.apply_transform (transform (snd e))
                                  (Importer.raw_value row (fst e) (snd e)))
                      (List.filter (fun e => String.eqb (target_field (snd e)) t)
                                   entries))) with
    | Some v => Some v
    | None => PyDict.get t item_data
    end.
Proof.
  induction entries as [|[c m] r IH]; intros item_data; [reflexivity|].
  cbn [fold_left List.filter snd]. rewrite IH, write_field_get.
  destruct (String.eqb (target_field m) t); cbn [andb].
  - cbn [map rev fst snd]. rewrite find_snoc.
    destruct (find PyVal.truthy _); [reflexivity|].
    destruct (PyVal.truthy _); reflexivity.
  - reflexivity.
Qed.

Lemma transform_row_get row fm t :
  PyDict.get t (Importer.transform_row row fm)
  = find PyVal.truthy
      (rev (map (fun e => Importer.apply_transform (transform (snd e))
                            (Importer.raw_value row (fst e) (snd e)))
              (List.filter (fun e => String.eqb (target_field (snd e)) t) fm))).
Proof.
  unfold Importer.transform_row. rewrite transform_fold_last.
  destruct (find PyVal.truthy _); reflexivity.
Qed.

Lemma transform_row_value row fm t v :
  PyDict.get t (Importer.transform_row row fm) = Some v ->
  PyVal.truthy v = true
  /\ exists c m, In (c, m) fm /\ target_field m = t
       /\ v = Importer.apply_transform (transform m) (Importer.raw_value row c m).
Proof.
  rewrite transform_row_get. intros Hv.
  apply find_some in Hv. destruct Hv as [Hin Ht]. split; [exact Ht|].
  apply in_rev in Hin. apply in_map_iff in Hin. destruct Hin as ([c m] & Hval & Hin).
  apply filter_In in Hin. destruct Hin as [Hin Hfeeds].
  exists c, m. split; [exact Hin|]. split; [now apply String.eqb_eq in Hfeeds|].
  now symmetry.
Qed.


End TransformFacts.

(** ** Post-processing of the record *)

Section PostProcessFacts.

(** The literal [1.19] is the divisor [brutto_to_netto] computes for a tax
    rate of 19 percent. *)
Lemma tax_divisor_19_is_19_percent :
  PyFloat.add Utils.one (PyFloat.div (PyFloat.of_decimal false 19 0) Utils.hundred)
  = Importer.tax_divisor_19.
Proof. vm_compute. reflexivity. Qed.

(** C5 (amended). When the gross-price key is present, post-processing
    discards it and leaves every key other than the net-price key as it
    was; when the text of the value, with [","] replaced by ["."] and
    spaces removed, reads as a float [g], the net price
    [round(g / 1.19, 2)] is stored under [standard_rate].  That is
    [brutto_to_netto] at the fixed rate of 19 percent (for [g] not zero);
    no configured rate enters. *)
Theorem convert_brutto_fixed_rate (item_data : PyDict.t pyval) (brutto : pyval) :
  PyDict.get "standard_rate_brutto" item_data = Some brutto ->
  let d := Importer.convert_brutto item_data in
  PyDict.get "standard_rate_brutto" d = None
  /\ (forall k, k <> "standard_rate_brutto" -> k <> "standard_rate" ->
        PyDict.get k d = PyDict.get k item_data)
  /\ (forall g, Importer.float_of_text (PyVal.str brutto) = Some g ->
        PyDict.get "standard_rate" d
          = Some (VFloat (PyFloat.round2 (PyFloat.div g Importer.tax_divisor_19)))
        /\ (PyFloat.eqb g Utils.zero = false ->
            Utils.brutto_to_netto (Some g) (PyFloat.of_decimal false 19 0)
              = Ok (PyFloat.round2 (PyFloat.div g Importer.tax_divisor_19))))
  /\ Importer.float_of_text "119,00" = Some (PyFloat.of_decimal false 119 0).
Proof.
  intros Hget d. unfold d, Importer.convert_brutto. rewrite Hget.
  split.
  { destruct (Importer.float_of_text (PyVal.str brutto)).
    - rewrite PyDictFacts.get_set_other by discriminate.
      apply PyDictFacts.get_remove_same.
    - apply PyDictFacts.get_remove_same. }
  split.
  { intros k H1 H2. destruct (Importer.float_of_text (PyVal.str brutto)).
    - rewrite PyDictFacts.get_set_other by assumption.
      now apply PyDictFacts.get_remove_other.
    - now apply PyDictFacts.get_remove_other. }
  split; [|vm_compute; reflexivity].
  intros g Hg. rewrite Hg. split.
  - apply PyDictFacts.get_set_same.
  - intros Hnz. unfold Utils.brutto_to_netto. rewrite Hnz.
    rewrite tax_divisor_19_is_19_percent.
    reflexivity.
Qed.

Lemma long_text_not_trivial s :
  (8 <=? String.length s)%nat = true ->
  PyStr.is_empty s = false /\ Importer.mem_str s ["0"; ""] = false.
Proof.
  destruct s as [|c1 [|c2 r]]; try discriminate.
  intros _. split; [reflexivity|].
  unfold Importer.mem_str. cbn.
  destruct (Ascii.eqb c1 "0"); reflexivity.
Qed.

(** C6 (amended). When the raw barcode key is present, post-processing
    removes it and stores the trimmed text of the value under [gtin]
    exactly when the value is true and the trimmed text has at least eight
    characters; otherwise [gtin] is left as it was.  No digit or denylist
    check is made at this stage; every code [is_valid_barcode] accepts
    passes the length test and is kept. *)
Theorem normalize_barcode_length_only (item_data : PyDict.t pyval) (barcode : pyval) :
  PyDict.get "barcode" item_data = Some barcode ->
  let code := PyStr.strip (PyVal.str barcode) in
  let d := Importer.normalize_barcode item_data in
  PyDict.get "barcode" d = None
  /\ PyDict.get "gtin" d
     = (if PyVal.truthy barcode && (8 <=? String.length code)%nat
        then Some (VStr code) else PyDict.get "gtin" item_data)
  /\ (forall k, k <> "barcode" -> k <> "gtin" ->
        PyDict.get k d = PyDict.get k item_data)
  /\ (forall s, barcode = VStr s -> Utils.is_valid_barcode s = true ->
        PyDict.get "gtin" d = Some (VStr code)).
Proof.
  intros Hget code d.
  assert (Hgtin : PyDict.get "gtin" d
     = (if PyVal.truthy barcode && (8 <=? String.length code)%nat
        then Some (VStr code) else PyDict.get "gtin" item_data)).
  { unfold d, Importer.normalize_barcode. rewrite Hget. fold code.
    destruct (PyVal.truthy barcode); cbn [andb];
      [|now apply PyDictFacts.get_remove_other].
    destruct (8 <=? String.length code)%nat eqn:Hlen.
    - destruct (long_text_not_trivial code Hlen) as [-> ->]. cbn [negb andb].
      apply PyDictFacts.get_set_same.
    - rewrite andb_false_l.
      destruct (negb (PyStr.is_empty code));
        now apply PyDictFacts.get_remove_other. }
  split.
  { unfold d, Importer.normalize_barcode. rewrite Hget. fold code.
    destruct (PyVal.truthy barcode && negb (PyStr.is_empty code));
      [destruct ((8 <=? String.length code)%nat && negb (Importer.mem_str code ["0"; ""]))|];
      rewrite ?PyDictFacts.get_set_other by discriminate;
      apply PyDictFacts.get_remove_same. }
  split; [exact Hgtin|]. split.
  { intros k H1 H2. unfold d, Importer.normalize_barcode. rewrite Hget. fold code.
    destruct (PyVal.truthy barcode && negb (PyStr.is_empty code));
      [destruct ((8 <=? String.length code)%nat && negb (Importer.mem_str code ["0"; ""]))|];
      rewrite ?PyDictFacts.get_set_other by assumption;
      now apply PyDictFacts.get_remove_other. }
  intros s -> Hvalid. rewrite Hgtin.
  unfold Utils.is_valid_barcode in Hvalid.
  destruct s as [|c r]; [discriminate|].
  change (PyStr.is_empty (String c r)) with false in Hvalid. cbv iota in Hvalid.
  change (PyVal.str (VStr (String c r))) with (String c r) in code.
  fold code in Hvalid.
  destruct (PyStr.isdigit code); [|discriminate]. cbn [negb] in Hvalid.
  destruct (String.length code <? 8)%nat eqn:Hlt; [discriminate|].
  apply Nat.ltb_ge in Hlt. apply Nat.leb_le in Hlt. rewrite Hlt. reflexivity.
Qed.

End PostProcessFacts.

(** A gross price with a decimal comma. *)
Lemma convert_brutto_fixed_rate_witness :
  PyDict.get "standard_rate"
    (Importer.convert_brutto [("item_code", VStr "SKU1");
                              ("standard_rate_brutto", VStr "119,00")])
  = Some (VFloat (PyFloat.of_decimal false 100 0))
  /\ PyDict.get "standard_rate_brutto"
       (Importer.convert_brutto [("item_code", VStr "SKU1");
                                 ("standard_rate_brutto", VStr "119,00")]) = None.
Proof.
  destruct (convert_brutto_fixed_rate
              [("item_code", VStr "SKU1"); ("standard_rate_brutto", VStr "119,00")]
              (VStr "119,00") eq_refl) as (H1 & _ & H3 & _).
  split; [|exact H1].
  destruct (H3 (PyFloat.of_decimal false 119 0) eq_refl) as [H _].
  rewrite H. reflexivity.
Defined.

(** C5 as stated fails twice over.  The gross price "1.234,56" is not read
    by the German convention: the inline conversion turns it into
    "1.234.56", which is no number, and no net price is stored, whereas
    [parse_number] reads 1234.56.  And a gross price of 107 under a
    configured rate of 7 percent has the net price 100.0, while the record
    gets 89.92, the net price at 19 percent. *)
Lemma convert_brutto_counterexample :
  Importer.convert_brutto [("standard_rate_brutto", VStr "1.234,56")] = []
  /\ Utils.parse_number (VStr "1.234,56") true
     = Ok (Some (PyFloat.of_decimal false 123456 (-2)))
  /\ Utils.brutto_to_netto (Some (PyFloat.of_decimal false 107 0))
       (PyFloat.of_decimal false 7 0) = Ok (PyFloat.of_decimal false 100 0)
  /\ Importer.convert_brutto [("standard_rate_brutto", VStr "107")]
     = [("standard_rate", VFloat (PyFloat.of_decimal false 8992 (-2)))].
Proof. vm_compute. repeat split. Qed.

(** A valid EAN-13 is kept. *)
Lemma normalize_barcode_length_only_witness :
  PyDict.get "gtin" (Importer.normalize_barcode [("barcode", VStr " 4006381333931 ")])
  = Some (VStr "4006381333931").
Proof.
  destruct (normalize_barcode_length_only [("barcode", VStr " 4006381333931 ")]
              (VStr " 4006381333931 ") eq_refl) as (_ & H & _).
  exact H.
Defined.

(** C6 as stated fails: a code of letters and the denylisted placeholder
    are both rejected by [is_valid_barcode] and both stored under [gtin]. *)
Lemma normalize_barcode_counterexample :
  Utils.is_valid_barcode "abcdefgh" = false
  /\ Importer.normalize_barcode [("barcode", VStr "abcdefgh")]
     = [("gtin", VStr "abcdefgh")]
  /\ Utils.is_valid_barcode "4017980000000" = false
  /\ Importer.normalize_barcode [("barcode", VStr "4017980000000")]
     = [("gtin", VStr "4017980000000")].
Proof. vm_compute. repeat split. Qed.

(** ** The import loop *)

Lemma gather_levels_keeps keys : forall item_data k,
  ~ In k keys ->
  PyDict.get k (snd (Importer.gather_levels keys item_data)) = PyDict.get k item_data.
Proof.
  induction keys as [|k0 r IH]; intros item_data k Hk; [reflexivity|].
  cbn [Importer.gather_levels].
  assert (Hne : k <> k0) by (intros ->; apply Hk; now left).
  assert (Hr : ~ In k r) by (intros H; apply Hk; now right).
  destruct (PyDict.get k0 item_data) as [v|].
  - specialize (IH (PyDict.remove k0 item_data) k Hr).
    destruct (Importer.gather_levels r (PyDict.remove k0 item_data)) as [ls d].
    cbn [snd] in *. rewrite IH. now apply PyDictFacts.get_remove_other.
  - now apply IH.
Qed.

Lemma gather_levels_consumes keys : forall item_data k,
  In k keys ->
  PyDict.get k (snd (Importer.gather_levels keys item_data)) = None.
Proof.
  induction keys as [|k0 r IH]; intros item_data k Hk; [destruct Hk|].
  cbn [Importer.gather_levels].
  destruct (in_dec string_dec k r) as [Hin|Hnot].
  - destruct (PyDict.get k0 item_data) as [v|].
    + specialize (IH (PyDict.remove k0 item_data) k Hin).
      destruct (Importer.gather_levels r (PyDict.remove k0 item_data)) as [ls d].
      exact IH.
    + now apply IH.
  - destruct Hk as [->|Hk]; [|contradiction].
    destruct (PyDict.get k item_data) as [v|] eqn:E.
    + pose proof (gather_levels_keeps r (PyDict.remove k item_data) k Hnot) as H.
      destruct (Importer.gather_levels r (PyDict.remove k item_data)) as [ls d].
      simpl in *. rewrite H. apply PyDictFacts.get_remove_same.
    + rewrite gather_levels_keeps by exact Hnot. exact E.
Qed.

Lemma remove_absent (V : Type) (k : string) (d : PyDict.t V) :
  PyDict.get k d = None -> PyDict.remove k d = d.
Proof.
  induction d as [|[k0 v0] r IH]; simpl; [reflexivity|].
  destruct (String.eqb k0 k); [discriminate|]. intros H. now rewrite IH.
Qed.

Lemma flat_map_agree (A B : Type) (f g : A -> list B) (l : list A) :
  (forall x, In x l -> f x = g x) -> flat_map f l = flat_map g l.
Proof.
  induction l as [|a r IH]; intros H; [reflexivity|].
  simpl. rewrite (H a (or_introl eq_refl)), IH; [reflexivity|].
  intros x Hx. apply H. now right.
Qed.

(** The level loop appends the values of the level columns present, in
    the order of the keys. *)
Lemma gather_levels_fst keys : forall item_data,
  NoDup keys ->
  fst (Importer.gather_levels keys item_data)
  = flat_map (fun k => match PyDict.get k item_data with
                       | Some v => [v]
                       | None => []
                       end) keys.
Proof.
  induction keys as [|k0 r IH]; intros item_data Hnd; [reflexivity|].
  apply NoDup_cons_iff in Hnd. destruct Hnd as [Hnotin Hnd].
  cbn [Importer.gather_levels flat_map].
  destruct (PyDict.get k0 item_data) as [v|] eqn:E.
  - specialize (IH (PyDict.remove k0 item_data) Hnd).
    destruct (Importer.gather_levels r (PyDict.remove k0 item_data)) as [ls d].
    cbn [fst] in *. rewrite IH. cbn [app]. f_equal.
    apply flat_map_agree. intros k Hk.
    rewrite PyDictFacts.get_remove_other; [reflexivity|].
    intros ->. contradiction.
  - now apply IH.
Qed.

Lemma level_keys_distinct : NoDup Importer.level_keys.
Proof. repeat constructor; simpl; intuition discriminate. Qed.

Lemma strings_of_none levels :
  Importer.strings_of levels = None ->
  exists v, In v levels /\ PyVal.is_str v = false.
Proof.
  induction levels as [|v r IH]; [discriminate|].
  destruct v; try (intros _; eexists; split; [now left|reflexivity]).
  cbn [Importer.strings_of].
  destruct (Importer.strings_of r); [discriminate|].
  intros _. destruct (IH eq_refl) as (v & Hin & Hv).
  exists v. split; [now right|exact Hv].
Qed.

Lemma parse_path_value_raises path e :
  Importer.parse_path_value path = Raise e ->
  PyVal.is_str path = false /\ (e = TypeError \/ e = AttributeError).
Proof.
  destruct path; simpl; intros H; inversion H; auto.
Qed.

Section ImportFacts.
Variable remote : list request -> request -> response.
Variable create_attribute :
  pyval -> list string -> pyval -> pyval -> pyval -> pyval ->
  api_state -> (bool * api_msg) * api_state.
Variable create_variant :
  pyval -> pyval -> PyDict.t pyval -> pyval -> PyDict.t pyval ->
  api_state -> (bool * api_msg) * api_state.

Lemma gather_levels_frame keys : forall item_data k,
  ~ In k keys ->
  PyDict.get k (snd (Importer.gather_levels keys item_data)) = PyDict.get k item_data.
Proof.
  induction keys as [|k0 r IH]; intros item_data k Hk; [reflexivity|].
  simpl. simpl in Hk.
  destruct (PyDict.get k0 item_data) as [v|].
  - specialize (IH (PyDict.remove k0 item_data) k).
    destruct (Importer.gather_levels r (PyDict.remove k0 item_data)) as [ls d].
    simpl in *. rewrite IH by tauto.
    apply PyDictFacts.get_remove_other. intros ->. tauto.
  - apply IH. tauto.
Qed.

Lemma strings_of_map levels : forall names,
  Importer.strings_of levels = Some names -> levels = map VStr names.
Proof.
  induction levels as [|v r IH]; intros names H; simpl in H.
  - now injection H as <-.
  - destruct v; try discriminate.
    destruct (Importer.strings_of r) as [r'|]; [|discriminate].
    injection H as <-. simpl. f_equal. now apply IH.
Qed.

Lemma last_map_VStr names d : names <> [] ->
  last (map VStr names) d = VStr (last names "").
Proof.
  induction names as [|a r IH]; intros Hne; [congruence|].
  destruct r as [|b r']; [reflexivity|].
  change (last (map VStr (a :: b :: r')) d) with (last (map VStr (b :: r')) d).
  change (last (a :: b :: r') "") with (last (b :: r') "").
  apply IH. discriminate.
Qed.

(** Category resolution in a dry run: the client is not touched; either no
    level results and nothing is logged, or the levels are strings, the
    chain is logged and the deepest level is stored under [item_group]; a
    level or path that is not a string raises. *)
Lemma resolve_category_dry item_data rs :
  match Importer.resolve_category remote true item_data rs with
  | (Ok d, rs1) =>
      (forall k, ~ In k Importer.level_keys -> k <> "category_path" ->
                 k <> "item_group" -> PyDict.get k d = PyDict.get k item_data)
      /\ (rs1 = rs
          \/ exists names, names <> []
               /\ rs1 = Importer.add_log (LogDryHierarchy (PyStr.join " > " names)) rs
               /\ PyDict.get "item_group" d = Some (VStr (last names "")))
  | (Raise e, rs1) => rs1 = rs /\ (e = TypeError \/ e = AttributeError)
  end.
Proof.
  unfold Importer.resolve_category.
  pose proof (gather_levels_frame Importer.level_keys item_data) as Hframe.
  destruct (Importer.gather_levels Importer.level_keys item_data) as [levels0 d0].
  simpl in Hframe.
  set (path_step := match PyDict.get "category_path" d0 with
                    | Some path => _ | None => _ end).
  assert (Hstep : match path_step with
                  | (Ok _, d1) => forall k, k <> "category_path" ->
                                   PyDict.get k d1 = PyDict.get k d0
                  | (Raise e, _) => e = TypeError \/ e = AttributeError
                  end).
  { unfold path_step.
    destruct (PyDict.get "category_path" d0) as [path|]; [|auto].
    destruct (api rs); [|intros; now apply PyDictFacts.get_remove_other].
    destruct (PyVal.truthy path); [|intros; now apply PyDictFacts.get_remove_other].
    destruct path; simpl; auto;
      try (destruct (Api.parse_category_path s));
      intros; now apply PyDictFacts.get_remove_other. }
  destruct path_step as [[levels|e] d1]; [|auto].
  assert (Hk : forall k, ~ In k Importer.level_keys -> k <> "category_path" ->
                         PyDict.get k d1 = PyDict.get k item_data).
  { intros k H1 H2. rewrite Hstep by assumption. auto. }
  destruct levels as [|v vs]; [split; auto|].
  cbn [negb].
  destruct (Importer.strings_of (v :: vs)) as [names|] eqn:Hs; [|auto].
  split.
  - intros k H1 H2 H3. rewrite PyDictFacts.get_set_other by assumption. auto.
  - right. exists names.
    apply strings_of_map in Hs.
    assert (Hne : names <> []) by (intros ->; discriminate).
    split; [assumption|]. split; [reflexivity|].
    rewrite PyDictFacts.get_set_same, Hs. f_equal. now apply last_map_VStr.
Qed.

(** One dry-run row: it is never left by [continue]; it either completes,
    counted as success and logged (after the hierarchy line, if any), or
    raises in the category step. *)
Lemma row_body_dry mode import_type fm i row rs :
  let item0 := Importer.post_process (Importer.transform_row row fm) in
  match Importer.row_body remote create_attribute create_variant
          true mode import_type fm i row rs with
  | (Completed, rs1) =>
      api rs1 = api rs /\ success rs1 = S (success rs)
      /\ errors rs1 = errors rs /\ skipped rs1 = skipped rs
      /\ progress rs1 = progress rs
      /\ exists item_data hier,
           log rs1 = (log rs ++ hier
                      ++ [LogDry (Importer.identifier_of i item0) (PyDict.keys item_data)])%list
           /\ (forall k, ~ In k Importer.level_keys -> k <> "category_path" ->
                         k <> "item_group" ->
                         PyDict.get k item_data = PyDict.get k item0)
           /\ (hier = []
               \/ exists names, names <> []
                    /\ hier = [LogDryHierarchy (PyStr.join " > " names)]
                    /\ PyDict.get "item_group" item_data = Some (VStr (last names "")))
  | (Continued, _) => False
  | (Raised e, rs1) =>
      rs1 = rs /\ Importer.is_item_import import_type = true
      /\ (e = TypeError \/ e = AttributeError)
  end.
Proof.
  cbv zeta. unfold Importer.row_body.
  set (item0 := Importer.post_process (Importer.transform_row row fm)).
  destruct (Importer.is_item_import import_type) eqn:Hitem.
  - pose proof (resolve_category_dry item0 rs) as H.
    destruct (Importer.resolve_category remote true item0 rs) as [[d|e] rs1].
    + destruct H as [Hframe Hlog]. simpl.
      destruct Hlog as [->|(names & Hne & -> & Hgroup)].
      * repeat (split; [reflexivity|]).
        exists d, []. split; [reflexivity|]. split; [exact Hframe|]. now left.
      * repeat (split; [reflexivity|]).
        exists d, [LogDryHierarchy (PyStr.join " > " names)].
        split; [simpl; now rewrite <- app_assoc|].
        split; [exact Hframe|]. right. exists names. auto.
    + destruct H as [-> He]. auto.
  - simpl. repeat (split; [reflexivity|]).
    exists item0, []. split; [reflexivity|]. split; [auto|]. now left.
Qed.

(** One dry-run iteration counts the row once, as success with a progress
    update or as error, and leaves the client alone. *)
Lemma process_row_dry mode import_type fm total i row rs :
  let rs1 := Importer.process_row remote create_attribute create_variant
               true mode import_type fm total i row rs in
  api rs1 = api rs /\ skipped rs1 = skipped rs
  /\ success rs1 + errors rs1 = S (success rs + errors rs).
Proof.
  cbv zeta. unfold Importer.process_row.
  pose proof (row_body_dry mode import_type fm i row rs) as H. cbv zeta in H.
  destruct (Importer.row_body remote create_attribute create_variant
              true mode import_type fm i row rs) as [[| |e] rs1].
  - destruct H as (Ha & Hs & He & Hk & _). simpl. rewrite Hs, He. auto.
  - contradiction.
  - destruct H as (-> & _). simpl. split; [reflexivity|]. split; [reflexivity|].
    now rewrite Nat.add_succ_r.
Qed.

Lemma import_loop_dry mode import_type fm total rows : forall i rs,
  let rs1 := Importer.import_loop remote create_attribute create_variant
               true mode import_type fm total i rows rs in
  api rs1 = api rs /\ skipped rs1 = skipped rs
  /\ success rs1 + errors rs1 = List.length rows + (success rs + errors rs).
Proof.
  induction rows as [|row rest IH]; intros i rs; simpl; [auto|].
  destruct (IH (S i) (Importer.process_row remote create_attribute create_variant
                        true mode import_type fm total i row rs)) as (Ha & Hk & Hc).
  destruct (process_row_dry mode import_type fm total i row rs) as (Ha' & Hk' & Hc').
  rewrite Ha, Hk, Hc, Ha', Hk', Hc'. repeat split. lia.
Qed.

(** The category step of a dry run, by the levels of the record. *)
Lemma resolve_category_dry_levels item_data rs :
  let has_client := match api rs with Some _ => true | None => false end in
  let d1 := PyDict.remove "category_path"
              (snd (Importer.gather_levels Importer.level_keys item_data)) in
  Importer.resolve_category remote true item_data rs
  = match Importer.category_levels has_client item_data with
    | Raise e => (Raise e, rs)
    | Ok levels =>
        match Importer.strings_of levels with
        | None => (Raise TypeError, rs)
        | Some [] => (Ok d1, rs)
        | Some (n :: ns) =>
            (Ok (PyDict.set "item_group" (VStr (last (n :: ns) "")) d1),
             Importer.add_log (LogDryHierarchy (PyStr.join " > " (n :: ns))) rs)
        end
    end.
Proof.
  cbv zeta. unfold Importer.resolve_category, Importer.category_levels,
    Importer.level_values.
  pose proof (gather_levels_fst Importer.level_keys item_data level_keys_distinct)
    as Hfst.
  pose proof (gather_levels_keeps Importer.level_keys item_data "category_path")
    as Hpath.
  destruct (Importer.gather_levels Importer.level_keys item_data) as [levels0 d0].
  cbn [fst snd] in Hfst, Hpath. cbn [fst snd]. rewrite <- Hfst.
  rewrite <- Hpath by (simpl; intuition discriminate). clear Hfst Hpath.
  assert (Hend : forall (levels : list pyval) (d : PyDict.t pyval),
    match levels with
    | [] => (Ok d, rs)
    | _ :: _ =>
        if negb true then
          match api rs with
          | Some st =>
              match Api.ensure_category_hierarchy remote levels st with
              | (Raise e, st') => (Raise e, Importer.set_api st' rs)
              | (Ok (final_category, logs), st') =>
                  (Ok (PyDict.set "item_group" (VStr final_category) d),
                   Importer.add_logs logs (Importer.set_api st' rs))
              end
          | None => (Ok d, rs)
          end
        else
          match Importer.strings_of levels with
          | None => (Raise TypeError, rs)
          | Some names =>
              (Ok (PyDict.set "item_group" (last levels VNone) d),
               Importer.add_log (LogDryHierarchy (PyStr.join " > " names)) rs)
          end
    end
    = match Importer.strings_of levels with
      | None => (Raise TypeError, rs)
      | Some [] => (Ok d, rs)
      | Some (n :: ns) =>
          (Ok (PyDict.set "item_group" (VStr (last (n :: ns) "")) d),
           Importer.add_log (LogDryHierarchy (PyStr.join " > " (n :: ns))) rs)
      end).
  { intros levels d. destruct levels as [|v vs]; [reflexivity|].
    cbv beta iota delta [negb].
    destruct (Importer.strings_of (v :: vs)) as [names|] eqn:Hs; [|reflexivity].
    pose proof (strings_of_map _ _ Hs) as Hmap.
    destruct names as [|n ns]; [discriminate|].
    rewrite Hmap, last_map_VStr by discriminate. reflexivity. }
  destruct (PyDict.get "category_path" d0) as [path|] eqn:Hp.
  - destruct (api rs) as [st|]; cbn [andb].
    + rewrite andb_true_r. destruct (PyVal.truthy path); [|apply Hend].
      destruct (Importer.parse_path_value path) as [[|p ps]|e];
        [apply Hend|apply Hend|reflexivity].
    + rewrite andb_false_r. apply Hend.
  - rewrite (remove_absent _ _ _ Hp). apply Hend.
Qed.

(** C3 (amended). A dry run never touches the client: no request of any
    kind is issued (the client state, with its list of sent requests, is
    the one the run started with), nothing is skipped, and every row is
    counted once.  What happens to a row is fixed by its transformed
    record.  The levels are those of the category path, when the path is
    true, a client object exists and the path parses to at least one
    level, and the values of the level columns otherwise.  If the path is
    true but not a string (with a client), or one of the levels is not a
    string, the row raises and is counted as an error.  Otherwise the row
    completes and is counted as success: the chain of the levels, if there
    are any, is logged, the deepest level is stored under [item_group], the
    category keys are gone, every other key of the record is kept, and the
    keys of the record are logged. *)
Theorem dry_run_contacts_nothing mode import_type fm rows client :
  let rs := Importer.run_import remote create_attribute create_variant
              true mode import_type fm rows client in
  api rs = client
  /\ success rs + errors rs = List.length rows
  /\ skipped rs = 0
  /\ forall i total row rs0,
       let item0 := Importer.post_process (Importer.transform_row row fm) in
       let identifier := Importer.identifier_of i item0 in
       let has_client := match api rs0 with Some _ => true | None => false end in
       let outcome := Importer.row_body remote create_attribute create_variant
                        true mode import_type fm i row rs0 in
       let rs1 := Importer.process_row remote create_attribute create_variant
                    true mode import_type fm total i row rs0 in
       ((exists e, outcome = (Raised e, rs0)
                   /\ rs1 = Importer.add_log (LogRowException (S i) e)
                              (Importer.inc_errors rs0))
        \/ (exists rs2, outcome = (Completed, rs2)
                       /\ rs1 = Importer.report_progress i total rs2
                       /\ api rs2 = api rs0 /\ success rs2 = S (success rs0)
                       /\ errors rs2 = errors rs0 /\ skipped rs2 = skipped rs0))
       /\ (Importer.is_item_import import_type = false ->
           outcome = (Completed,
                      Importer.inc_success
                        (Importer.add_log (LogDry identifier (PyDict.keys item0)) rs0)))
       /\ (Importer.is_item_import import_type = true ->
           match Importer.category_levels has_client item0 with
           | Raise e =>
               outcome = (Raised e, rs0)
               /\ (e = TypeError \/ e = AttributeError)
               /\ has_client = true
               /\ exists path, PyDict.get "category_path" item0 = Some path
                               /\ PyVal.truthy path = true
                               /\ PyVal.is_str path = false
           | Ok levels =>
               match Importer.strings_of levels with
               | None =>
                   outcome = (Raised TypeError, rs0)
                   /\ exists v, In v levels /\ PyVal.is_str v = false
               | Some names =>
                   levels = map VStr names
                   /\ exists item_data,
                        outcome
                        = (Completed,
                           Importer.inc_success
                             (Importer.add_log
                                (LogDry identifier (PyDict.keys item_data))
                                match names with
                                | [] => rs0
                                | _ :: _ =>
                                    Importer.add_log
                                      (LogDryHierarchy (PyStr.join " > " names)) rs0
                                end))
                        /\ (forall k, In k Importer.category_keys ->
                                      PyDict.get k item_data = None)
                        /\ (forall k, ~ In k Importer.category_keys ->
                                      k <> "item_group" ->
                                      PyDict.get k item_data = PyDict.get k item0)
                        /\ PyDict.get "item_group" item_data
                           = match names with
                             | [] => PyDict.get "item_group" item0
                             | _ :: _ => Some (VStr (last names ""))
                             end
               end
           end).
Proof.
  cbv zeta. unfold Importer.run_import.
  destruct (import_loop_dry mode import_type fm (List.length rows) rows 0
              (mkRun client [] 0 0 0 [])) as (Ha & Hk & Hc).
  cbn [api success errors skipped Importer.add_log].
  simpl in Ha, Hk, Hc. split; [exact Ha|]. split; [lia|]. split; [exact Hk|].
  clear Ha Hk Hc.
  intros i total row rs0.
  set (item0 := Importer.post_process (Importer.transform_row row fm)).
  split.
  { pose proof (row_body_dry mode import_type fm i row rs0) as H. cbv zeta in H.
    unfold Importer.process_row.
    destruct (Importer.row_body remote create_attribute create_variant
                true mode import_type fm i row rs0) as [[| |e] rs2].
    - right. exists rs2. destruct H as (H1 & H2 & H3 & H4 & _). auto 10.
    - destruct H.
    - left. destruct H as (-> & _). exists e. auto. }
  split.
  { intros Hitem. unfold Importer.row_body. fold item0. rewrite Hitem. reflexivity. }
  intros Hitem. unfold Importer.row_body. fold item0. rewrite Hitem.
  rewrite resolve_category_dry_levels.
  set (d0 := snd (Importer.gather_levels Importer.level_keys item0)).
  assert (Hgone : forall k, In k Importer.category_keys ->
                    PyDict.get k (PyDict.remove "category_path" d0) = None).
  { intros k Hk. unfold Importer.category_keys in Hk. apply in_app_or in Hk.
    destruct Hk as [Hk|[<-|[]]]; [|apply PyDictFacts.get_remove_same].
    rewrite PyDictFacts.get_remove_other
      by (intros ->; simpl in Hk; intuition discriminate).
    now apply gather_levels_consumes. }
  assert (Hkept : forall k, ~ In k Importer.category_keys ->
                    PyDict.get k (PyDict.remove "category_path" d0)
                    = PyDict.get k item0).
  { intros k Hk. unfold Importer.category_keys in Hk.
    rewrite PyDictFacts.get_remove_other
      by (intros ->; apply Hk; apply in_or_app; right; now left).
    apply gather_levels_keeps. intros H. apply Hk. apply in_or_app. now left. }
  destruct (Importer.category_levels
              match api rs0 with Some _ => true | None => false end item0)
    as [levels|e] eqn:Hlevels.
  - destruct (Importer.strings_of levels) as [names|] eqn:Hs.
    + split; [now apply strings_of_map|].
      destruct names as [|n ns].
      * exists (PyDict.remove "category_path" d0).
        split; [reflexivity|]. split; [exact Hgone|].
        split; [intros k Hk _; now apply Hkept|].
        apply Hkept. unfold Importer.category_keys. simpl. intuition discriminate.
      * exists (PyDict.set "item_group" (VStr (last (n :: ns) ""))
                  (PyDict.remove "category_path" d0)).
        split; [reflexivity|]. split.
        { intros k Hk. rewrite PyDictFacts.get_set_other; [now apply Hgone|].
          intros ->. unfold Importer.category_keys in Hk. simpl in Hk.
          intuition discriminate. }
        split.
        { intros k Hk Hne. rewrite PyDictFacts.get_set_other by exact Hne.
          now apply Hkept. }
        apply PyDictFacts.get_set_same.
    + split; [reflexivity|]. now apply strings_of_none.
  - split; [reflexivity|].
    unfold Importer.category_levels in Hlevels.
    destruct (PyDict.get "category_path" item0) as [path|]; [|discriminate].
    destruct (PyVal.truthy path) eqn:Ht; [|discriminate].
    destruct (api rs0) as [st|]; [|discriminate]. cbn [andb] in Hlevels.
    destruct (Importer.parse_path_value path) as [[|p ps]|e'] eqn:Hparse;
      try discriminate.
    inversion Hlevels; subst e'.
    destruct (parse_path_value_raises _ _ Hparse) as [Hstr He].
    split; [exact He|]. split; [reflexivity|]. exists path. auto.
Qed.

(** C2. The progress update is the last statement of the [try] body, so a
    row that leaves the body early gets none.  An attribute row without a
    name leaves by [continue] and a row whose category step raises leaves
    by the exception: each is counted as an error and logged, and no
    progress is reported for it, while the rows around it are reported.
    The mapping sets are ones [start_import] lets through: they map the
    required target.  A row whose remote call fails stays in the body and
    is reported. *)
Theorem progress_skipped_on_failed_row mode client :
  (forall fm total i row rs st,
     api rs = Some st ->
     PyVal.truthy (Importer.get_or_empty "attribute_name"
                     (Importer.post_process (Importer.transform_row row fm))) = false ->
     Importer.process_row remote create_attribute create_variant
       false mode "attribute" fm total i row rs
     = Importer.add_log (LogNoAttributeName (S i)) (Importer.inc_errors rs))
  /\ (let named := [("Name", new_mapping "Name" "attribute_name");
                    ("Gruppe", new_mapping "Gruppe" "item_group_name")] in
      let rows := [[("Name", ""); ("Gruppe", "Farben")];
                   [("Name", "Farbe"); ("Gruppe", "Farben")]] in
      exists rs,
        Importer.start_import remote create_attribute create_variant
          false mode "attribute" named rows (Some client) = Started false rs
        /\ progress rs = [(2, 2)]
        /\ success rs + errors rs = 2 /\ 1 <= errors rs
        /\ exists rest, log rs = LogNoAttributeName 1 :: rest)
  /\ (let leveled := [("Nr", new_mapping "Nr" "item_code");
                      ("Ebene", mkFieldMapping "Ebene" "category_level_1" "bool" "")] in
      let rows := [[("Nr", "A-1"); ("Ebene", "ja")]] in
      Importer.start_import remote create_attribute create_variant
        true mode "artikel" leveled rows (Some client)
      = Started true (mkRun (Some client)
                        [LogRowException 1 TypeError; LogFinished 0 1 0] 0 1 0 [])
      /\ Importer.start_import remote create_attribute create_variant
           false mode "artikel" leveled rows (Some client)
         = Started false (mkRun (Some client)
                            [LogRowException 1 AttributeError; LogFinished 0 1 0]
                            0 1 0 []))
  /\ (let grouped := [("Name", new_mapping "Name" "item_group_name")] in
      let unconnected := mkApi "Alle Artikelgruppen" "Standard-Vertrieb" false [] [] [] in
      exists rs,
        Importer.start_import remote create_attribute create_variant
          false mode "kategorien" grouped [[("Name", "A")]] (Some unconnected)
        = Started false rs
        /\ progress rs = [(1, 1)] /\ errors rs = 1 /\ success rs = 0).
Proof.
  split.
  { intros fm total i row rs st Hapi Hname.
    unfold Importer.process_row, Importer.row_body.
    change (Importer.is_item_import "attribute") with false. cbv iota.
    rewrite Hapi.
    change (String.eqb "attribute" "kategorien") with false.
    change (String.eqb "attribute" "attribute") with true. cbv iota.
    unfold Importer.import_attribute. rewrite Hname. reflexivity. }
  split.
  { cbv zeta. eexists. split; [reflexivity|].
    unfold Importer.run_import, Importer.import_loop, Importer.process_row,
      Importer.row_body.
    cbn.
    match goal with |- context [create_attribute ?a ?b ?c ?d ?e ?f ?g] =>
      destruct (create_attribute a b c d e f g) as [[ok msg] st1]
    end.
    destruct ok; cbn; (split; [reflexivity|]); (split; [reflexivity|]);
      (split; [lia|]); eexists; reflexivity. }
  split.
  { cbv zeta. split; reflexivity. }
  cbv zeta. eexists. split; [reflexivity|]. repeat split.
Qed.

End ImportFacts.

(** C3 as stated fails when the run has no client ([self.api] is [None]
    until a connection is set up): the category path is dropped unparsed,
    so no chain is logged and no [item_group] is stored.  With a client, a
    level produced by the boolean transform makes the row an error instead
    of a success.  Both mapping sets map [item_code], so [start_import]
    starts the run. *)
Lemma dry_run_counterexample :
  let fm := [("Artikel", new_mapping "Artikel" "item_code");
             ("Kategorie", new_mapping "Kategorie" "category_path")] in
  let row := [("Artikel", "SKU1"); ("Kategorie", "A > B")] in
  let leveled := [("Artikel", new_mapping "Artikel" "item_code");
                  ("Ebene", mkFieldMapping "Ebene" "category_level_1" "bool" "")] in
  let row' := [("Artikel", "SKU1"); ("Ebene", "ja")] in
  Importer.start_import Sample.offline Sample.no_attribute Sample.no_variant
    true "upsert" "artikel" fm [row] None
  = Started true
      (mkRun None [LogDry (VStr "SKU1") ["item_code"]; LogFinished 1 0 0]
             1 0 0 [(1, 1)])
  /\ Importer.start_import Sample.offline Sample.no_attribute Sample.no_variant
       true "upsert" "artikel" leveled [row'] (Some Sample.client)
     = Started true
         (mkRun (Some Sample.client)
                [LogRowException 1 TypeError; LogFinished 0 1 0] 0 1 0 []).
Proof. vm_compute. split; reflexivity. Qed.

(** ** Scenarios *)

(** Loading a file whose columns "sku" and "artikelnummer" both match a rule
    for [item_code]: [_create_mapping_row] assigns both, and a later
    rule-based pass keeps both mappings in place. *)
Remark load_then_auto_map_scenario :
  let loaded := Mapping.update_mapping_list AUTO_MAPPING_RULES
                  ["sku"; "artikelnummer"] Sample.no_mappings in
  let mapped := Mapping.auto_map_fields AUTO_MAPPING_RULES loaded in
  map (fun kv => (fst kv, target_field (snd kv))) (field_mappings loaded)
    = [("sku", "item_code"); ("artikelnummer", "item_code")]
  /\ map (fun kv => (fst kv, target_field (snd kv))) (field_mappings mapped)
    = [("sku", "item_code"); ("artikelnummer", "item_code")].
Proof. vm_compute. split; reflexivity. Qed.

(** The end-to-end row of the specification, with the category column
    mapped to [category_path]: the record, a dry run, and a live upsert
    against a remote system that has nothing yet. *)
Remark end_to_end_scenario :
  let moebel := "M" ++ String o_uml "" ++ "bel" in
  let fm := [("Artikel-Nr", new_mapping "Artikel-Nr" "item_code");
             ("VK Brutto", new_mapping "VK Brutto" "standard_rate_brutto");
             ("EAN", new_mapping "EAN" "barcode");
             ("Kategorie", new_mapping "Kategorie" "category_path")] in
  let row := [("Artikel-Nr", "SKU1"); ("VK Brutto", "119,00");
              ("EAN", "4006381333931"); ("Kategorie", moebel ++ " > Regale")] in
  let dry := Importer.run_import Sample.accepting Sample.no_attribute
               Sample.no_variant true "upsert" "artikel" fm [row]
               (Some Sample.client) in
  let live := Importer.run_import Sample.accepting Sample.no_attribute
                Sample.no_variant false "upsert" "artikel" fm [row]
                (Some Sample.client) in
  Importer.post_process (Importer.transform_row row fm)
    = [("item_code", VStr "SKU1");
       ("category_path", VStr (moebel ++ " > Regale"));
       ("standard_rate", VFloat (PyFloat.of_decimal false 100 0));
       ("gtin", VStr "4006381333931")]
  /\ (api dry = Some Sample.client /\ success dry = 1
      /\ log dry = [LogDryHierarchy (moebel ++ " > Regale");
                    LogDry (VStr "SKU1")
                      ["item_code"; "standard_rate"; "gtin"; "item_group"];
                    LogFinished 1 0 0])
  /\ (success live = 1 /\ progress live = [(1, 1)]
      /\ map (fun r => (req_method r, req_endpoint r))
           (match api live with Some st => sent st | None => [] end)
         = [(GET, "Item Group/" ++ moebel); (GET, "Item Group/" ++ moebel);
            (POST, "Item Group");
            (GET, "Item Group/Regale"); (GET, "Item Group/Regale");
            (POST, "Item Group");
            (GET, "Item/SKU1"); (POST, "Item"); (POST, "Item Price")]).
Proof. vm_compute. repeat split. Qed.

(** The barcode examples of the specification. *)
Remark is_valid_barcode_examples :
  Utils.is_valid_barcode "4017980000000" = false
  /\ Utils.is_valid_barcode "4006381333931" = true
  /\ Utils.is_valid_barcode "abc12345" = false.
Proof. vm_compute. repeat split. Qed.

(** The category-path examples of the specification. *)
Remark parse_category_path_examples :
  Api.parse_category_path "Elektronik > Computer > Laptops"
    = ["Elektronik"; "Computer"; "Laptops"]
  /\ Api.parse_category_path "A/B/C" = ["A"; "B"; "C"]
  /\ Api.parse_category_path "" = [].
Proof. vm_compute. repeat split. Qed.

(** ** White space *)

Section StripFacts.

Lemma rstrip_idem s : PyStr.rstrip (PyStr.rstrip s) = PyStr.rstrip s.
Proof.
  induction s as [|c r IH]; [reflexivity|].
  simpl. destruct (PyStr.rstrip r) as [|d r2] eqn:E.
  - destruct (PyStr.is_space c) eqn:Hc; simpl; [reflexivity|now rewrite Hc].
  - change (PyStr.rstrip (String c (String d r2)))
      with (match PyStr.rstrip (String d r2) with
            | EmptyString => if PyStr.is_space c then EmptyString else String c EmptyString
            | r' => String c r'
            end).
    now rewrite IH.
Qed.

Lemma rstrip_head c r :
  PyStr.is_space c = false -> exists r', PyStr.rstrip (String c r) = String c r'.
Proof.
  intros Hc. simpl. destruct (PyStr.rstrip r); [rewrite Hc|]; eauto.
Qed.

Lemma lstrip_head s :
  PyStr.lstrip s = EmptyString
  \/ exists c r, PyStr.lstrip s = String c r /\ PyStr.is_space c = false.
Proof.
  induction s as [|c r IH]; [now left|].
  simpl. destruct (PyStr.is_space c) eqn:Hc; [exact IH|]. right. eauto.
Qed.

(** [strip] is idempotent. *)
Lemma strip_idem s : PyStr.strip (PyStr.strip s) = PyStr.strip s.
Proof.
  unfold PyStr.strip.
  destruct (lstrip_head s) as [->|(c & r & -> & Hc)]; [reflexivity|].
  destruct (rstrip_head c r Hc) as [r' E]. rewrite E.
  simpl PyStr.lstrip. rewrite Hc. rewrite <- E. apply rstrip_idem.
Qed.

End StripFacts.

(** ** Category paths *)

Section PathFacts.

Lemma split_levels_clean sep path :
  Forall (fun l => PyStr.is_empty l = false /\ PyStr.strip l = l)
         (Api.split_levels sep path).
Proof.
  unfold Api.split_levels. apply Forall_forall. intros l Hl.
  apply filter_In in Hl. destruct Hl as [Hin Hne].
  apply in_map_iff in Hin. destruct Hin as (p & <- & _).
  split; [now apply negb_true_iff in Hne|apply strip_idem].
Qed.

Lemma parse_with_clean seps path :
  Forall (fun l => PyStr.is_empty l = false /\ PyStr.strip l = l)
         (Api.parse_with seps path).
Proof.
  induction seps as [|sep r IH]; simpl.
  - destruct (PyStr.is_empty (PyStr.strip path)) eqn:E; constructor; [|constructor].
    split; [exact E|apply strip_idem].
  - destruct (PyStr.is_substring sep path); [apply split_levels_clean|exact IH].
Qed.

Lemma filter_levels_clean ls :
  Forall (fun l => PyStr.is_empty l = false /\ PyStr.strip l = l) ls ->
  Api.filter_levels (map VStr ls) = Ok ls.
Proof.
  induction 1 as [|l r [Hne Hs] _ IH]; [reflexivity|].
  simpl. rewrite Hne. simpl. rewrite IH. simpl. now rewrite Hs, Hne.
Qed.

(** X1. Every level [parse_category_path] returns is non-empty and carries
    no surrounding white space, whatever the path; so the filter at the
    head of [ensure_category_hierarchy] keeps the parsed levels exactly as
    they are, and a dry run and a live run work on the same chain. *)
Theorem parse_category_path_levels_clean (path : string) :
  Forall (fun l => PyStr.is_empty l = false /\ PyStr.strip l = l)
         (Api.parse_category_path path)
  /\ Api.filter_levels (map VStr (Api.parse_category_path path))
     = Ok (Api.parse_category_path path)
  /\ Importer.strings_of (map VStr (Api.parse_category_path path))
     = Some (Api.parse_category_path path).
Proof.
  assert (H : Forall (fun l => PyStr.is_empty l = false /\ PyStr.strip l = l)
                     (Api.parse_category_path path)).
  { unfold Api.parse_category_path.
    destruct (PyStr.is_empty path); [constructor|apply parse_with_clean]. }
  split; [exact H|]. split; [now apply filter_levels_clean|].
  clear H. induction (Api.parse_category_path path) as [|l r IH]; [reflexivity|].
  simpl. now rewrite IH.
Qed.

End PathFacts.

(** ** Requests of the REST client *)

Section SentFacts.
Variable remote : list request -> request -> response.

Lemma sent_all_refl P st : Api.sent_all P st st.
Proof. exists []. split; [now rewrite app_nil_r|constructor]. Qed.

Lemma sent_all_trans P a b c :
  Api.sent_all P a b -> Api.sent_all P b c -> Api.sent_all P a c.
Proof.
  intros (n1 & E1 & F1) (n2 & E2 & F2). exists (n1 ++ n2)%list.
  split; [now rewrite E2, E1, app_assoc|]. apply Forall_app. auto.
Qed.

Lemma sent_all_weaken (P Q : request -> Prop) a b :
  (forall r, P r -> Q r) -> Api.sent_all P a b -> Api.sent_all Q a b.
Proof.
  intros H (n & E & F). exists n. split; [exact E|].
  eapply Forall_impl; eauto.
Qed.

Lemma sent_all_same_sent P a b c :
  sent c = sent b -> Api.sent_all P a b -> Api.sent_all P a c.
Proof. intros E (n & E' & F). exists n. split; [congruence|exact F]. Qed.

Lemma make_request_sent_all (P : request -> Prop) m endpoint data st :
  P (mkRequest m endpoint data) ->
  Api.sent_all P st (snd (Api.make_request remote m endpoint data st)).
Proof.
  intros HP.
  pose proof (make_request_sent remote m endpoint data st) as H.
  destruct (Api.make_request remote m endpoint data st) as [r st1]; simpl.
  destruct H as ([E|E] & _).
  - exists []. split; [now rewrite app_nil_r|constructor].
  - exists [mkRequest m endpoint data]. split; [exact E|]. now constructor.
Qed.

(** A client without a session sends nothing and keeps its state. *)
Lemma make_request_no_session m endpoint data st :
  has_session st = false ->
  Api.make_request remote m endpoint data st
  = (Raise (RequestError "requests library not available"), st).
Proof. intros H. unfold Api.make_request. now rewrite H. Qed.

Lemma get_item_group_sent name st :
  Api.sent_all (fun r => req_method r = GET) st
    (snd (Api.get_item_group remote name st)).
Proof.
  unfold Api.get_item_group.
  destruct (negb (Api.hashable name)); [apply sent_all_refl|].
  destruct (Api.cache_get name (item_group_cache st)); [apply sent_all_refl|].
  match goal with |- context [Api.make_request remote GET ?e ?d st] =>
    pose proof (make_request_sent_all (fun r => req_method r = GET) GET e d st eq_refl) as H;
    destruct (Api.make_request remote GET e d st) as [r st1]
  end.
  simpl in H. destruct r as [body|e]; [|exact H].
  destruct (PyVal.truthy (Api.get_data body)); [|exact H].
  destruct (Api.subscript (Api.get_data body) "name"); [|exact H].
  simpl. eapply sent_all_same_sent; [|exact H]. reflexivity.
Qed.

Lemma get_item_sent code st :
  Api.sent_all (fun r => req_method r = GET) st
    (snd (Api.get_item remote code st)).
Proof.
  unfold Api.get_item.
  destruct (negb (Api.hashable code)); [apply sent_all_refl|].
  destruct (Api.cache_get code (item_cache st)); [apply sent_all_refl|].
  match goal with |- context [Api.make_request remote GET ?e ?d st] =>
    pose proof (make_request_sent_all (fun r => req_method r = GET) GET e d st eq_refl) as H;
    destruct (Api.make_request remote GET e d st) as [r st1]
  end.
  simpl in H. destruct r as [body|e]; [|exact H].
  destruct (PyVal.truthy (Api.get_data body)); [|exact H].
  destruct (Api.subscript (Api.get_data body) "name"); [|exact H].
  simpl. eapply sent_all_same_sent; [|exact H]. reflexivity.
Qed.

(** What [create_item_group] sends for the two-key dict the hierarchy walk
    builds: reads, and at most a creation of [l] under [parent]. *)
Lemma create_item_group_sent l parent st :
  let data := [("item_group_name", VStr l); ("parent_item_group", VStr parent)] in
  let '(_, data', st2) := Api.create_item_group remote data st in
  Api.sent_all (fun r => req_method r = GET
                  \/ (Api.is_group_create r = true
                      /\ Api.payload_field "item_group_name" r = Some (VStr l)
                      /\ Api.payload_field "parent_item_group" r = Some (VStr parent)))
    st st2
  /\ PyDict.get "parent_item_group" data' = Some (VStr parent).
Proof.
  intros data. unfold Api.create_item_group.
  change (PyDict.get "item_group_name" data) with (Some (VStr l)). cbv iota.
  pose proof (get_item_group_sent (VStr l) st) as Hg.
  destruct (Api.get_item_group remote (VStr l) st) as [[existing|e] st1]; simpl in Hg.
  - destruct (PyVal.truthy existing).
    + split; [|reflexivity]. eapply sent_all_weaken; [|exact Hg]. auto.
    + change (Api.set_default "parent_item_group" (VStr (default_item_group st1))
                (PyDict.set "is_group" (VInt 1)
                   (PyDict.set "doctype" (VStr "Item Group") data)))
        with [("item_group_name", VStr l); ("parent_item_group", VStr parent);
              ("doctype", VStr "Item Group"); ("is_group", VInt 1)].
      match goal with |- context [Api.make_request remote POST ?e ?d st1] =>
        pose proof (make_request_sent_all
          (fun r => req_method r = GET
                  \/ (Api.is_group_create r = true
                      /\ Api.payload_field "item_group_name" r = Some (VStr l)
                      /\ Api.payload_field "parent_item_group" r = Some (VStr parent)))
          POST e d st1) as Hp;
        destruct (Api.make_request remote POST e d st1) as [r st2]
      end.
      simpl in Hp.
      assert (Hall : Api.sent_all (fun r => req_method r = GET
                  \/ (Api.is_group_create r = true
                      /\ Api.payload_field "item_group_name" r = Some (VStr l)
                      /\ Api.payload_field "parent_item_group" r = Some (VStr parent)))
                 st st2).
      { eapply sent_all_trans; [eapply sent_all_weaken; [|exact Hg]; auto|].
        apply Hp. right. repeat split. }
      destruct r as [body|e]; [|split; [exact Hall|reflexivity]].
      match goal with |- context [Api.get_or ?a ?b ?c] =>
        destruct (Api.get_or a b c) as [created|e]
      end; (split; [|reflexivity]); [|exact Hall].
      eapply sent_all_same_sent; [|exact Hall]. reflexivity.
  - split; [|reflexivity]. eapply sent_all_weaken; [|exact Hg]. auto.
Qed.

Lemma last_snoc (pre : list string) l d : last (pre ++ [l]) d = l.
Proof. apply last_last. Qed.

Lemma hierarchy_loop_chained root ls : forall pre parent last_category st,
  parent = last pre root ->
  Api.sent_all (Api.chained root (pre ++ ls)) st
    (snd (Api.hierarchy_loop remote ls parent last_category st)).
Proof.
  induction ls as [|l rest IH]; intros pre parent lc st Hp; [apply sent_all_refl|].
  simpl.
  pose proof (get_item_group_sent (VStr l) st) as Hg.
  assert (Hget : forall a b, Api.sent_all (fun r => req_method r = GET) a b ->
                   Api.sent_all (Api.chained root (pre ++ l :: rest)) a b).
  { intros a b. apply sent_all_weaken. intros r Hr. now left. }
  assert (Hrec : forall st1, Api.sent_all (Api.chained root (pre ++ l :: rest)) st1
                   (snd (Api.hierarchy_loop remote rest l l st1))).
  { intros st1. pose proof (IH (pre ++ [l])%list l l st1) as H.
    rewrite <- app_assoc in H. apply H. symmetry. apply last_snoc. }
  destruct (Api.get_item_group remote (VStr l) st) as [[existing|e] st1]; simpl in Hg;
    [|now apply Hget].
  destruct (PyVal.truthy existing).
  - specialize (Hrec st1).
    destruct (Api.hierarchy_loop remote rest l l st1) as [[[res logs]|e] st2];
      simpl in *; eapply sent_all_trans; eauto.
  - pose proof (create_item_group_sent l parent st1) as Hc. cbv zeta in Hc.
    destruct (Api.create_item_group remote _ st1) as [[ok_msg data'] st2].
    destruct Hc as [Hc _].
    assert (Hc' : Api.sent_all (Api.chained root (pre ++ l :: rest)) st st2).
    { eapply sent_all_trans; [apply Hget; exact Hg|].
      eapply sent_all_weaken; [|exact Hc].
      intros r [Hr|(Hr & Hn & Hpar)]; [now left|right].
      split; [exact Hr|]. exists pre, l, rest. subst parent. auto. }
    destruct (fst ok_msg); [|exact Hc'].
    specialize (Hrec st2).
    destruct (Api.hierarchy_loop remote rest l l st2) as [[[res logs]|e] st3];
      simpl in *; eapply sent_all_trans; eauto.
Qed.

(** X2. Whatever the remote system answers, [ensure_category_hierarchy]
    only appends requests, and each of them is a read or creates one of the
    filtered levels as an item group whose [parent_item_group] is the level
    just before it in the list (the configured default group for the
    first).  When the filter raises, the client is left as it was. *)
Theorem ensure_hierarchy_requests_chained (levels : list pyval) (st : api_state) :
  let st' := snd (Api.ensure_category_hierarchy remote levels st) in
  match Api.filter_levels levels with
  | Ok ls => Api.sent_all (Api.chained (default_item_group st) ls) st st'
  | Raise _ => st' = st
  end.
Proof.
  unfold Api.ensure_category_hierarchy.
  destruct levels as [|v vs]; [simpl; apply sent_all_refl|].
  destruct (Api.filter_levels (v :: vs)) as [[|l ls]|e]; simpl;
    [apply sent_all_refl| |reflexivity].
  apply (hierarchy_loop_chained (default_item_group st) (l :: ls) []). reflexivity.
Qed.

End SentFacts.

(** ** The category returned by the hierarchy walk *)

Section HierarchyResult.
Variable remote : list request -> request -> response.

Lemma filter_levels_raises levels e :
  Api.filter_levels levels = Raise e -> e = AttributeError.
Proof.
  induction levels as [|v r IH]; simpl; [discriminate|].
  destruct (PyVal.truthy v); [|exact IH].
  destruct v; try (intros H; now inversion H).
  destruct (Api.filter_levels r); simpl; [discriminate|].
  intros H. inversion H; subst. now apply IH.
Qed.

Lemma hierarchy_loop_result ls : forall parent last_category st,
  exists res logs st1,
    Api.hierarchy_loop remote ls parent last_category st = (Ok (res, logs), st1)
    /\ Api.extends st st1
    /\ List.length logs <= List.length ls
    /\ List.length (List.filter Api.is_failure logs) <= 1
    /\ (let reached :=
          firstn (List.length (List.filter (fun e => negb (Api.is_failure e)) logs)) ls in
        res = last reached last_category
        /\ forall l, In l reached -> Api.group_cached l st1 = true).
Proof.
  induction ls as [|l rest IH]; intros parent lc st.
  - exists lc, [], st. simpl. split; [reflexivity|]. split; [apply extends_refl|].
    split; [lia|]. split; [lia|]. split; [reflexivity|]. intros l [].
  - simpl Api.hierarchy_loop.
    destruct (get_item_group_spec remote l st) as (existing & sta & Hget & Hx & Ht & _).
    rewrite Hget.
    destruct (PyVal.truthy existing) eqn:Hex.
    + destruct (IH l l sta) as (res & logs & stb & Hrec & Hx2 & Hlen & Hf & Hres & Hall).
      rewrite Hrec. exists res, (LogCategoryExists l :: logs), stb.
      split; [reflexivity|]. split; [eapply extends_trans; eauto|].
      split; [simpl; lia|]. split; [exact Hf|].
      cbn [List.filter Api.is_failure negb List.length firstn]. split.
      * rewrite last_cons. exact Hres.
      * intros l' [<-|Hin]; [apply Hx2; auto|auto].
    + match goal with |- context [Api.create_item_group remote ?d sta] =>
        pose proof (@create_item_group_spec remote l d sta eq_refl) as Hc;
        destruct (Api.create_item_group remote d sta) as [[ok_msg data'] stb]
      end.
      destruct Hc as [Hx2 Hok].
      destruct (fst ok_msg) eqn:Hfst.
      * destruct (IH l l stb) as (res & logs & stc & Hrec & Hx3 & Hlen & Hf & Hres & Hall).
        rewrite Hrec. eexists res, (_ :: logs), stc.
        split; [reflexivity|].
        split; [eapply extends_trans; [exact Hx|eapply extends_trans; eauto]|].
        split; [simpl; lia|]. split; [exact Hf|].
        cbn [List.filter Api.is_failure negb List.length firstn]. split.
        -- rewrite last_cons. exact Hres.
        -- intros l' [<-|Hin]; [apply Hx3; auto|auto].
      * eexists lc, [_], stb. split; [reflexivity|].
        split; [eapply extends_trans; eauto|].
        split; [simpl; lia|]. split; [simpl; lia|].
        cbn [List.filter Api.is_failure negb List.length firstn]. split; [reflexivity|].
        intros l' [].
Qed.

(** X3. [ensure_category_hierarchy] raises only when a level is a true
    value that is not a string: then the error is the [AttributeError] of
    the filter and the client is untouched.  Otherwise it returns, logging
    one line per level it looked at and at most one failure; the category
    it returns is the last of the leading levels that were found or created
    (the default group when there is none), every one of those levels is in
    the group cache afterwards, and the configured default group is the
    same as before. *)
Theorem ensure_hierarchy_result (levels : list pyval) (st : api_state) :
  match Api.ensure_category_hierarchy remote levels st with
  | (Ok (res, logs), st') =>
      exists ls,
        Api.filter_levels levels = Ok ls
        /\ Api.extends st st'
        /\ List.length logs <= List.length ls
        /\ List.length (List.filter Api.is_failure logs) <= 1
        /\ (let reached :=
              firstn (List.length (List.filter (fun e => negb (Api.is_failure e)) logs)) ls in
            res = last reached (default_item_group st)
            /\ forall l, In l reached -> Api.group_cached l st' = true)
  | (Raise e, st') =>
      e = AttributeError /\ st' = st /\ Api.filter_levels levels = Raise AttributeError
  end.
Proof.
  unfold Api.ensure_category_hierarchy.
  destruct levels as [|v vs].
  - exists []. simpl. split; [reflexivity|]. split; [apply extends_refl|].
    split; [lia|]. split; [lia|]. split; [reflexivity|]. intros l [].
  - destruct (Api.filter_levels (v :: vs)) as [[|l ls]|e] eqn:Hf.
    + exists []. simpl. split; [reflexivity|]. split; [apply extends_refl|].
      split; [lia|]. split; [lia|]. split; [reflexivity|]. intros l [].
    + destruct (hierarchy_loop_result (l :: ls) (default_item_group st)
                  (default_item_group st) st)
        as (res & logs & st1 & -> & H).
      exists (l :: ls). split; [reflexivity|exact H].
    + pose proof (filter_levels_raises _ _ Hf) as ->. auto.
Qed.

End HierarchyResult.

(** ** The item cache *)

Section ItemCacheFacts.
Variable remote : list request -> request -> response.

Lemma eqb_str_inv k s : PyVal.eqb k (VStr s) = true -> k = VStr s.
Proof.
  destruct k as [| b | n | x | t | l | d]; simpl; try discriminate.
  - match goal with |- match ?o with _ => _ end = true -> _ =>
      destruct o; discriminate end.
  - intros H. apply String.eqb_eq in H. now subst.
Qed.

Lemma cache_get_remove_same k c : Api.cache_get k (Api.cache_remove k c) = None.
Proof.
  induction c as [|[k0 v0] r IH]; simpl; [reflexivity|].
  destruct (PyVal.eqb k0 k) eqn:E; simpl; [exact IH|now rewrite E].
Qed.

Lemma cache_get_remove_other_str s s' c :
  s' <> s ->
  Api.cache_get (VStr s') (Api.cache_remove (VStr s) c) = Api.cache_get (VStr s') c.
Proof.
  intros Hne. induction c as [|[k0 v0] r IH]; simpl; [reflexivity|].
  destruct (PyVal.eqb k0 (VStr s)) eqn:E; simpl.
  - apply eqb_str_inv in E. subst k0. simpl.
    destruct (String.eqb s s') eqn:E'; [apply String.eqb_eq in E'; congruence|exact IH].
  - now rewrite IH.
Qed.

Lemma make_request_ok m endpoint data st body st1 :
  Api.make_request remote m endpoint data st = (Ok body, st1) ->
  st1 = Api.with_sent st (sent st ++ [mkRequest m endpoint data]).
Proof.
  unfold Api.make_request. destruct (negb (has_session st)); [discriminate|].
  destruct (remote (sent st) (mkRequest m endpoint data)); [|discriminate].
  intros H. now inversion H.
Qed.

(** X4. A lookup of an item that returns a true value leaves the code in
    the item cache: the next lookup of the same code is answered from the
    cache, sends no request and leaves the client as it is, and what it
    returns is not the record of the first answer but only its [name]. *)
Theorem get_item_second_lookup_cached (code : string) (st st1 : api_state) (d : pyval) :
  Api.get_item remote (VStr code) st = (Ok d, st1) ->
  PyVal.truthy d = true ->
  exists name,
    Api.subscript d "name" = Ok name
    /\ Api.get_item remote (VStr code) st1 = (Ok (VDict [("name", name)]), st1).
Proof.
  unfold Api.get_item at 1.
  change (negb (Api.hashable (VStr code))) with false. cbv iota.
  destruct (Api.cache_get (VStr code) (item_cache st)) as [n|] eqn:Hc.
  - intros H _. inversion H; subst. exists n. split; [reflexivity|].
    unfold Api.get_item.
    change (negb (Api.hashable (VStr code))) with false. cbv iota.
    now rewrite Hc.
  - destruct (Api.make_request remote GET _ None st) as [[body|e] sta].
    + destruct (PyVal.truthy (Api.get_data body)) eqn:Ht.
      * destruct (Api.subscript (Api.get_data body) "name") as [n|e] eqn:Hs.
        -- intros H _. inversion H; subst. exists n. split; [exact Hs|].
           unfold Api.get_item.
           change (negb (Api.hashable (VStr code))) with false. cbv iota.
           cbn [item_cache Api.with_item_cache].
           rewrite cache_get_set_same; [reflexivity|]. simpl. apply String.eqb_refl.
        -- intros H Hd. inversion H; subst. discriminate.
      * intros H Hd. inversion H; subst. congruence.
    + intros H Hd. inversion H; subst. discriminate.
Qed.

(** X5. After [delete_item] reports success the code is no longer in the
    item cache, so the next lookup asks the remote system again; the
    cached names of all other codes are kept, and the only request sent is
    the DELETE of [Item/{item_code}]. *)
Theorem delete_item_forgets_item (code : string) (st st1 : api_state) (msg : api_msg) :
  Api.delete_item remote (VStr code) st = ((true, msg), st1) ->
  Api.cache_get (VStr code) (item_cache st1) = None
  /\ (forall other, other <> code ->
        Api.cache_get (VStr other) (item_cache st1)
        = Api.cache_get (VStr other) (item_cache st))
  /\ sent st1 = (sent st ++ [mkRequest DELETE ("Item/" ++ code) None])%list
  /\ item_group_cache st1 = item_group_cache st.
Proof.
  unfold Api.delete_item. change (PyVal.str (VStr code)) with code.
  destruct (Api.make_request remote DELETE ("Item/" ++ code) None st)
    as [[body|e] sta] eqn:Hreq; [|discriminate].
  apply make_request_ok in Hreq. subst sta.
  change (Api.hashable (VStr code)) with true. cbv iota.
  intros E. inversion E; subst.
  cbn [item_cache Api.with_item_cache Api.with_sent sent item_group_cache].
  split; [apply cache_get_remove_same|].
  split; [intros other Hne; now apply cache_get_remove_other_str|].
  split; reflexivity.
Qed.

End ItemCacheFacts.

Lemma get_item_second_lookup_cached_witness :
  exists name,
    Api.subscript (VDict [("name", VStr "Item/A-1")]) "name" = Ok name
    /\ Api.get_item Sample.populated (VStr "A-1")
         (snd (Api.get_item Sample.populated (VStr "A-1") Sample.client))
       = (Ok (VDict [("name", name)]),
          snd (Api.get_item Sample.populated (VStr "A-1") Sample.client)).
Proof.
  apply (get_item_second_lookup_cached Sample.populated "A-1" Sample.client);
    reflexivity.
Defined.

Lemma delete_item_forgets_item_witness :
  let st := snd (Api.get_item Sample.populated (VStr "A-1") Sample.client) in
  let st1 := snd (Api.delete_item Sample.populated (VStr "A-1") st) in
  Api.cache_get (VStr "A-1") (item_cache st) = Some (VStr "Item/A-1")
  /\ Api.cache_get (VStr "A-1") (item_cache st1) = None.
Proof.
  intros st st1. split; [reflexivity|].
  apply (delete_item_forgets_item Sample.populated "A-1" st st1
           (MsgText ("Gel" ++ String o_uml "" ++ "scht: A-1"))).
  reflexivity.
Defined.

(** ** The payload of [create_item] *)

Section CreateItemFacts.
Variable remote : list request -> request -> response.

Lemma get_set_default_same k v d :
  PyDict.get k (Api.set_default k v d)
  = Some (match PyDict.get k d with Some x => x | None => v end).
Proof.
  unfold Api.set_default, PyDict.mem.
  destruct (PyDict.get k d) as [x|] eqn:E; [exact E|].
  apply PyDictFacts.get_set_same.
Qed.

Lemma get_set_default_other k k' v d :
  k' <> k -> PyDict.get k' (Api.set_default k v d) = PyDict.get k' d.
Proof.
  intros Hne. unfold Api.set_default.
  destruct (PyDict.mem k d); [reflexivity|].
  now apply PyDictFacts.get_set_other.
Qed.

Lemma attach_barcode_frame k d :
  k <> "gtin" -> k <> "barcodes" ->
  PyDict.get k (Api.attach_barcode d) = PyDict.get k d.
Proof.
  intros Hg Hb. unfold Api.attach_barcode.
  destruct (PyDict.get "gtin" d) as [g|]; [|reflexivity].
  destruct (PyVal.truthy g); [|reflexivity].
  destruct (negb (PyVal.eq_str g "4017980000000")).
  - rewrite PyDictFacts.get_set_other by exact Hb.
    now apply PyDictFacts.get_remove_other.
  - now apply PyDictFacts.get_remove_other.
Qed.

Lemma attach_barcode_gtin d :
  match PyDict.get "gtin" d with
  | Some g =>
      if PyVal.truthy g then
        PyDict.get "gtin" (Api.attach_barcode d) = None
        /\ PyDict.get "barcodes" (Api.attach_barcode d)
           = if PyVal.eq_str g "4017980000000" then PyDict.get "barcodes" d
             else Some (VList [VDict
                    [("barcode", g);
                     ("barcode_type",
                      VStr (if (String.length (PyVal.str g) =? 13)%nat
                            then "EAN" else "UPC-A"))]])
      else Api.attach_barcode d = d
  | None => Api.attach_barcode d = d
  end.
Proof.
  unfold Api.attach_barcode.
  destruct (PyDict.get "gtin" d) as [g|]; [|reflexivity].
  destruct (PyVal.truthy g); [|reflexivity].
  destruct (PyVal.eq_str g "4017980000000"); cbn [negb].
  - split; [apply PyDictFacts.get_remove_same|].
    apply PyDictFacts.get_remove_other. discriminate.
  - split.
    + rewrite PyDictFacts.get_set_other by discriminate.
      apply PyDictFacts.get_remove_same.
    + apply PyDictFacts.get_set_same.
Qed.

(** The dict [create_item] sends, from the caller's dict. *)
Lemma create_item_dict data st code :
  PyDict.get "item_code" data = Some code ->
  exists d7,
    (forall r st1,
       Api.make_request remote POST "Item" (Some d7) st = (r, st1) ->
       exists ok_msg st',
         Api.create_item remote data st = (ok_msg, d7, st')
         /\ sent st' = sent st1
         /\ (fst ok_msg = true ->
             exists body, r = Ok body /\ Api.hashable code = true
               /\ exists name,
                    snd ok_msg = MsgCreated name
                    /\ st' = Api.with_item_cache st1
                               (Api.cache_set code name (item_cache st1))))
    /\ PyDict.get "item_code" d7 = Some code
    /\ PyDict.get "doctype" d7 = Some (VStr "Item")
    /\ PyDict.get "is_sales_item" d7 = Some (VInt 1)
    /\ PyDict.get "is_purchase_item" d7 = Some (VInt 1)
    /\ PyDict.get "item_name" d7
       = Some (match PyDict.get "item_name" data with Some v => v | None => code end)
    /\ PyDict.get "item_group" d7
       = Some (match PyDict.get "item_group" data with
               | Some v => v | None => VStr (default_item_group st) end)
    /\ PyDict.get "stock_uom" d7
       = Some (match PyDict.get "stock_uom" data with
               | Some v => v | None => VStr "Stk" end)
    /\ (forall k,
          ~ In k ["doctype"; "is_sales_item"; "is_purchase_item"; "item_name";
                  "item_group"; "stock_uom"; "gtin"; "barcodes"] ->
          PyDict.get k d7 = PyDict.get k data)
    /\ match PyDict.get "gtin" data with
       | Some g =>
           if PyVal.truthy g then
             PyDict.get "gtin" d7 = None
             /\ PyDict.get "barcodes" d7
                = if PyVal.eq_str g "4017980000000" then PyDict.get "barcodes" data
                  else Some (VList [VDict
                         [("barcode", g);
                          ("barcode_type",
                           VStr (if (String.length (PyVal.str g) =? 13)%nat
                                 then "EAN" else "UPC-A"))]])
           else PyDict.get "gtin" d7 = Some g
                /\ PyDict.get "barcodes" d7 = PyDict.get "barcodes" data
       | None => PyDict.get "gtin" d7 = None
                 /\ PyDict.get "barcodes" d7 = PyDict.get "barcodes" data
       end.
Proof.
  intros Hcode. unfold Api.create_item. rewrite Hcode.
  set (d3 := Api.set_default "stock_uom" (VStr "Stk")
               (Api.set_default "item_group" (VStr (default_item_group st))
                  (Api.set_default "item_name" code data))).
  set (d6 := PyDict.set "is_purchase_item" (VInt 1)
               (PyDict.set "is_sales_item" (VInt 1)
                  (PyDict.set "doctype" (VStr "Item") d3))).
  assert (H3 : forall k, k <> "item_name" -> k <> "item_group" -> k <> "stock_uom" ->
                         PyDict.get k d3 = PyDict.get k data).
  { intros k H1 H2 H4. unfold d3. now rewrite !get_set_default_other. }
  assert (H6 : forall k, k <> "doctype" -> k <> "is_sales_item" -> k <> "is_purchase_item" ->
                         PyDict.get k d6 = PyDict.get k d3).
  { intros k H1 H2 H4. unfold d6. now rewrite !PyDictFacts.get_set_other. }
  exists (Api.attach_barcode d6).
  split.
  { intros r st1 ->.
    destruct r as [body|e].
    - match goal with |- context [Api.get_or ?a ?b ?c] =>
        destruct (Api.get_or a b c) as [name|e]
      end.
      + destruct (Api.hashable code) eqn:Hh.
        * eexists _, _. split; [reflexivity|]. split; [reflexivity|].
          intros _. exists body. split; [reflexivity|]. split; [reflexivity|].
          exists name. split; reflexivity.
        * eexists _, _. split; [reflexivity|]. split; [reflexivity|]. discriminate.
      + eexists _, _. split; [reflexivity|]. split; [reflexivity|]. discriminate.
    - eexists _, _. split; [reflexivity|]. split; [reflexivity|]. discriminate. }
  split. { rewrite attach_barcode_frame, H6, H3 by discriminate. exact Hcode. }
  split. { rewrite attach_barcode_frame by discriminate. unfold d6.
           rewrite !PyDictFacts.get_set_other by discriminate.
           apply PyDictFacts.get_set_same. }
  split. { rewrite attach_barcode_frame by discriminate. unfold d6.
           rewrite !PyDictFacts.get_set_other by discriminate.
           apply PyDictFacts.get_set_same. }
  split. { rewrite attach_barcode_frame by discriminate. unfold d6.
           apply PyDictFacts.get_set_same. }
  split. { rewrite attach_barcode_frame, H6 by discriminate. unfold d3.
           rewrite !get_set_default_other by discriminate.
           apply get_set_default_same. }
  split. { rewrite attach_barcode_frame, H6 by discriminate. unfold d3.
           rewrite !get_set_default_other by discriminate.
           rewrite get_set_default_same.
           now rewrite get_set_default_other by discriminate. }
  split. { rewrite attach_barcode_frame, H6 by discriminate. unfold d3.
           rewrite get_set_default_same.
           now rewrite !get_set_default_other by discriminate. }
  split. { intros k Hk. simpl in Hk.
           rewrite attach_barcode_frame, H6, H3; auto; intros ->; tauto. }
  pose proof (attach_barcode_gtin d6) as Hb.
  rewrite (H6 "gtin"), (H3 "gtin") in Hb by discriminate.
  assert (Hbar : PyDict.get "barcodes" d6 = PyDict.get "barcodes" data).
  { rewrite H6, H3 by discriminate. reflexivity. }
  assert (Hgt : PyDict.get "gtin" d6 = PyDict.get "gtin" data).
  { rewrite H6, H3 by discriminate. reflexivity. }
  destruct (PyDict.get "gtin" data) as [g|].
  - destruct (PyVal.truthy g).
    + destruct Hb as [Hb1 Hb2]. split; [exact Hb1|]. rewrite Hb2, Hbar. reflexivity.
    + rewrite Hb. auto.
  - rewrite Hb. auto.
Qed.

(** X6. When the dict has an [item_code], whatever [create_item] sends is
    the single POST to [Item] whose payload is the caller's dict as it is
    handed back.  That dict keeps the item code and the caller's other
    fields, has doctype [Item] and both item flags set to 1, and has
    [item_name], [item_group] and [stock_uom] with the caller's value or
    else the item code, the default group and [Stk].  A true [gtin] is never
    sent as a field: it is moved into a one-element [barcodes] list (typed
    EAN when 13 characters long, UPC-A otherwise), except for the
    placeholder 4017980000000, which is dropped. *)
Theorem create_item_payload (data : PyDict.t pyval) (st : api_state) (code : pyval) :
  PyDict.get "item_code" data = Some code ->
  let '(_, data', st') := Api.create_item remote data st in
  (sent st' = sent st
   \/ sent st' = (sent st ++ [mkRequest POST "Item" (Some data')])%list)
  /\ PyDict.get "item_code" data' = Some code
  /\ PyDict.get "doctype" data' = Some (VStr "Item")
  /\ PyDict.get "is_sales_item" data' = Some (VInt 1)
  /\ PyDict.get "is_purchase_item" data' = Some (VInt 1)
  /\ PyDict.get "item_name" data'
     = Some (match PyDict.get "item_name" data with Some v => v | None => code end)
  /\ PyDict.get "item_group" data'
     = Some (match PyDict.get "item_group" data with
             | Some v => v | None => VStr (default_item_group st) end)
  /\ PyDict.get "stock_uom" data'
     = Some (match PyDict.get "stock_uom" data with
             | Some v => v | None => VStr "Stk" end)
  /\ (forall k,
        ~ In k ["doctype"; "is_sales_item"; "is_purchase_item"; "item_name";
                "item_group"; "stock_uom"; "gtin"; "barcodes"] ->
        PyDict.get k data' = PyDict.get k data)
  /\ match PyDict.get "gtin" data with
     | Some g =>
         if PyVal.truthy g then
           PyDict.get "gtin" data' = None
           /\ PyDict.get "barcodes" data'
              = if PyVal.eq_str g "4017980000000" then PyDict.get "barcodes" data
                else Some (VList [VDict
                       [("barcode", g);
                        ("barcode_type",
                         VStr (if (String.length (PyVal.str g) =? 13)%nat
                               then "EAN" else "UPC-A"))]])
         else PyDict.get "gtin" data' = Some g
              /\ PyDict.get "barcodes" data' = PyDict.get "barcodes" data
     | None => PyDict.get "gtin" data' = None
               /\ PyDict.get "barcodes" data' = PyDict.get "barcodes" data
     end.
Proof.
  intros Hcode.
  destruct (create_item_dict data st code Hcode) as (d7 & Hrun & Hfields).
  pose proof (make_request_sent remote POST "Item" (Some d7) st) as Hs.
  destruct (Api.make_request remote POST "Item" (Some d7) st) as [r st1] eqn:Hreq.
  destruct (Hrun r st1 eq_refl) as (ok_msg & st' & -> & Hsent & _).
  split; [|exact Hfields].
  rewrite Hsent. tauto.
Qed.

End CreateItemFacts.

Lemma create_item_payload_witness :
  let data := [("item_code", VStr "A-1"); ("gtin", VStr "4006381333931")] in
  let data' := snd (fst (Api.create_item Sample.accepting data Sample.client)) in
  PyDict.get "gtin" data' = None
  /\ PyDict.get "barcodes" data'
     = Some (VList [VDict [("barcode", VStr "4006381333931");
                           ("barcode_type", VStr "EAN")]])
  /\ PyDict.get "item_name" data' = Some (VStr "A-1").
Proof.
  intros data data'.
  pose proof (create_item_payload Sample.accepting data Sample.client (VStr "A-1") eq_refl)
    as H.
  unfold data' in *.
  destruct (Api.create_item Sample.accepting data Sample.client) as [[ok_msg d] st'].
  destruct H as (_ & _ & _ & _ & _ & Hn & _ & _ & _ & Hg & Hb).
  simpl. split; [exact Hg|]. split; [exact Hb|exact Hn].
Defined.

(** ** Counters and progress of the import loop *)

Section LoopFacts.
Variable remote : list request -> request -> response.
Variable create_attribute :
  pyval -> list string -> pyval -> pyval -> pyval -> pyval ->
  api_state -> (bool * api_msg) * api_state.
Variable create_variant :
  pyval -> pyval -> PyDict.t pyval -> pyval -> PyDict.t pyval ->
  api_state -> (bool * api_msg) * api_state.

(** The run states that differ from [rs] in the client and the log only. *)
Lemma resolve_category_counters dry_run item_data rs :
  let rs1 := snd (Importer.resolve_category remote dry_run item_data rs) in
  success rs1 = success rs /\ errors rs1 = errors rs
  /\ skipped rs1 = skipped rs /\ progress rs1 = progress rs.
Proof.
  unfold Importer.resolve_category.
  destruct (Importer.gather_levels Importer.level_keys item_data) as [levels0 d0].
  assert (Hlive : forall (levels : list pyval) (d1 : PyDict.t pyval),
    let rs1 := snd (match levels with
      | [] => (Ok d1, rs)
      | _ :: _ =>
          if negb dry_run then
            match api rs with
            | Some st =>
                match Api.ensure_category_hierarchy remote levels st with
                | (Raise e, st') => (Raise e, Importer.set_api st' rs)
                | (Ok (final_category, logs), st') =>
                    (Ok (PyDict.set "item_group" (VStr final_category) d1),
                     Importer.add_logs logs (Importer.set_api st' rs))
                end
            | None => (Ok d1, rs)
            end
          else
            match Importer.strings_of levels with
            | None => (Raise TypeError, rs)
            | Some names =>
                (Ok (PyDict.set "item_group" (last levels VNone) d1),
                 Importer.add_log (LogDryHierarchy (PyStr.join " > " names)) rs)
            end
      end) in
    success rs1 = success rs /\ errors rs1 = errors rs
    /\ skipped rs1 = skipped rs /\ progress rs1 = progress rs).
  { intros [|v vs] d1; cbv beta iota zeta; [simpl; auto|].
    destruct dry_run; cbv beta iota delta [negb].
    - destruct (Importer.strings_of (v :: vs)); simpl; auto.
    - destruct (api rs) as [st|]; [|simpl; auto].
      destruct (Api.ensure_category_hierarchy remote (v :: vs) st)
        as [[[res logs]|e] st']; simpl; auto. }
  destruct (PyDict.get "category_path" d0) as [path|]; [|apply Hlive].
  destruct (api rs) as [st|]; [|apply Hlive].
  destruct (PyVal.truthy path); [|apply Hlive].
  destruct (Importer.parse_path_value path) as [[|p ps]|e];
    [apply Hlive|apply Hlive|simpl; auto].
Qed.

Lemma import_item_counters mode identifier item_data st rs :
  match Importer.import_item remote mode identifier item_data st rs with
  | (Completed, rs1) =>
      progress rs1 = progress rs
      /\ success rs1 + errors rs1 + skipped rs1 = S (success rs + errors rs + skipped rs)
      /\ errors rs <= errors rs1
  | (Continued, _) => False
  | (Raised _, rs1) =>
      progress rs1 = progress rs /\ success rs1 = success rs
      /\ errors rs1 = errors rs /\ skipped rs1 = skipped rs
  end.
Proof.
  unfold Importer.import_item.
  destruct (Api.get_item remote _ st) as [[existing|e] st1]; [|simpl; auto].
  destruct (PyVal.truthy existing); cbn [andb negb].
  - destruct (String.eqb mode "create"); [simpl; split; [reflexivity|lia]|].
    destruct (PyDict.get "item_code" item_data) as [code|]; [|simpl; auto].
    destruct (Api.update_item remote code item_data st1) as [[ok_msg d] st2].
    destruct (fst ok_msg); simpl; split; try reflexivity; lia.
  - destruct (String.eqb mode "update"); [simpl; split; [reflexivity|lia]|].
    destruct (PyDict.get "item_code" item_data) as [code|] eqn:Hcode.
    + destruct (create_item_dict remote item_data st1 code Hcode) as (d7 & Hrun & Hc & _).
      destruct (Api.make_request remote POST "Item" (Some d7) st1) as [r sta] eqn:Hreq.
      destruct (Hrun r sta eq_refl) as (ok_msg & st' & -> & _).
      destruct (fst ok_msg); [|simpl; split; [reflexivity|lia]].
      destruct (PyDict.get "standard_rate" d7) as [price|];
        [|simpl; split; [reflexivity|lia]].
      rewrite Hc.
      destruct (Api.create_item_price remote code price st') as [r' st3].
      simpl; split; [reflexivity|lia].
    + unfold Api.create_item. rewrite Hcode. simpl. split; [reflexivity|lia].
Qed.

Lemma import_item_group_counters identifier item_data st rs :
  match Importer.import_item_group remote identifier item_data st rs with
  | (Completed, rs1) =>
      progress rs1 = progress rs
      /\ success rs1 + errors rs1 + skipped rs1 = S (success rs + errors rs + skipped rs)
      /\ errors rs <= errors rs1
  | _ => False
  end.
Proof.
  unfold Importer.import_item_group.
  destruct (Api.create_item_group remote item_data st) as [[ok_msg d] st1].
  destruct (fst ok_msg); simpl; split; try reflexivity; lia.
Qed.

Lemma import_attribute_counters i item_data st rs :
  match Importer.import_attribute create_attribute i item_data st rs with
  | (Completed, rs1) =>
      progress rs1 = progress rs
      /\ success rs1 + errors rs1 + skipped rs1 = S (success rs + errors rs + skipped rs)
      /\ errors rs <= errors rs1
  | (Continued, rs1) =>
      progress rs1 = progress rs /\ success rs1 = success rs
      /\ errors rs1 = S (errors rs) /\ skipped rs1 = skipped rs
  | (Raised _, rs1) =>
      progress rs1 = progress rs /\ success rs1 = success rs
      /\ errors rs1 = errors rs /\ skipped rs1 = skipped rs
  end.
Proof.
  unfold Importer.import_attribute.
  destruct (negb (PyVal.truthy (Importer.get_or_empty "attribute_name" item_data)));
    [simpl; auto|].
  match goal with |- context [match ?v with Ok _ => _ | Raise _ => _ end] =>
    destruct v as [vs|e]
  end; [|simpl; auto].
  match goal with |- context [create_attribute ?a ?b ?c ?d ?e ?f ?g] =>
    destruct (create_attribute a b c d e f g) as [ok_msg st1]
  end.
  destruct (fst ok_msg); simpl; split; try reflexivity; lia.
Qed.

Lemma import_variant_counters i item_data st rs :
  match Importer.import_variant create_variant i item_data st rs with
  | (Completed, rs1) =>
      progress rs1 = progress rs
      /\ success rs1 + errors rs1 + skipped rs1 = S (success rs + errors rs + skipped rs)
      /\ errors rs <= errors rs1
  | (Continued, rs1) =>
      progress rs1 = progress rs /\ success rs1 = success rs
      /\ errors rs1 = S (errors rs) /\ skipped rs1 = skipped rs
  | (Raised _, rs1) =>
      progress rs1 = progress rs /\ success rs1 = success rs
      /\ errors rs1 = errors rs /\ skipped rs1 = skipped rs
  end.
Proof.
  unfold Importer.import_variant.
  match goal with |- context [if ?b then _ else _] => destruct b end; [simpl; auto|].
  destruct (Importer.collect_attributes item_data) as [|a attrs]; [simpl; auto|].
  match goal with |- context [create_variant ?a ?b ?c ?d ?e ?f] =>
    destruct (create_variant a b c d e f) as [ok_msg st1]
  end.
  destruct (fst ok_msg); simpl; split; try reflexivity; lia.
Qed.

(** What one pass through the loop body does to the counters. *)
Lemma row_body_counters dry_run mode import_type fm i row rs :
  match Importer.row_body remote create_attribute create_variant
          dry_run mode import_type fm i row rs with
  | (Completed, rs1) =>
      progress rs1 = progress rs
      /\ errors rs <= errors rs1
      /\ (Importer.known_import_type import_type = true ->
          success rs1 + errors rs1 + skipped rs1
          = S (success rs + errors rs + skipped rs))
  | (Continued, rs1) =>
      progress rs1 = progress rs /\ success rs1 = success rs
      /\ errors rs1 = S (errors rs) /\ skipped rs1 = skipped rs
  | (Raised _, rs1) =>
      progress rs1 = progress rs /\ success rs1 = success rs
      /\ errors rs1 = errors rs /\ skipped rs1 = skipped rs
  end.
Proof.
  unfold Importer.row_body.
  set (item_data := Importer.post_process (Importer.transform_row row fm)).
  set (identifier := Importer.identifier_of i item_data).
  assert (Hres : exists r rs0,
    (if Importer.is_item_import import_type
     then Importer.resolve_category remote dry_run item_data rs
     else (Ok item_data, rs)) = (r, rs0)
    /\ success rs0 = success rs /\ errors rs0 = errors rs
    /\ skipped rs0 = skipped rs /\ progress rs0 = progress rs).
  { destruct (Importer.is_item_import import_type).
    - pose proof (resolve_category_counters dry_run item_data rs) as H.
      destruct (Importer.resolve_category remote dry_run item_data rs) as [r rs0].
      exists r, rs0. split; [reflexivity|exact H].
    - exists (Ok item_data), rs. auto. }
  destruct Hres as (r & rs0 & -> & Hs & He & Hk & Hp).
  destruct r as [item_data1|e]; [|auto].
  destruct dry_run.
  { simpl. rewrite Hs, He, Hk, Hp. split; [reflexivity|]. split; [lia|]. intros _. lia. }
  destruct (api rs0) as [st|].
  2:{ simpl. rewrite Hs, He, Hk, Hp. split; [reflexivity|]. split; [lia|]. intros _. lia. }
  rewrite <- Hs, <- He, <- Hk, <- Hp.
  destruct (Importer.is_item_import import_type) eqn:Hit.
  { pose proof (import_item_counters mode identifier item_data1 st rs0) as H.
    destruct (Importer.import_item remote mode identifier item_data1 st rs0) as [[| |e] rs1];
      [|destruct H|exact H].
    destruct H as (H1 & H2 & H3). auto. }
  destruct (String.eqb import_type "kategorien") eqn:Hkat.
  { pose proof (import_item_group_counters identifier item_data1 st rs0) as H.
    destruct (Importer.import_item_group remote identifier item_data1 st rs0)
      as [[| |e] rs1]; [|destruct H|destruct H].
    destruct H as (H1 & H2 & H3). auto. }
  destruct (String.eqb import_type "attribute") eqn:Hattr.
  { pose proof (import_attribute_counters i item_data1 st rs0) as H.
    destruct (Importer.import_attribute create_attribute i item_data1 st rs0)
      as [[| |e] rs1]; [|exact H|exact H].
    destruct H as (H1 & H2 & H3). auto. }
  destruct (String.eqb import_type "varianten") eqn:Hvar.
  { pose proof (import_variant_counters i item_data1 st rs0) as H.
    destruct (Importer.import_variant create_variant i item_data1 st rs0)
      as [[| |e] rs1]; [|exact H|exact H].
    destruct H as (H1 & H2 & H3). auto. }
  split; [reflexivity|]. split; [lia|].
  unfold Importer.known_import_type, Importer.mem_str.
  unfold Importer.is_item_import, Importer.mem_str in Hit.
  cbn [existsb] in *. rewrite Hkat, Hattr, Hvar.
  apply orb_false_iff in Hit. destruct Hit as [-> Hit].
  apply orb_false_iff in Hit. destruct Hit as [-> _]. discriminate.
Qed.

Lemma process_row_counters dry_run mode import_type fm total i row rs :
  let rs1 := Importer.process_row remote create_attribute create_variant
               dry_run mode import_type fm total i row rs in
  (Importer.known_import_type import_type = true ->
   success rs1 + errors rs1 + skipped rs1 = S (success rs + errors rs + skipped rs))
  /\ errors rs <= errors rs1
  /\ (progress rs1 = (progress rs ++ [(S i, total)])%list
      \/ (progress rs1 = progress rs /\ errors rs1 = S (errors rs))).
Proof.
  unfold Importer.process_row.
  pose proof (row_body_counters dry_run mode import_type fm i row rs) as H.
  destruct (Importer.row_body remote create_attribute create_variant
              dry_run mode import_type fm i row rs) as [[| |e] rs1]; simpl.
  - destruct H as (Hp & He & Ht). rewrite Hp. auto.
  - destruct H as (Hp & Hs & He & Hk). rewrite Hs, He, Hk.
    split; [intros _; lia|]. split; [lia|]. right. auto.
  - destruct H as (Hp & Hs & He & Hk). rewrite Hs, He, Hk.
    split; [intros _; lia|]. split; [lia|]. right. auto.
Qed.

Lemma import_loop_counters dry_run mode import_type fm total rows : forall i rs,
  let rs1 := Importer.import_loop remote create_attribute create_variant
               dry_run mode import_type fm total i rows rs in
  (Importer.known_import_type import_type = true ->
   success rs1 + errors rs1 + skipped rs1
   = List.length rows + (success rs + errors rs + skipped rs))
  /\ errors rs <= errors rs1
  /\ exists js,
       progress rs1 = (progress rs ++ map (fun j => (S j, total)) js)%list
       /\ Sorted.StronglySorted lt js
       /\ Forall (fun j => i <= j < i + List.length rows) js
       /\ List.length rows + errors rs <= List.length js + errors rs1.
Proof.
  induction rows as [|row rest IH]; intros i rs.
  - simpl. split; [auto|]. split; [lia|]. exists []. rewrite app_nil_r.
    split; [reflexivity|]. split; [constructor|]. split; [constructor|]. simpl. lia.
  - cbn [Importer.import_loop].
    pose proof (process_row_counters dry_run mode import_type fm total i row rs)
      as (Ht & He & Hp).
    destruct (IH (S i) (Importer.process_row remote create_attribute create_variant
                           dry_run mode import_type fm total i row rs))
      as (Ht' & He' & js & Hp' & Hsorted & Hrange & Hlen).
    cbv zeta. split; [intros Hk; rewrite (Ht' Hk), (Ht Hk); simpl; lia|].
    split; [lia|].
    assert (Hrange' : Forall (fun j => i <= j < i + List.length (row :: rest)) js).
    { eapply Forall_impl; [|exact Hrange]. simpl. intros j Hj. lia. }
    destruct Hp as [Hp|[Hp Herr]].
    + exists (i :: js). rewrite Hp', Hp, <- app_assoc. split; [reflexivity|].
      split.
      { constructor; [exact Hsorted|].
        eapply Forall_impl; [|exact Hrange]. simpl. intros j Hj. lia. }
      split; [constructor; [simpl; lia|exact Hrange']|].
      simpl. lia.
    + exists js. rewrite Hp', Hp. split; [reflexivity|].
      split; [exact Hsorted|]. split; [exact Hrange'|]. simpl. lia.
Qed.

(** X7. For each of the five import kinds the loop has a branch for, and
    in dry and live runs alike, every row ends up in exactly one of the
    three counters: when the run is over, successes, errors and skipped
    rows add up to the number of rows, whatever the remote system and the
    attribute and variant calls answered. *)
Theorem run_import_counts_every_row (dry_run : bool) (mode import_type : string)
    (fm : PyDict.t FieldMapping) (rows : list SourceRow) (client : option api_state) :
  Importer.known_import_type import_type = true ->
  let rs := Importer.run_import remote create_attribute create_variant
              dry_run mode import_type fm rows client in
  success rs + errors rs + skipped rs = List.length rows.
Proof.
  intros Hk. unfold Importer.run_import. cbv zeta.
  destruct (import_loop_counters dry_run mode import_type fm (List.length rows) rows 0
              (mkRun client [] 0 0 0 [])) as (Ht & _).
  specialize (Ht Hk). simpl in *. lia.
Qed.

(** X8. Progress is reported in row order and never beyond the total: the
    reports of a run are [(j + 1, total)] for a strictly increasing
    selection of row indices [j] below the number of rows.  A row without a
    report is always a row counted as an error, so the reports and the
    errors together are at least as many as the rows. *)
Theorem run_import_progress_in_order (dry_run : bool) (mode import_type : string)
    (fm : PyDict.t FieldMapping) (rows : list SourceRow) (client : option api_state) :
  let rs := Importer.run_import remote create_attribute create_variant
              dry_run mode import_type fm rows client in
  exists js,
    progress rs = map (fun j => (S j, List.length rows)) js
    /\ Sorted.StronglySorted lt js
    /\ Forall (fun j => j < List.length rows) js
    /\ List.length rows <= List.length (progress rs) + errors rs.
Proof.
  unfold Importer.run_import. cbv zeta.
  destruct (import_loop_counters dry_run mode import_type fm (List.length rows) rows 0
              (mkRun client [] 0 0 0 [])) as (_ & _ & js & Hp & Hs & Hr & Hl).
  exists js. simpl in *. rewrite Hp, length_map.
  split; [reflexivity|]. split; [exact Hs|].
  split; [eapply Forall_impl; [|exact Hr]; simpl; intros; lia|lia].
Qed.

End LoopFacts.

Lemma run_import_counts_every_row_witness :
  let rs := Importer.run_import Sample.accepting Sample.no_attribute Sample.no_variant
              false "create" "artikel"
              [("Nr", new_mapping "Nr" "item_code")]
              [[("Nr", "A-1")]; [("Nr", "A-2")]] (Some Sample.client) in
  success rs + errors rs + skipped rs = 2.
Proof.
  apply (run_import_counts_every_row Sample.accepting Sample.no_attribute
           Sample.no_variant false "create" "artikel").
  reflexivity.
Defined.

(** ** Live runs: what is sent, and what is counted *)

Section LiveFacts.
Variable remote : list request -> request -> response.
Variable create_attribute :
  pyval -> list string -> pyval -> pyval -> pyval -> pyval ->
  api_state -> (bool * api_msg) * api_state.
Variable create_variant :
  pyval -> pyval -> PyDict.t pyval -> pyval -> PyDict.t pyval ->
  api_state -> (bool * api_msg) * api_state.

(** Without a client the category step neither parses nor resolves. *)
Lemma resolve_category_no_client item_data rs :
  api rs = None ->
  exists d, Importer.resolve_category remote false item_data rs = (Ok d, rs).
Proof.
  intros Hapi. unfold Importer.resolve_category. rewrite Hapi.
  destruct (Importer.gather_levels Importer.level_keys item_data) as [levels0 d0].
  destruct (PyDict.get "category_path" d0) as [path|];
    destruct levels0 as [|v vs]; cbn [negb]; eauto.
Qed.

Lemma process_row_no_client mode import_type fm total i row rs :
  api rs = None ->
  Importer.process_row remote create_attribute create_variant
    false mode import_type fm total i row rs
  = mkRun None
      (log rs ++ [LogNoApi (Importer.identifier_of i
                    (Importer.post_process (Importer.transform_row row fm)))])
      (S (success rs)) (errors rs) (skipped rs)
      (progress rs ++ [(S i, total)]).
Proof.
  intros Hapi. unfold Importer.process_row, Importer.row_body.
  set (item_data := Importer.post_process (Importer.transform_row row fm)).
  assert (H : exists d,
    (if Importer.is_item_import import_type
     then Importer.resolve_category remote false item_data rs
     else (Ok item_data, rs)) = (Ok d, rs)).
  { destruct (Importer.is_item_import import_type); [|eauto].
    now apply resolve_category_no_client. }
  destruct H as [d ->]. rewrite Hapi.
  unfold Importer.report_progress, Importer.inc_success, Importer.add_log. simpl.
  now rewrite Hapi.
Qed.

Lemma import_loop_no_client mode import_type fm total rows : forall i rs,
  api rs = None ->
  Importer.import_loop remote create_attribute create_variant
    false mode import_type fm total i rows rs
  = mkRun None
      (log rs ++ map (fun ir => LogNoApi (Importer.identifier_of (fst ir)
                        (Importer.post_process (Importer.transform_row (snd ir) fm))))
                     (combine (seq i (List.length rows)) rows))
      (List.length rows + success rs) (errors rs) (skipped rs)
      (progress rs ++ map (fun j => (S j, total)) (seq i (List.length rows))).
Proof.
  induction rows as [|row rest IH]; intros i rs Hapi.
  - simpl. rewrite !app_nil_r. destruct rs; simpl in *. now subst.
  - cbn [Importer.import_loop]. rewrite process_row_no_client by exact Hapi.
    rewrite IH by reflexivity. simpl. rewrite <- !app_assoc.
    f_equal. lia.
Qed.

(** X9. A live run without a client (no connection was ever set up) sends
    nothing and imports nothing, yet counts every row as a success: all
    rows are tallied as successes, none as error or skipped, each row is
    logged once as [NO API] with its identifier, and progress is reported
    for every row. *)
Theorem live_run_without_client_counts_success (mode import_type : string)
    (fm : PyDict.t FieldMapping) (rows : list SourceRow) :
  let n := List.length rows in
  Importer.run_import remote create_attribute create_variant
    false mode import_type fm rows None
  = mkRun None
      (map (fun ir => LogNoApi (Importer.identifier_of (fst ir)
                        (Importer.post_process (Importer.transform_row (snd ir) fm))))
           (combine (seq 0 n) rows)
       ++ [LogFinished n 0 0])
      n 0 0 (Importer.full_progress n).
Proof.
  cbv zeta. unfold Importer.run_import.
  rewrite import_loop_no_client by reflexivity.
  unfold Importer.add_log, Importer.full_progress. simpl.
  now rewrite Nat.add_0_r.
Qed.

Lemma process_row_unknown_type mode import_type fm total i row rs st :
  Importer.known_import_type import_type = false ->
  api rs = Some st ->
  Importer.process_row remote create_attribute create_variant
    false mode import_type fm total i row rs
  = Importer.report_progress i total rs.
Proof.
  intros Hk Hapi. unfold Importer.process_row, Importer.row_body.
  unfold Importer.known_import_type, Importer.mem_str in Hk. cbn [existsb] in Hk.
  repeat (apply orb_false_iff in Hk; destruct Hk as [? Hk]).
  unfold Importer.is_item_import, Importer.mem_str. cbn [existsb].
  repeat match goal with H : String.eqb _ _ = false |- _ => rewrite H; clear H end.
  cbn [orb]. now rewrite Hapi.
Qed.

Lemma import_loop_unknown_type mode import_type fm total rows st : forall i rs,
  Importer.known_import_type import_type = false ->
  api rs = Some st ->
  Importer.import_loop remote create_attribute create_variant
    false mode import_type fm total i rows rs
  = mkRun (api rs) (log rs) (success rs) (errors rs) (skipped rs)
      (progress rs ++ map (fun j => (S j, total)) (seq i (List.length rows))).
Proof.
  induction rows as [|row rest IH]; intros i rs Hk Hapi.
  - simpl. rewrite app_nil_r. now destruct rs.
  - cbn [Importer.import_loop].
    rewrite (process_row_unknown_type mode import_type fm total i row rs st Hk Hapi).
    rewrite IH by (auto; exact Hapi). simpl. now rewrite <- app_assoc.
Qed.

(** X10. The loop has no branch for an import kind other than the five it
    knows, and reports nothing about it: a live run with a client then
    sends no request, counts no row in any of the three tallies and logs
    no row, while progress runs through all rows as if they had been
    imported. *)
Theorem unknown_import_type_is_ignored (mode import_type : string)
    (fm : PyDict.t FieldMapping) (rows : list SourceRow) (st : api_state) :
  Importer.known_import_type import_type = false ->
  Importer.run_import remote create_attribute create_variant
    false mode import_type fm rows (Some st)
  = mkRun (Some st) [LogFinished 0 0 0] 0 0 0
      (Importer.full_progress (List.length rows)).
Proof.
  intros Hk. unfold Importer.run_import.
  rewrite (import_loop_unknown_type mode import_type fm (List.length rows) rows st 0
             (mkRun (Some st) [] 0 0 0 []) Hk eq_refl).
  reflexivity.
Qed.

End LiveFacts.

Lemma unknown_import_type_is_ignored_witness :
  Importer.run_import Sample.accepting Sample.no_attribute Sample.no_variant
    false "create" "lieferanten"
    [("Nr", new_mapping "Nr" "item_code")] [[("Nr", "A-1")]; [("Nr", "A-2")]]
    (Some Sample.client)
  = mkRun (Some Sample.client) [LogFinished 0 0 0] 0 0 0 [(1, 2); (2, 2)].
Proof.
  apply (unknown_import_type_is_ignored Sample.accepting Sample.no_attribute
           Sample.no_variant "create" "lieferanten").
  reflexivity.
Defined.

(** ** Import mode and the requests of an item import *)

Section ModeFacts.
Variable remote : list request -> request -> response.
Variable create_attribute :
  pyval -> list string -> pyval -> pyval -> pyval -> pyval ->
  api_state -> (bool * api_msg) * api_state.
Variable create_variant :
  pyval -> pyval -> PyDict.t pyval -> pyval -> PyDict.t pyval ->
  api_state -> (bool * api_msg) * api_state.

(** The class of requests [P] a mode allows: reads and item-group
    creations always, updates unless the mode is [create], item and price
    creations unless the mode is [update]. *)
Variable mode : string.
Variable P : request -> Prop.
Hypothesis P_get : forall r, req_method r = GET -> P r.
Hypothesis P_group : forall r, Api.is_group_create r = true -> P r.
Hypothesis P_put :
  String.eqb mode "create" = false -> forall r, req_method r = PUT -> P r.
Hypothesis P_post :
  String.eqb mode "update" = false -> forall r, Api.is_item_create r = true -> P r.

Lemma ensure_hierarchy_sent levels st :
  Api.sent_all P st (snd (Api.ensure_category_hierarchy remote levels st)).
Proof.
  unfold Api.ensure_category_hierarchy.
  destruct levels as [|v vs]; [apply sent_all_refl|].
  destruct (Api.filter_levels (v :: vs)) as [[|l ls]|e];
    [apply sent_all_refl| |apply sent_all_refl].
  eapply sent_all_weaken;
    [|apply (hierarchy_loop_chained remote (default_item_group st) (l :: ls) []);
      reflexivity].
  intros r [Hr|[Hr _]]; auto.
Qed.

(** A run state whose client went from [st] on by requests of [P] only. *)
Lemma resolve_category_sent item_data rs st :
  api rs = Some st ->
  exists st', api (snd (Importer.resolve_category remote false item_data rs)) = Some st'
              /\ Api.sent_all P st st'.
Proof.
  intros Hapi. unfold Importer.resolve_category.
  destruct (Importer.gather_levels Importer.level_keys item_data) as [levels0 d0].
  assert (Hlive : forall (levels : list pyval) (d1 : PyDict.t pyval),
    exists st', api (snd (match levels with
      | [] => (Ok d1, rs)
      | _ :: _ =>
          if negb false then
            match api rs with
            | Some st =>
                match Api.ensure_category_hierarchy remote levels st with
                | (Raise e, st') => (Raise e, Importer.set_api st' rs)
                | (Ok (final_category, logs), st') =>
                    (Ok (PyDict.set "item_group" (VStr final_category) d1),
                     Importer.add_logs logs (Importer.set_api st' rs))
                end
            | None => (Ok d1, rs)
            end
          else
            match Importer.strings_of levels with
            | None => (Raise TypeError, rs)
            | Some names =>
                (Ok (PyDict.set "item_group" (last levels VNone) d1),
                 Importer.add_log (LogDryHierarchy (PyStr.join " > " names)) rs)
            end
      end)) = Some st' /\ Api.sent_all P st st').
  { intros [|v vs] d1; cbv beta iota zeta delta [negb].
    - exists st. split; [exact Hapi|apply sent_all_refl].
    - rewrite Hapi.
      pose proof (ensure_hierarchy_sent (v :: vs) st) as H.
      destruct (Api.ensure_category_hierarchy remote (v :: vs) st)
        as [[[res logs]|e] st']; exists st'; simpl in *; auto. }
  destruct (PyDict.get "category_path" d0) as [path|]; [|apply Hlive].
  rewrite Hapi in *.
  destruct (PyVal.truthy path); [|apply Hlive].
  destruct (Importer.parse_path_value path) as [[|p ps]|e];
    [apply Hlive|apply Hlive|].
  exists st. split; [exact Hapi|apply sent_all_refl].
Qed.

Lemma update_item_sent code data st :
  Api.sent_all (fun r => req_method r = PUT) st
    (snd (Api.update_item remote code data st)).
Proof.
  unfold Api.update_item.
  match goal with |- context [Api.make_request remote PUT ?e ?d st] =>
    pose proof (make_request_sent_all remote (fun r => req_method r = PUT)
                  PUT e d st eq_refl) as H;
    destruct (Api.make_request remote PUT e d st) as [[body|e'] st1]
  end; exact H.
Qed.

Lemma create_item_price_sent code price st :
  Api.sent_all (fun r => Api.is_item_create r = true) st
    (snd (Api.create_item_price remote code price st)).
Proof.
  unfold Api.create_item_price.
  match goal with |- context [Api.make_request remote POST ?e ?d st] =>
    pose proof (make_request_sent_all remote (fun r => Api.is_item_create r = true)
                  POST e d st eq_refl) as H;
    destruct (Api.make_request remote POST e d st) as [[body|e'] st1]
  end; exact H.
Qed.

Lemma create_item_sent data st :
  Api.sent_all (fun r => Api.is_item_create r = true) st
    (snd (Api.create_item remote data st)).
Proof.
  destruct (PyDict.get "item_code" data) as [code|] eqn:Hcode.
  - destruct (create_item_dict remote data st code Hcode) as (d7 & Hrun & _).
    pose proof (make_request_sent_all remote (fun r => Api.is_item_create r = true)
                  POST "Item" (Some d7) st eq_refl) as H.
    destruct (Api.make_request remote POST "Item" (Some d7) st) as [r st1].
    destruct (Hrun r st1 eq_refl) as (ok_msg & st' & -> & Hs & _).
    simpl in *. eapply sent_all_same_sent; eauto.
  - unfold Api.create_item. rewrite Hcode. apply sent_all_refl.
Qed.

Lemma import_item_sent identifier item_data st rs :
  exists st',
    api (snd (Importer.import_item remote mode identifier item_data st rs)) = Some st'
    /\ Api.sent_all P st st'.
Proof.
  unfold Importer.import_item.
  pose proof (get_item_sent remote (Importer.get_or_empty "item_code" item_data) st) as Hg.
  apply (sent_all_weaken _ P _ _ P_get) in Hg.
  destruct (Api.get_item remote _ st) as [[existing|e] st1]; simpl in Hg;
    [|exists st1; auto].
  destruct (PyVal.truthy existing); cbn [andb negb].
  - destruct (String.eqb mode "create") eqn:Hm; [exists st1; auto|].
    destruct (PyDict.get "item_code" item_data) as [code|]; [|exists st1; auto].
    pose proof (update_item_sent code item_data st1) as Hu.
    apply (sent_all_weaken _ P _ _ (P_put eq_refl)) in Hu.
    destruct (Api.update_item remote code item_data st1) as [[ok_msg d] st2].
    simpl in Hu.
    destruct (fst ok_msg); exists st2; (split; [reflexivity|]);
      eapply sent_all_trans; eauto.
  - destruct (String.eqb mode "update") eqn:Hm; [exists st1; auto|].
    pose proof (create_item_sent item_data st1) as Hc.
    apply (sent_all_weaken _ P _ _ (P_post eq_refl)) in Hc.
    destruct (Api.create_item remote item_data st1) as [[ok_msg data'] st2].
    simpl in Hc.
    assert (H2 : Api.sent_all P st st2) by (eapply sent_all_trans; eauto).
    destruct (fst ok_msg); [|exists st2; auto].
    destruct (PyDict.get "standard_rate" data') as [price|]; [|exists st2; auto].
    destruct (PyDict.get "item_code" data') as [code|]; [|exists st2; auto].
    pose proof (create_item_price_sent code price st2) as Hp.
    apply (sent_all_weaken _ P _ _ (P_post eq_refl)) in Hp.
    destruct (Api.create_item_price remote code price st2) as [r st3].
    exists st3. split; [reflexivity|]. eapply sent_all_trans; eauto.
Qed.

Lemma process_row_item_sent import_type fm total i row rs st :
  Importer.is_item_import import_type = true ->
  api rs = Some st ->
  exists st',
    api (Importer.process_row remote create_attribute create_variant
           false mode import_type fm total i row rs) = Some st'
    /\ Api.sent_all P st st'.
Proof.
  intros Hit Hapi. unfold Importer.process_row, Importer.row_body. rewrite Hit.
  set (item_data := Importer.post_process (Importer.transform_row row fm)).
  destruct (resolve_category_sent item_data rs st Hapi) as (st1 & H1 & Hs1).
  destruct (Importer.resolve_category remote false item_data rs) as [[d|e] rs1];
    simpl in H1; [|exists st1; auto].
  rewrite H1.
  destruct (import_item_sent (Importer.identifier_of i item_data) d st1 rs1)
    as (st2 & H2 & Hs2).
  destruct (Importer.import_item remote mode _ d st1 rs1) as [[| |e] rs2];
    simpl in H2; exists st2; (split; [exact H2|eapply sent_all_trans; eauto]).
Qed.

Lemma import_loop_item_sent import_type fm total rows : forall i rs st,
  Importer.is_item_import import_type = true ->
  api rs = Some st ->
  exists st',
    api (Importer.import_loop remote create_attribute create_variant
           false mode import_type fm total i rows rs) = Some st'
    /\ Api.sent_all P st st'.
Proof.
  induction rows as [|row rest IH]; intros i rs st Hit Hapi.
  - exists st. split; [exact Hapi|apply sent_all_refl].
  - cbn [Importer.import_loop].
    destruct (process_row_item_sent import_type fm total i row rs st Hit Hapi)
      as (st1 & H1 & Hs1).
    destruct (IH (S i) _ st1 Hit H1) as (st2 & H2 & Hs2).
    exists st2. split; [exact H2|eapply sent_all_trans; eauto].
Qed.

End ModeFacts.

Section ModeTheorem.
Variable remote : list request -> request -> response.
Variable create_attribute :
  pyval -> list string -> pyval -> pyval -> pyval -> pyval ->
  api_state -> (bool * api_msg) * api_state.
Variable create_variant :
  pyval -> pyval -> PyDict.t pyval -> pyval -> PyDict.t pyval ->
  api_state -> (bool * api_msg) * api_state.

(** X11. The import mode bounds what a live item import may write,
    whatever the rows and the remote answers.  In mode [create] the run
    only appends requests and none of them is a PUT, so no existing item is
    modified.  In mode [update] none of them creates an item or an item
    price; creating item groups for the category hierarchy is not held back
    by the mode. *)
Theorem import_mode_bounds_writes (import_type : string)
    (fm : PyDict.t FieldMapping) (rows : list SourceRow) (st : api_state) :
  Importer.is_item_import import_type = true ->
  (exists st',
     api (Importer.run_import remote create_attribute create_variant
            false "create" import_type fm rows (Some st)) = Some st'
     /\ Api.sent_all (fun r => Api.is_put r = false) st st')
  /\ (exists st',
        api (Importer.run_import remote create_attribute create_variant
               false "update" import_type fm rows (Some st)) = Some st'
        /\ Api.sent_all (fun r => Api.is_item_create r = false) st st').
Proof.
  intros Hit. unfold Importer.run_import. split.
  - apply (import_loop_item_sent remote create_attribute create_variant "create"
             (fun r => Api.is_put r = false)); auto.
    + intros r Hr. unfold Api.is_put. now rewrite Hr.
    + intros r Hr. unfold Api.is_group_create, Api.is_put in *.
      destruct (req_method r); auto; discriminate.
    + discriminate.
    + intros _ r Hr. unfold Api.is_item_create, Api.is_put in *.
      destruct (req_method r); auto; discriminate.
  - apply (import_loop_item_sent remote create_attribute create_variant "update"
             (fun r => Api.is_item_create r = false)); auto.
    + intros r Hr. unfold Api.is_item_create. now rewrite Hr.
    + intros r Hr. unfold Api.is_group_create, Api.is_item_create in *.
      destruct (req_method r); auto.
      apply String.eqb_eq in Hr. rewrite Hr. reflexivity.
    + intros _ r Hr. unfold Api.is_item_create. now rewrite Hr.
    + discriminate.
Qed.

End ModeTheorem.

Lemma import_mode_bounds_writes_witness :
  let fm := [("Nr", new_mapping "Nr" "item_code")] in
  let rows := [[("Nr", "A-1")]] in
  (exists st',
     api (Importer.run_import Sample.populated Sample.no_attribute Sample.no_variant
            false "create" "artikel" fm rows (Some Sample.client)) = Some st'
     /\ Api.sent_all (fun r => Api.is_put r = false) Sample.client st')
  /\ (exists st',
        api (Importer.run_import Sample.accepting Sample.no_attribute Sample.no_variant
               false "update" "artikel" fm rows (Some Sample.client)) = Some st'
        /\ Api.sent_all (fun r => Api.is_item_create r = false) Sample.client st').
Proof.
  intros fm rows. split.
  - apply (import_mode_bounds_writes Sample.populated Sample.no_attribute
             Sample.no_variant "artikel" fm rows Sample.client). reflexivity.
  - apply (import_mode_bounds_writes Sample.accepting Sample.no_attribute
             Sample.no_variant "artikel" fm rows Sample.client). reflexivity.
Defined.

(** ** A remote system that refuses every request *)

Section DownFacts.
Variable remote : list request -> request -> response.
Variable create_attribute :
  pyval -> list string -> pyval -> pyval -> pyval -> pyval ->
  api_state -> (bool * api_msg) * api_state.
Variable create_variant :
  pyval -> pyval -> PyDict.t pyval -> pyval -> PyDict.t pyval ->
  api_state -> (bool * api_msg) * api_state.
Hypothesis remote_down : forall h r, exists msg, remote h r = RespError msg.

Lemma make_request_down m endpoint data st :
  exists e st1, Api.make_request remote m endpoint data st = (Raise e, st1).
Proof.
  unfold Api.make_request. destruct (negb (has_session st)); [eauto|].
  destruct (remote_down (sent st) (mkRequest m endpoint data)) as [msg ->]. eauto.
Qed.

Lemma update_item_down code data st :
  fst (fst (fst (Api.update_item remote code data st))) = false.
Proof.
  unfold Api.update_item.
  match goal with |- context [Api.make_request remote PUT ?e ?d st] =>
    destruct (make_request_down PUT e d st) as (e' & st1 & ->)
  end. reflexivity.
Qed.

Lemma create_item_down data st :
  fst (fst (fst (Api.create_item remote data st))) = false.
Proof.
  unfold Api.create_item.
  destruct (PyDict.get "item_code" data) as [code|]; [|reflexivity].
  match goal with |- context [Api.make_request remote POST ?e ?d st] =>
    destruct (make_request_down POST e d st) as (e' & st1 & ->)
  end. reflexivity.
Qed.

Lemma import_item_down mode identifier item_data st rs :
  success (snd (Importer.import_item remote mode identifier item_data st rs))
  = success rs.
Proof.
  unfold Importer.import_item.
  destruct (Api.get_item remote _ st) as [[existing|e] st1]; [|reflexivity].
  destruct (PyVal.truthy existing); cbn [andb negb].
  - destruct (String.eqb mode "create"); [reflexivity|].
    destruct (PyDict.get "item_code" item_data) as [code|]; [|reflexivity].
    pose proof (update_item_down code item_data st1) as H.
    destruct (Api.update_item remote code item_data st1) as [[ok_msg d] st2].
    simpl in H. rewrite H. reflexivity.
  - destruct (String.eqb mode "update"); [reflexivity|].
    pose proof (create_item_down item_data st1) as H.
    destruct (Api.create_item remote item_data st1) as [[ok_msg d] st2].
    simpl in H. rewrite H. reflexivity.
Qed.

Lemma process_row_down mode import_type fm total i row rs st :
  Importer.is_item_import import_type = true ->
  api rs = Some st ->
  let rs1 := Importer.process_row remote create_attribute create_variant
               false mode import_type fm total i row rs in
  success rs1 = success rs /\ exists st1, api rs1 = Some st1.
Proof.
  intros Hit Hapi. cbv zeta.
  unfold Importer.process_row, Importer.row_body. rewrite Hit.
  set (item_data := Importer.post_process (Importer.transform_row row fm)).
  pose proof (resolve_category_counters remote false item_data rs) as (Hs & _).
  destruct (resolve_category_sent remote (fun _ => True) (fun _ _ => I) (fun _ _ => I)
              item_data rs st Hapi) as (st1 & H1 & _).
  destruct (Importer.resolve_category remote false item_data rs) as [[d|e] rs1];
    simpl in Hs, H1; [|simpl; eauto].
  rewrite H1.
  pose proof (import_item_down mode (Importer.identifier_of i item_data) d st1 rs1) as H.
  destruct (import_item_sent remote mode (fun _ => True) (fun _ _ => I)
              (fun _ _ _ => I) (fun _ _ _ => I)
              (Importer.identifier_of i item_data) d st1 rs1) as (st2 & H2 & _).
  destruct (Importer.import_item remote mode _ d st1 rs1) as [[| |e] rs2];
    simpl in *; split; eauto; congruence.
Qed.

Lemma import_loop_down mode import_type fm total rows : forall i rs st,
  Importer.is_item_import import_type = true ->
  api rs = Some st ->
  success (Importer.import_loop remote create_attribute create_variant
             false mode import_type fm total i rows rs) = success rs.
Proof.
  induction rows as [|row rest IH]; intros i rs st Hit Hapi; [reflexivity|].
  cbn [Importer.import_loop].
  destruct (process_row_down mode import_type fm total i row rs st Hit Hapi)
    as (Hs & st1 & H1).
  rewrite (IH (S i) _ st1 Hit H1). exact Hs.
Qed.

(** X12. When the remote system refuses every request, a live item import
    counts no row as a success, in any import mode and whatever the client
    had cached: every row is counted as an error or as skipped. *)
Theorem unreachable_remote_imports_nothing (mode import_type : string)
    (fm : PyDict.t FieldMapping) (rows : list SourceRow) (st : api_state) :
  Importer.is_item_import import_type = true ->
  let rs := Importer.run_import remote create_attribute create_variant
              false mode import_type fm rows (Some st) in
  success rs = 0 /\ errors rs + skipped rs = List.length rows.
Proof.
  intros Hit. cbv zeta. unfold Importer.run_import.
  pose proof (import_loop_down mode import_type fm (List.length rows) rows 0
                (mkRun (Some st) [] 0 0 0 []) st Hit eq_refl) as Hs.
  destruct (import_loop_counters remote create_attribute create_variant
              false mode import_type fm (List.length rows) rows 0
              (mkRun (Some st) [] 0 0 0 [])) as (Ht & _).
  assert (Hk : Importer.known_import_type import_type = true).
  { unfold Importer.is_item_import, Importer.known_import_type, Importer.mem_str in *.
    cbn [existsb] in *.
    apply orb_true_iff in Hit. destruct Hit as [->|Hit]; [reflexivity|].
    apply orb_true_iff in Hit. destruct Hit as [->|Hit]; [|discriminate].
    now rewrite orb_true_r. }
  specialize (Ht Hk). simpl in *. split; [exact Hs|]. lia.
Qed.

End DownFacts.

Lemma unreachable_remote_imports_nothing_witness :
  let rs := Importer.run_import Sample.offline Sample.no_attribute Sample.no_variant
              false "update" "artikel"
              [("Nr", new_mapping "Nr" "item_code")]
              [[("Nr", "A-1")]; [("Nr", "A-2")]] (Some Sample.client) in
  success rs = 0 /\ errors rs + skipped rs = 2.
Proof.
  apply (unreachable_remote_imports_nothing Sample.offline Sample.no_attribute
           Sample.no_variant).
  - intros h r. exists "connection refused". reflexivity.
  - reflexivity.
Defined.

(** ** More on the mapping set *)

Section MappingInvariants.

Lemma keyed_set fm c m :
  Mapping.keyed fm -> source_column m = c -> Mapping.keyed (PyDict.set c m fm).
Proof.
  intros Hk Hm c' m' H.
  destruct (String.eqb c c') eqn:E.
  - apply String.eqb_eq in E. subst c'.
    rewrite PyDictFacts.get_set_same in H. now inversion H; subst.
  - apply String.eqb_neq in E.
    rewrite PyDictFacts.get_set_other in H by congruence. now apply Hk.
Qed.

Lemma keyed_remove fm c : Mapping.keyed fm -> Mapping.keyed (PyDict.remove c fm).
Proof.
  intros Hk c' m' H.
  destruct (String.eqb c c') eqn:E.
  - apply String.eqb_eq in E. subst c'.
    rewrite PyDictFacts.get_remove_same in H. discriminate.
  - apply String.eqb_neq in E.
    rewrite PyDictFacts.get_remove_other in H by congruence. now apply Hk.
Qed.

Lemma keyed_evict source_col target items st :
  Mapping.keyed (field_mappings st) ->
  Mapping.keyed (field_mappings
                   (fold_left (Mapping.evict_step source_col target) items st)).
Proof.
  intros Hk c m H. rewrite evict_fold_get in H.
  destruct (existsb _ items); [discriminate|]. now apply Hk.
Qed.

(** The eviction loop never removes the column being assigned. *)
Lemma evict_fold_get_self source_col target items st :
  PyDict.get source_col
    (field_mappings (fold_left (Mapping.evict_step source_col target) items st))
  = PyDict.get source_col (field_mappings st).
Proof.
  rewrite evict_fold_get.
  replace (existsb _ items) with false; [reflexivity|].
  symmetry. induction items as [|[k m] r IH]; [reflexivity|].
  cbn [existsb]. rewrite IH, orb_false_r.
  unfold Mapping.evicted_by. cbn [fst snd].
  destruct (String.eqb k source_col) eqn:E; [reflexivity|].
  cbn [negb andb]. now rewrite andb_false_r.
Qed.

Lemma keyed_on_mapping_changed c t st :
  Mapping.keyed (field_mappings st) ->
  Mapping.keyed (field_mappings (Mapping.on_mapping_changed c t st)).
Proof.
  intros Hk. unfold Mapping.on_mapping_changed.
  destruct (negb (PyStr.is_empty t)).
  - cbn [field_mappings].
    pose proof (keyed_evict c t (field_mappings st) st Hk) as Hk'.
    destruct (PyDict.get c (field_mappings (fold_left _ (field_mappings st) st)))
      as [m|] eqn:E.
    + apply keyed_set; [exact Hk'|]. simpl. now apply Hk'.
    + now apply keyed_set.
  - destruct (PyDict.mem c (field_mappings st)); [|exact Hk].
    now apply keyed_remove.
Qed.

Lemma keyed_create_rows rules cols : forall fm,
  Mapping.keyed fm -> Mapping.keyed (snd (Mapping.create_rows rules cols fm)).
Proof.
  induction cols as [|c r IH]; intros fm Hk; [exact Hk|].
  cbn [Mapping.create_rows]. unfold Mapping.create_mapping_row.
  match goal with |- context [Mapping.create_rows rules r ?f] =>
    specialize (IH f); destruct (Mapping.create_rows rules r f) as [rows fm2]
  end.
  apply IH. destruct (PyStr.is_empty _); [exact Hk|]. now apply keyed_set.
Qed.

Lemma keyed_auto_map_loop rules cs : forall fm used n,
  Mapping.keyed fm ->
  let '(_, fm', _, _) := Mapping.auto_map_loop rules cs fm used n in
  Mapping.keyed fm'.
Proof.
  induction cs as [|c r IH]; intros fm used n Hk; [exact Hk|].
  cbn [Mapping.auto_map_loop].
  destruct (negb (PyStr.is_empty _) && negb (Mapping.mem_str _ used)).
  - match goal with |- context [Mapping.auto_map_loop rules r ?f ?u ?k] =>
      specialize (IH f u k);
      destruct (Mapping.auto_map_loop rules r f u k) as [[[r' fm'] used'] n']
    end.
    apply IH. now apply keyed_set.
  - specialize (IH fm used n Hk).
    destruct (Mapping.auto_map_loop rules r fm used n) as [[[r' fm'] used'] n'].
    exact IH.
Qed.

Lemma keyed_ai_map_loop ai cs : forall fm used n,
  Mapping.keyed fm ->
  let '(_, fm', _, _) := Mapping.ai_map_loop ai cs fm used n in
  Mapping.keyed fm'.
Proof.
  induction cs as [|c r IH]; intros fm used n Hk; [exact Hk|].
  cbn [Mapping.ai_map_loop].
  destruct (PyDict.get (source_text c) ai) as [target|].
  - destruct (negb (Mapping.mem_str target used)).
    + match goal with |- context [Mapping.ai_map_loop ai r ?f ?u ?k] =>
        specialize (IH f u k);
        destruct (Mapping.ai_map_loop ai r f u k) as [[[r' fm'] used'] n']
      end.
      apply IH. now apply keyed_set.
    + specialize (IH fm used n Hk).
      destruct (Mapping.ai_map_loop ai r fm used n) as [[[r' fm'] used'] n'].
      exact IH.
  - specialize (IH fm used n Hk).
    destruct (Mapping.ai_map_loop ai r fm used n) as [[[r' fm'] used'] n'].
    exact IH.
Qed.

(** X13. Every way the application changes the mapping set keeps each
    mapping filed under its own source column: if the key of every entry
    equals the [source_column] of its mapping, the same holds after the
    mapping list is rebuilt, a target is picked or cleared, an auto-mapping
    or AI-mapping pass, a change of transform or default value, and
    clearing. *)
Theorem mappings_stay_keyed (rules ai : PyDict.t string) (cols : list string)
    (c t tr dv : string) (i : nat) (st : MappingState) :
  Mapping.keyed (field_mappings st) ->
  Mapping.keyed (field_mappings (Mapping.update_mapping_list rules cols st))
  /\ Mapping.keyed (field_mappings (Mapping.on_mapping_changed c t st))
  /\ Mapping.keyed (field_mappings (Mapping.select_target i t st))
  /\ Mapping.keyed (field_mappings (Mapping.auto_map_fields rules st))
  /\ Mapping.keyed (field_mappings (Mapping.run_ai_mapping ai st))
  /\ Mapping.keyed (field_mappings (Mapping.on_transform_changed c tr st))
  /\ Mapping.keyed (field_mappings (Mapping.on_default_changed c dv st))
  /\ Mapping.keyed (field_mappings (Mapping.clear_mappings st)).
Proof.
  intros Hk.
  split.
  { unfold Mapping.update_mapping_list.
    pose proof (keyed_create_rows rules cols (field_mappings st) Hk) as H.
    destruct (Mapping.create_rows rules cols (field_mappings st)); exact H. }
  split; [now apply keyed_on_mapping_changed|].
  split.
  { unfold Mapping.select_target.
    destruct (nth_error (controls st) i); [|exact Hk].
    now apply keyed_on_mapping_changed. }
  split.
  { unfold Mapping.auto_map_fields.
    pose proof (keyed_auto_map_loop rules (controls st) (field_mappings st) [] 0 Hk) as H.
    destruct (Mapping.auto_map_loop rules (controls st) (field_mappings st) [] 0)
      as [[[cs fm] used] n]. exact H. }
  split.
  { unfold Mapping.run_ai_mapping. destruct ai as [|p ai']; [exact Hk|].
    pose proof (keyed_ai_map_loop (p :: ai') (controls st) (field_mappings st) [] 0 Hk) as H.
    destruct (Mapping.ai_map_loop (p :: ai') (controls st) (field_mappings st) [] 0)
      as [[[cs fm] used] n]. exact H. }
  split.
  { unfold Mapping.on_transform_changed.
    destruct (PyDict.get c (field_mappings st)) as [m|] eqn:E; [|exact Hk].
    apply keyed_set; [exact Hk|]. simpl. now apply Hk. }
  split.
  { unfold Mapping.on_default_changed.
    destruct (PyDict.get c (field_mappings st)) as [m|] eqn:E; [|exact Hk].
    apply keyed_set; [exact Hk|]. simpl. now apply Hk. }
  intros c' m H. discriminate.
Qed.

Lemma holds_set_same_target fm c m c' t :
  PyDict.get c fm = Some m ->
  forall m', target_field m' = target_field m ->
  (Mapping.holds (PyDict.set c m' fm) c' t <-> Mapping.holds fm c' t).
Proof.
  intros Hget m' Ht. unfold Mapping.holds.
  destruct (String.eqb c c') eqn:E.
  - apply String.eqb_eq in E. subst c'. rewrite PyDictFacts.get_set_same, Hget.
    split; intros (x & Hx & Hxt); inversion Hx; subst; eexists; split; eauto; congruence.
  - apply String.eqb_neq in E. rewrite PyDictFacts.get_set_other by congruence.
    reflexivity.
Qed.

(** X14. The target of a column and its transform and default value are
    kept apart.  Picking another target for a column that is mapped keeps
    its transform and default value; for a column that is not mapped it
    stores a fresh mapping with transform [none] and an empty default.
    Changing a transform or a default value never changes which column
    holds which target, and for a column that is not mapped it is dropped:
    a target picked afterwards still gets the fresh mapping. *)
Theorem target_and_settings_independent (st : MappingState) (c target : string) :
  PyStr.is_empty target = false ->
  PyDict.get c (field_mappings (Mapping.on_mapping_changed c target st))
  = Some (match PyDict.get c (field_mappings st) with
          | Some m => with_target m target
          | None => new_mapping c target
          end)
  /\ (forall tr c' t,
        Mapping.holds (field_mappings (Mapping.on_transform_changed c tr st)) c' t
        <-> Mapping.holds (field_mappings st) c' t)
  /\ (forall dv c' t,
        Mapping.holds (field_mappings (Mapping.on_default_changed c dv st)) c' t
        <-> Mapping.holds (field_mappings st) c' t)
  /\ (PyDict.get c (field_mappings st) = None ->
      forall tr dv,
        PyDict.get c (field_mappings
          (Mapping.on_mapping_changed c target
             (Mapping.on_default_changed c dv (Mapping.on_transform_changed c tr st))))
        = Some (new_mapping c target)).
Proof.
  intros Hne.
  assert (H1 : forall st0,
    PyDict.get c (field_mappings (Mapping.on_mapping_changed c target st0))
    = Some (match PyDict.get c (field_mappings st0) with
            | Some m => with_target m target
            | None => new_mapping c target
            end)).
  { intros st0. unfold Mapping.on_mapping_changed. rewrite Hne. cbn [negb field_mappings].
    rewrite evict_fold_get_self.
    destruct (PyDict.get c (field_mappings st0)); apply PyDictFacts.get_set_same. }
  split; [apply H1|].
  split.
  { intros tr c' t. unfold Mapping.on_transform_changed.
    destruct (PyDict.get c (field_mappings st)) as [m|] eqn:E; [|reflexivity].
    cbn [field_mappings]. now apply (holds_set_same_target _ _ m). }
  split.
  { intros dv c' t. unfold Mapping.on_default_changed.
    destruct (PyDict.get c (field_mappings st)) as [m|] eqn:E; [|reflexivity].
    cbn [field_mappings]. now apply (holds_set_same_target _ _ m). }
  intros Hnone tr dv. rewrite H1.
  unfold Mapping.on_transform_changed. rewrite Hnone. cbv beta iota.
  unfold Mapping.on_default_changed. rewrite Hnone. cbv beta iota.
  now rewrite Hnone.
Qed.

Lemma validate_suggestion_In raw cols targets s t :
  In (s, t) (Mapping.validate_suggestion raw cols targets) ->
  In (s, t) raw /\ In s cols /\ In t targets.
Proof.
  induction raw as [|[s0 t0] r IH]; simpl; [tauto|].
  destruct (Mapping.mem_str s0 cols && Mapping.mem_str t0 targets) eqn:E.
  - intros [H|H].
    + inversion H; subst. apply andb_true_iff in E. destruct E as [E1 E2].
      apply mem_str_In in E1. apply mem_str_In in E2. auto.
    + destruct (IH H) as (? & ? & ?). auto.
  - intros H. destruct (IH H) as (? & ? & ?). auto.
Qed.

Lemma ai_map_loop_origin ai cs : forall fm used n,
  let '(_, fm', _, _) := Mapping.ai_map_loop ai cs fm used n in
  forall c t, Mapping.holds fm' c t ->
    Mapping.holds fm c t
    \/ (PyDict.get c ai = Some t /\ exists row, In row cs /\ source_text row = c).
Proof.
  induction cs as [|row r IH]; intros fm used n; [simpl; auto|].
  cbn [Mapping.ai_map_loop].
  assert (Hskip :
    let '(_, fm', _, _) :=
      (let '(r', fm', used', n') := Mapping.ai_map_loop ai r fm used n in
       (row :: r', fm', used', n')) in
    forall c t, Mapping.holds fm' c t ->
      Mapping.holds fm c t
      \/ (PyDict.get c ai = Some t
          /\ exists row0, In row0 (row :: r) /\ source_text row0 = c)).
  { specialize (IH fm used n).
    destruct (Mapping.ai_map_loop ai r fm used n) as [[[r' fm'] used'] n'].
    intros c t H. destruct (IH c t H) as [?|(Hg & row0 & Hin & Hs)]; [auto|].
    right. split; [exact Hg|]. exists row0. split; [now right|exact Hs]. }
  destruct (PyDict.get (source_text row) ai) as [target|] eqn:Hai; [|exact Hskip].
  destruct (negb (Mapping.mem_str target used)); [|exact Hskip].
  match goal with |- context [Mapping.ai_map_loop ai r ?f ?u ?k] =>
    specialize (IH f u k);
    destruct (Mapping.ai_map_loop ai r f u k) as [[[r' fm'] used'] n']
  end.
  intros c t H. destruct (IH c t H) as [Hh|(Hg & row0 & Hin & Hs)].
  - destruct (String.eqb c (source_text row)) eqn:E.
    + apply String.eqb_eq in E. subst c. apply holds_set_same in Hh. subst t.
      right. split; [exact Hai|]. exists row. split; [now left|reflexivity].
    + apply String.eqb_neq in E. left. eapply holds_set_other; eauto.
  - right. split; [exact Hg|]. exists row0. split; [now right|exact Hs].
Qed.

(** X15. An AI-mapping pass only ever stores validated proposals: every
    pair of column and target held afterwards was held before the pass, or
    was proposed by the advisor for a row of the mapping list, names one of
    the source columns and names a key of the target catalog. *)
Theorem ai_mapping_stores_validated_proposals (raw : PyDict.t string)
    (cols targets : list string) (st : MappingState) (c t : string) :
  let ai := Mapping.validate_suggestion raw cols targets in
  Mapping.holds (field_mappings (Mapping.run_ai_mapping ai st)) c t ->
  Mapping.holds (field_mappings st) c t
  \/ (In (c, t) raw /\ In c cols /\ In t targets
      /\ exists row, In row (controls st) /\ source_text row = c).
Proof.
  cbv zeta. unfold Mapping.run_ai_mapping.
  destruct (Mapping.validate_suggestion raw cols targets) as [|p ai'] eqn:Hai;
    [auto|].
  rewrite <- Hai.
  pose proof (ai_map_loop_origin (Mapping.validate_suggestion raw cols targets)
                (controls st) (field_mappings st) [] 0) as H.
  destruct (Mapping.ai_map_loop _ (controls st) (field_mappings st) [] 0)
    as [[[cs fm] used] n].
  cbn [field_mappings]. intros Hh.
  destruct (H c t Hh) as [?|(Hg & Hrow)]; [auto|]. right.
  apply get_In in Hg. apply validate_suggestion_In in Hg.
  destruct Hg as (? & ? & ?). auto.
Qed.

End MappingInvariants.

Lemma mappings_stay_keyed_witness :
  let st := Mapping.update_mapping_list AUTO_MAPPING_RULES
              ["Artikel-Nr"; "VK Brutto"] Sample.no_mappings in
  Mapping.keyed (field_mappings (Mapping.on_mapping_changed "VK Brutto" "item_code" st))
  /\ Mapping.keyed (field_mappings (Mapping.auto_map_fields AUTO_MAPPING_RULES st)).
Proof.
  intros st.
  assert (H0 : Mapping.keyed (field_mappings Sample.no_mappings)).
  { intros c m H. discriminate. }
  destruct (mappings_stay_keyed AUTO_MAPPING_RULES [] ["Artikel-Nr"; "VK Brutto"]
              "" "" "" "" 0 Sample.no_mappings H0) as (H1 & _).
  destruct (mappings_stay_keyed AUTO_MAPPING_RULES [] [] "VK Brutto" "item_code" "" "" 0
              st H1) as (_ & H2 & _ & H3 & _).
  split; [exact H2|exact H3].
Defined.

Lemma target_and_settings_independent_witness :
  let st := Mapping.on_transform_changed "VK Brutto" "number"
              (Mapping.update_mapping_list AUTO_MAPPING_RULES ["VK Brutto"]
                 Sample.no_mappings) in
  PyDict.get "VK Brutto"
    (field_mappings (Mapping.on_mapping_changed "VK Brutto" "standard_rate" st))
  = Some (mkFieldMapping "VK Brutto" "standard_rate" "number" "").
Proof.
  intros st.
  destruct (target_and_settings_independent st "VK Brutto" "standard_rate" eq_refl)
    as (H & _).
  etransitivity; [exact H|vm_compute; reflexivity].
Defined.

Lemma ai_mapping_stores_validated_proposals_witness :
  let raw := [("Nr", "item_code"); ("Ghost", "item_name"); ("Name", "no_such_field")] in
  let st := mkMappingState [] [mkControl "Nr" ""; mkControl "Name" ""] [] in
  Mapping.holds (field_mappings st) "Nr" "item_code"
  \/ (In ("Nr", "item_code") raw /\ In "Nr" ["Nr"; "Name"]
      /\ In "item_code" ["item_code"; "item_name"]
      /\ exists row, In row (controls st) /\ source_text row = "Nr").
Proof.
  intros raw st.
  apply (ai_mapping_stores_validated_proposals raw ["Nr"; "Name"]
           ["item_code"; "item_name"] st "Nr" "item_code").
  cbv zeta. eexists. split; reflexivity.
Defined.

(** ** Auto-mapping a cleared list *)

Section AutoMapFresh.
Variable rules : PyDict.t string.

Lemma length_set_fresh (V : Type) (k : string) (v : V) (d : PyDict.t V) :
  PyDict.get k d = None -> List.length (PyDict.set k v d) = S (List.length d).
Proof.
  induction d as [|[k' v'] r IH]; simpl; [reflexivity|].
  destruct (String.eqb k' k); [discriminate|]. intros H. simpl. now rewrite IH.
Qed.

Lemma auto_map_loop_fresh cs : forall fm used n,
  (forall c m, PyDict.get c fm = Some m ->
     m = new_mapping c (Mapping.auto_map_target rules c)
     /\ In (Mapping.auto_map_target rules c) used) ->
  Forall (fun row => dropdown_value row = "") cs ->
  List.length fm = n ->
  let '(cs', fm', used', n') := Mapping.auto_map_loop rules cs fm used n in
  List.length fm' = n'
  /\ (forall c m, PyDict.get c fm = Some m -> PyDict.get c fm' = Some m)
  /\ map source_text cs' = map source_text cs
  /\ (forall row, In row cs' -> dropdown_value row <> "" ->
        Mapping.holds fm' (source_text row) (dropdown_value row))
  /\ (forall c m, PyDict.get c fm' = Some m ->
        PyDict.get c fm = Some m
        \/ exists row, In row cs' /\ source_text row = c
                       /\ dropdown_value row = target_field m).
Proof.
  induction cs as [|row r IH]; intros fm used n HJ Hblank Hlen.
  - simpl. split; [exact Hlen|]. split; [auto|]. split; [reflexivity|].
    split; [intros row []|auto].
  - cbn [Mapping.auto_map_loop].
    apply Forall_cons_iff in Hblank. destruct Hblank as [Hrow Hrest].
    set (target := Mapping.auto_map_target rules (source_text row)).
    destruct (negb (PyStr.is_empty target) && negb (Mapping.mem_str target used)) eqn:Hc.
    + apply andb_true_iff in Hc. destruct Hc as [_ Hunused].
      apply negb_true_iff in Hunused.
      assert (Hfresh : PyDict.get (source_text row) fm = None).
      { destruct (PyDict.get (source_text row) fm) as [m|] eqn:E; [|reflexivity].
        destruct (HJ _ _ E) as [_ Hin]. apply mem_str_In in Hin.
        fold target in Hin. congruence. }
      specialize (IH (PyDict.set (source_text row) (new_mapping (source_text row) target) fm)
                     (target :: used) (S n)).
      destruct (Mapping.auto_map_loop rules r _ (target :: used) (S n))
        as [[[r' fm'] used'] n'].
      destruct IH as (Hl & Hmono & Hsrc & Hshow & Horig).
      { intros c m Hg. destruct (String.eqb (source_text row) c) eqn:E.
        - apply String.eqb_eq in E. subst c.
          rewrite PyDictFacts.get_set_same in Hg. inversion Hg; subst.
          split; [reflexivity|now left].
        - apply String.eqb_neq in E.
          rewrite PyDictFacts.get_set_other in Hg by congruence.
          destruct (HJ _ _ Hg) as [? ?]. split; [assumption|now right]. }
      { exact Hrest. }
      { rewrite length_set_fresh by exact Hfresh. now rewrite Hlen. }
      split; [exact Hl|]. split.
      { intros c m Hg. apply Hmono.
        rewrite PyDictFacts.get_set_other; [exact Hg|]. intros ->. congruence. }
      split; [simpl; now rewrite Hsrc|]. split.
      { intros row0 [<-|Hin] Hne.
        - simpl. exists (new_mapping (source_text row) target).
          split; [|reflexivity]. apply Hmono. apply PyDictFacts.get_set_same.
        - now apply Hshow. }
      intros c m Hg. destruct (Horig c m Hg) as [Hg'|(row0 & Hin & Hs & Hd)].
      * destruct (String.eqb (source_text row) c) eqn:E.
        -- apply String.eqb_eq in E. subst c.
           rewrite PyDictFacts.get_set_same in Hg'. inversion Hg'; subst.
           right. eexists. split; [now left|]. split; reflexivity.
        -- apply String.eqb_neq in E.
           rewrite PyDictFacts.get_set_other in Hg' by congruence. now left.
      * right. exists row0. split; [now right|auto].
    + specialize (IH fm used n HJ Hrest Hlen).
      destruct (Mapping.auto_map_loop rules r fm used n) as [[[r' fm'] used'] n'].
      destruct IH as (Hl & Hmono & Hsrc & Hshow & Horig).
      split; [exact Hl|]. split; [exact Hmono|].
      split; [simpl; now rewrite Hsrc|]. split.
      { intros row0 [<-|Hin] Hne; [congruence|now apply Hshow]. }
      intros c m Hg. destruct (Horig c m Hg) as [?|(row0 & Hin & Hs & Hd)]; [now left|].
      right. exists row0. split; [now right|auto].
Qed.

(** X16. Clearing the mappings and then auto-mapping leaves the list and
    the mapping set in agreement: the rows are those of before, every row
    that shows a target shows the one stored for its column, every stored
    mapping is shown by a row of its column, and the number announced by
    the auto-mapping is the number of mappings stored. *)
Theorem auto_map_after_clear_consistent (st : MappingState) :
  let p := Mapping.auto_map_fields rules (Mapping.clear_mappings st) in
  map source_text (controls p) = map source_text (controls st)
  /\ Mapping.dropdowns_agree p
  /\ (forall c t, Mapping.holds (field_mappings p) c t ->
        exists row, In row (controls p) /\ source_text row = c
                    /\ dropdown_value row = t)
  /\ notices p
     = (notices st
        ++ [NoticeCleared; NoticeAutoMapped (List.length (field_mappings p))])%list.
Proof.
  cbv zeta. unfold Mapping.auto_map_fields, Mapping.clear_mappings, Mapping.dropdowns_agree.
  cbn [controls field_mappings notices].
  pose proof (auto_map_loop_fresh
                (map (fun c => mkControl (source_text c) "") (controls st)) [] [] 0) as H.
  destruct (Mapping.auto_map_loop rules _ [] [] 0) as [[[cs fm] used] n].
  destruct H as (Hl & _ & Hsrc & Hshow & Horig).
  { intros c m Hg. discriminate. }
  { apply Forall_forall. intros row Hin. apply in_map_iff in Hin.
    destruct Hin as (c & <- & _). reflexivity. }
  { reflexivity. }
  cbn [controls field_mappings notices].
  split; [rewrite Hsrc, map_map; reflexivity|].
  split; [exact Hshow|]. split.
  { intros c t (m & Hg & Ht). destruct (Horig c m Hg) as [Hg'|(row & Hin & Hs & Hd)];
      [discriminate|].
    exists row. split; [exact Hin|]. split; [exact Hs|congruence]. }
  rewrite Hl, <- app_assoc. reflexivity.
Qed.

End AutoMapFresh.

(** ** Several mappings feeding one target; the record after post-processing *)

Section RecordFacts.

(** X17. When several columns are mapped to the same target, the record
    of a row holds under that target the value of the last of them, in the
    order of the mapping set, whose transformed value is true, and no entry
    at all when none is.  So every value in the record is true and is the
    transformed value of a mapping of that target. *)
Theorem transform_row_last_true_value_wins (row : SourceRow)
    (fm : PyDict.t FieldMapping) (t : string) :
  let value e := Importer.apply_transform (transform (snd e))
                   (Importer.raw_value row (fst e) (snd e)) in
  PyDict.get t (Importer.transform_row row fm)
  = find PyVal.truthy
      (rev (map value
              (List.filter (fun e => String.eqb (target_field (snd e)) t) fm)))
  /\ forall v, PyDict.get t (Importer.transform_row row fm) = Some v ->
       PyVal.truthy v = true
       /\ exists c m, In (c, m) fm /\ target_field m = t
            /\ v = Importer.apply_transform (transform m) (Importer.raw_value row c m).
Proof.
  cbv zeta. split; [apply transform_row_get|]. intros v. apply transform_row_value.
Qed.

Lemma convert_brutto_frame d k :
  k <> "standard_rate_brutto" -> k <> "standard_rate" ->
  PyDict.get k (Importer.convert_brutto d) = PyDict.get k d.
Proof.
  intros H1 H2. unfold Importer.convert_brutto.
  destruct (PyDict.get "standard_rate_brutto" d) as [b|]; [|reflexivity].
  destruct (Importer.float_of_text (PyVal.str b)).
  - rewrite PyDictFacts.get_set_other by congruence.
    now apply PyDictFacts.get_remove_other.
  - now apply PyDictFacts.get_remove_other.
Qed.

Lemma convert_brutto_helper d :
  PyDict.get "standard_rate_brutto" (Importer.convert_brutto d) = None.
Proof.
  unfold Importer.convert_brutto.
  destruct (PyDict.get "standard_rate_brutto" d) as [b|] eqn:E; [|exact E].
  destruct (Importer.float_of_text (PyVal.str b)).
  - rewrite PyDictFacts.get_set_other by discriminate.
    apply PyDictFacts.get_remove_same.
  - apply PyDictFacts.get_remove_same.
Qed.

Lemma normalize_barcode_frame d k :
  k <> "barcode" -> k <> "gtin" ->
  PyDict.get k (Importer.normalize_barcode d) = PyDict.get k d.
Proof.
  intros H1 H2. unfold Importer.normalize_barcode.
  destruct (PyDict.get "barcode" d) as [b|]; [|reflexivity].
  repeat match goal with |- context [if ?c then _ else _] => destruct c end;
    rewrite ?PyDictFacts.get_set_other by congruence;
    now apply PyDictFacts.get_remove_other.
Qed.

Lemma normalize_barcode_helper d :
  PyDict.get "barcode" (Importer.normalize_barcode d) = None.
Proof.
  unfold Importer.normalize_barcode.
  destruct (PyDict.get "barcode" d) as [b|] eqn:E; [|exact E].
  repeat match goal with |- context [if ?c then _ else _] => destruct c end;
    rewrite ?PyDictFacts.get_set_other by discriminate;
    apply PyDictFacts.get_remove_same.
Qed.

Lemma invert_active_frame d k :
  k <> "disabled" ->
  PyDict.get k (Importer.invert_active d) = PyDict.get k d.
Proof.
  intros H. unfold Importer.invert_active.
  destruct (PyDict.get "disabled" d) as [[| b | n | x | s | l | dd]|];
    try reflexivity; now apply PyDictFacts.get_set_other.
Qed.

Lemma alias_description_frame d k :
  k <> "description_html" -> k <> "description" ->
  PyDict.get k (Importer.alias_description d) = PyDict.get k d.
Proof.
  intros H1 H2. unfold Importer.alias_description.
  destruct (PyDict.get "description_html" d) as [h|]; [|reflexivity].
  destruct (negb (PyDict.mem "description" d)).
  - rewrite PyDictFacts.get_set_other by congruence.
    now apply PyDictFacts.get_remove_other.
  - now apply PyDictFacts.get_remove_other.
Qed.

Lemma alias_description_helper d :
  PyDict.get "description_html" (Importer.alias_description d) = None.
Proof.
  unfold Importer.alias_description.
  destruct (PyDict.get "description_html" d) as [h|] eqn:E; [|exact E].
  destruct (negb (PyDict.mem "description" d)).
  - rewrite PyDictFacts.get_set_other by discriminate.
    apply PyDictFacts.get_remove_same.
  - apply PyDictFacts.get_remove_same.
Qed.

(** X18. After the field-specific processing a record has none of the
    three helper keys [standard_rate_brutto], [barcode] and
    [description_html], whatever it held before; and every key the
    processing has no rule for is passed through unchanged. *)
Theorem post_process_consumes_helper_keys (item_data : PyDict.t pyval) :
  (forall k, In k Importer.helper_keys ->
     PyDict.get k (Importer.post_process item_data) = None)
  /\ (forall k,
        ~ In k (Importer.helper_keys
                ++ ["standard_rate"; "gtin"; "disabled"; "description"])%list ->
        PyDict.get k (Importer.post_process item_data) = PyDict.get k item_data).
Proof.
  unfold Importer.post_process. split.
  - intros k [<-|[<-|[<-|[]]]].
    + rewrite alias_description_frame, invert_active_frame, normalize_barcode_frame
        by discriminate.
      apply convert_brutto_helper.
    + rewrite alias_description_frame, invert_active_frame by discriminate.
      apply normalize_barcode_helper.
    + apply alias_description_helper.
  - intros k Hk. simpl in Hk.
    rewrite alias_description_frame, invert_active_frame, normalize_barcode_frame,
      convert_brutto_frame; auto; intros ->; tauto.
Qed.

(** X19. What a row's record says under [disabled] after the processing.
    A text value is replaced by 0 when it is one of the words for active
    and by 1 otherwise.  Through the boolean transform only the true value
    ever reaches the record, so the flag can only come out as 0 or be
    absent: a column mapped to [disabled] alone with that transform never
    disables an item. *)
Theorem disabled_flag_after_processing (row : SourceRow)
    (fm : PyDict.t FieldMapping) :
  let record := Importer.post_process (Importer.transform_row row fm) in
  (forall s, PyDict.get "disabled" (Importer.transform_row row fm) = Some (VStr s) ->
     PyDict.get "disabled" record
     = Some (VInt (if Importer.mem_str (PyStr.lower s) Importer.active_words
                   then 0 else 1)))
  /\ ((forall c m, In (c, m) fm -> target_field m = "disabled" -> transform m = "bool") ->
      PyDict.get "disabled" record = None
      \/ PyDict.get "disabled" record = Some (VInt 0)).
Proof.
  cbv zeta. unfold Importer.post_process.
  rewrite alias_description_frame by discriminate.
  assert (Hin : PyDict.get "disabled"
                  (Importer.normalize_barcode
                     (Importer.convert_brutto (Importer.transform_row row fm)))
                = PyDict.get "disabled" (Importer.transform_row row fm)).
  { rewrite normalize_barcode_frame, convert_brutto_frame by discriminate. reflexivity. }
  unfold Importer.invert_active. rewrite Hin.
  split.
  - intros s Hs. rewrite Hs. apply PyDictFacts.get_set_same.
  - intros Hbool.
    destruct (PyDict.get "disabled" (Importer.transform_row row fm)) as [v|] eqn:Hv;
      [|left; rewrite Hin; reflexivity].
    destruct (transform_row_value row fm "disabled" v Hv) as (Ht & c & m & Hm & Htf & ->).
    rewrite (Hbool c m Hm Htf) in *.
    unfold Importer.apply_transform in *. cbn [String.eqb Ascii.eqb Bool.eqb] in *.
    cbn [PyVal.truthy] in Ht. rewrite Ht.
    right. apply PyDictFacts.get_set_same.
Qed.

End RecordFacts.

Lemma disabled_flag_after_processing_witness :
  let fm := [("Aktiv", mkFieldMapping "Aktiv" "disabled" "bool" "")] in
  (PyDict.get "disabled"
     (Importer.post_process (Importer.transform_row [("Aktiv", "nein")] fm)) = None
   \/ PyDict.get "disabled"
        (Importer.post_process (Importer.transform_row [("Aktiv", "nein")] fm))
      = Some (VInt 0))
  /\ PyDict.get "disabled"
       (Importer.post_process (Importer.transform_row [("Aktiv", "nein")] fm)) = None.
Proof.
  intros fm. split; [|reflexivity].
  apply (disabled_flag_after_processing [("Aktiv", "nein")] fm).
  intros c m [H|[]] _. now inversion H.
Defined.

(** ** Templates *)

Section TemplateFacts.

Lemma mapping_of_kwargs_asdict o :
  Template.mapping_of_kwargs (Template.asdict o) = Ok o.
Proof. destruct o. reflexivity. Qed.

Lemma mappings_of_list_asdict ms :
  Template.mappings_of_list (map Template.asdict ms) = Ok ms.
Proof.
  induction ms as [|o r IH]; [reflexivity|].
  cbn [map Template.mappings_of_list].
  rewrite mapping_of_kwargs_asdict. cbn [bind]. rewrite IH. reflexivity.
Qed.

(** X20. A template written by [to_dict] is read back by [from_dict]
    without error and unchanged: every field, and every mapping with its
    source column, target, transform and default value, in the same
    order. *)
Theorem template_round_trip (t : Template.ImportTemplate) :
  Template.from_dict (Template.to_dict t) = Ok t.
Proof.
  unfold Template.from_dict.
  change (Template.get_default "mappings" (VList []) (Template.to_dict t))
    with (VList (map Template.asdict (Template.mappings t))).
  cbn [Template.mappings_of]. rewrite mappings_of_list_asdict. cbn [bind].
  destruct t. reflexivity.
Qed.

End TemplateFacts.

(** ** [clean_string], [normalize_uom], [parse_number] and barcodes *)

Section UtilityFacts.

Lemma take_length n : forall s,
  String.length (PyFloat.take n s) = Nat.min n (String.length s).
Proof.
  induction n as [|k IH]; intros [|c r]; simpl; auto.
Qed.

Lemma take_prefix n : forall s, String.prefix (PyFloat.take n s) s = true.
Proof.
  induction n as [|k IH]; intros [|c r]; simpl; auto.
  destruct (ascii_dec c c); [apply IH|congruence].
Qed.

Lemma take_all n : forall s, String.length s <= n -> PyFloat.take n s = s.
Proof.
  induction n as [|k IH]; intros [|c r]; simpl; intros H; auto; try lia.
  rewrite IH by lia. reflexivity.
Qed.

Lemma prefix_refl s : String.prefix s s = true.
Proof.
  induction s as [|c r IH]; simpl; [reflexivity|].
  destruct (ascii_dec c c); [exact IH|congruence].
Qed.

Lemma limit_spec (r : string) (n : Z) :
  (0 < n)%Z ->
  let limited := if negb (n =? 0)%Z && (n <? Z.of_nat (String.length r))%Z
                 then Utils.slice_to n r else r in
  (Z.of_nat (String.length limited) <= n)%Z
  /\ String.prefix limited r = true
  /\ ((Z.of_nat (String.length r) <= n)%Z -> limited = r).
Proof.
  intros Hn. cbv zeta.
  replace (negb (n =? 0)%Z) with true
    by (symmetry; apply negb_true_iff; apply Z.eqb_neq; lia).
  cbn [andb]. destruct (n <? Z.of_nat (String.length r))%Z eqn:E.
  - apply Z.ltb_lt in E. unfold Utils.slice_to.
    replace (0 <=? n)%Z with true by (symmetry; apply Z.leb_le; lia).
    split; [rewrite take_length; lia|].
    split; [apply take_prefix|intros; lia].
  - apply Z.ltb_ge in E. split; [lia|]. split; [apply prefix_refl|reflexivity].
Qed.

(** X21. With a positive [max_length] the result of [clean_string] has at
    most that many characters and is the result without a limit, cut off:
    a prefix of it, and equal to it when that already fits. *)
Theorem clean_string_respects_max_length (value : pyval) (strip : bool) (n : Z) :
  (0 < n)%Z ->
  let limited := Utils.clean_string value strip (Some n) in
  let unlimited := Utils.clean_string value strip None in
  (Z.of_nat (String.length limited) <= n)%Z
  /\ String.prefix limited unlimited = true
  /\ ((Z.of_nat (String.length unlimited) <= n)%Z -> limited = unlimited).
Proof.
  intros Hn. cbv zeta. unfold Utils.clean_string.
  destruct value; try (apply limit_spec; exact Hn).
  simpl. split; [lia|]. split; reflexivity.
Qed.

Lemma uom_table_fixed k r :
  PyDict.get k Api.UOM_MAPPING = Some r ->
  PyStr.is_empty r = false
  /\ PyDict.get (PyStr.strip (PyStr.lower r)) Api.UOM_MAPPING = Some r.
Proof.
  intros H. apply get_In in H. unfold Api.UOM_MAPPING in H.
  repeat (destruct H as [H|H]; [inversion H; subst; split; reflexivity|]).
  destruct H.
Qed.

(** X22. [normalize_uom] does not depend on what it has cached, as long
    as the cache holds only entries of the unit table, and keeps the cache
    that way; and it is idempotent: normalizing its own result gives that
    result again. *)
Theorem normalize_uom_stable (uom : string) (cache cache' : PyDict.t string) :
  Api.uom_cache_ok cache -> Api.uom_cache_ok cache' ->
  fst (Api.normalize_uom uom cache) = fst (Api.normalize_uom uom [])
  /\ Api.uom_cache_ok (snd (Api.normalize_uom uom cache))
  /\ fst (Api.normalize_uom (fst (Api.normalize_uom uom cache)) cache')
     = fst (Api.normalize_uom uom cache).
Proof.
  intros Hc Hc'.
  assert (Hnorm : forall u c, Api.uom_cache_ok c ->
    fst (Api.normalize_uom u c)
    = if PyStr.is_empty u then "Stk"
      else match PyDict.get (PyStr.strip (PyStr.lower u)) Api.UOM_MAPPING with
           | Some r => r
           | None => u
           end).
  { intros u c Hok. unfold Api.normalize_uom.
    destruct (PyStr.is_empty u); [reflexivity|].
    destruct (PyDict.get (PyStr.strip (PyStr.lower u)) c) as [r|] eqn:E.
    - rewrite (Hok _ _ E). reflexivity.
    - destruct (PyDict.get (PyStr.strip (PyStr.lower u)) Api.UOM_MAPPING); reflexivity. }
  assert (Hempty : Api.uom_cache_ok []) by (intros k v H; discriminate).
  split; [now rewrite !Hnorm|]. split.
  - unfold Api.normalize_uom.
    destruct (PyStr.is_empty uom); [exact Hc|].
    destruct (PyDict.get (PyStr.strip (PyStr.lower uom)) cache) as [r|] eqn:E; [exact Hc|].
    destruct (PyDict.get (PyStr.strip (PyStr.lower uom)) Api.UOM_MAPPING) as [r|] eqn:E';
      [|exact Hc].
    intros k v. cbn [snd].
    destruct (String.eqb (PyStr.strip (PyStr.lower uom)) k) eqn:Ek.
    + apply String.eqb_eq in Ek. subst k. rewrite PyDictFacts.get_set_same.
      intros H. inversion H; subst. exact E'.
    + apply String.eqb_neq in Ek. rewrite PyDictFacts.get_set_other by congruence.
      apply Hc.
  - rewrite (Hnorm _ cache' Hc'), (Hnorm uom cache Hc).
    destruct (PyStr.is_empty uom) eqn:Eu; [reflexivity|].
    destruct (PyDict.get (PyStr.strip (PyStr.lower uom)) Api.UOM_MAPPING) as [r|] eqn:E.
    + destruct (uom_table_fixed _ _ E) as [-> ->]. reflexivity.
    + now rewrite Eu, E.
Qed.

(** X23. The flag [allow_empty] of [parse_number] changes nothing but the
    fallback: a call with the flag off returns what the call with the flag
    on returns, with 0.0 in place of [None]; so with the flag off the
    result is never [None], and the exception of a huge int is raised
    either way. *)
Theorem parse_number_flag_only_changes_fallback (value : pyval) :
  Utils.parse_number value false
  = match Utils.parse_number value true with
    | Ok None => Ok (Some Utils.zero)
    | r => r
    end.
Proof.
  unfold Utils.parse_number, Utils.parse_number_try.
  destruct value as [| b | n | x | s | l | d]; try reflexivity.
  - destruct (PyFloat.of_int n); reflexivity.
  - destruct s as [|c r]; [reflexivity|].
    destruct (PyStr.is_empty _); [reflexivity|].
    destruct (PyFloat.of_string _); reflexivity.
  - destruct (PyStr.is_empty _); [reflexivity|].
    destruct (PyFloat.of_string _); reflexivity.
  - destruct (PyStr.is_empty _); [reflexivity|].
    destruct (PyFloat.of_string _); reflexivity.
Qed.

End UtilityFacts.

Lemma clean_string_respects_max_length_witness :
  (Z.of_nat (String.length (Utils.clean_string (VStr "  Schraube M8  ") true (Some 5%Z)))
   <= 5)%Z
  /\ Utils.clean_string (VStr "  Schraube M8  ") true (Some 5%Z) = "Schra".
Proof.
  split; [|reflexivity].
  apply (clean_string_respects_max_length (VStr "  Schraube M8  ") true 5%Z). lia.
Defined.

Lemma normalize_uom_stable_witness :
  fst (Api.normalize_uom " KG " [("stk", "Stk")]) = fst (Api.normalize_uom " KG " [])
  /\ fst (Api.normalize_uom " KG " []) = "Kg".
Proof.
  split; [|reflexivity].
  assert (H0 : Api.uom_cache_ok [("stk", "Stk")]).
  { intros k v. cbn [PyDict.get]. destruct (String.eqb "stk" k) eqn:E; [|discriminate].
    apply String.eqb_eq in E. subst k. intros H. inversion H. reflexivity. }
  apply (normalize_uom_stable " KG " [("stk", "Stk")] [("stk", "Stk")] H0 H0).
Defined.

(** ** From a valid barcode to the payload *)

Section BarcodeFacts.
Variable remote : list request -> request -> response.
Variable create_attribute :
  pyval -> list string -> pyval -> pyval -> pyval -> pyval ->
  api_state -> (bool * api_msg) * api_state.
Variable create_variant :
  pyval -> pyval -> PyDict.t pyval -> pyval -> PyDict.t pyval ->
  api_state -> (bool * api_msg) * api_state.

Lemma is_valid_barcode_inv b :
  Utils.is_valid_barcode b = true ->
  PyStr.is_empty b = false
  /\ PyStr.isdigit (PyStr.strip b) = true
  /\ 8 <= String.length (PyStr.strip b)
  /\ existsb (String.eqb (PyStr.strip b)) Utils.INVALID_BARCODES = false.
Proof.
  unfold Utils.is_valid_barcode.
  destruct (PyStr.is_empty b); [discriminate|].
  destruct (PyStr.isdigit (PyStr.strip b)); [|discriminate]. cbn [negb].
  destruct (String.length (PyStr.strip b) <? 8)%nat eqn:El; [discriminate|].
  destruct (existsb _ Utils.INVALID_BARCODES); [discriminate|].
  intros _. apply Nat.ltb_ge in El. auto.
Qed.

Lemma long_not_empty s : 8 <= String.length s -> PyStr.is_empty s = false.
Proof. destruct s; simpl; [lia|reflexivity]. Qed.

(** The record of a row without category columns passes the category
    block unchanged. *)
Lemma gather_levels_none keys : forall item_data,
  (forall k, In k keys -> PyDict.get k item_data = None) ->
  Importer.gather_levels keys item_data = ([], item_data).
Proof.
  induction keys as [|k r IH]; intros item_data H; [reflexivity|].
  cbn [Importer.gather_levels]. rewrite (H k) by now left.
  apply IH. intros k' Hk'. apply H. now right.
Qed.

Lemma resolve_category_plain dry_run item_data rs :
  (forall k, In k ("category_path" :: Importer.level_keys) ->
             PyDict.get k item_data = None) ->
  Importer.resolve_category remote dry_run item_data rs = (Ok item_data, rs).
Proof.
  intros H. unfold Importer.resolve_category.
  rewrite gather_levels_none by (intros k Hk; apply H; now right).
  rewrite (H "category_path") by now left. reflexivity.
Qed.

Lemma make_request_connected m endpoint data st :
  has_session st = true ->
  let st' := snd (Api.make_request remote m endpoint data st) in
  sent st' = (sent st ++ [mkRequest m endpoint data])%list
  /\ has_session st' = true.
Proof.
  intros Hs. unfold Api.make_request. rewrite Hs. cbn [negb].
  destruct (remote (sent st) (mkRequest m endpoint data)); cbn; auto.
Qed.

Lemma get_item_session code st :
  has_session (snd (Api.get_item remote code st)) = has_session st.
Proof.
  unfold Api.get_item.
  destruct (negb (Api.hashable code)); [reflexivity|].
  destruct (Api.cache_get code (item_cache st)); [reflexivity|].
  match goal with |- context [Api.make_request remote GET ?e ?d st] =>
    pose proof (make_request_sent remote GET e d st) as H;
    destruct (Api.make_request remote GET e d st) as [r st1]
  end.
  destruct H as (_ & _ & _ & _ & Hs).
  destruct r as [body|e]; [|exact Hs].
  destruct (PyVal.truthy (Api.get_data body)); [|exact Hs].
  destruct (Api.subscript (Api.get_data body) "name"); exact Hs.
Qed.

(** What [import_item] sends for a record that carries a barcode under
    [gtin]. *)
Lemma import_item_barcode mode identifier data st rs code g :
  has_session st = true ->
  PyDict.get "item_code" data = Some code ->
  PyDict.get "gtin" data = Some g ->
  PyVal.truthy g = true ->
  PyVal.eq_str g "4017980000000" = false ->
  match Api.get_item remote code st with
  | (Ok existing, st1) =>
      exists st',
        api (snd (Importer.import_item remote mode identifier data st rs)) = Some st'
        /\ if PyVal.truthy existing
           then String.eqb mode "create" = false ->
                exists payload,
                  sent st'
                  = (sent st1
                     ++ [mkRequest PUT ("Item/" ++ PyVal.str code) (Some payload)])%list
                  /\ PyDict.get "gtin" payload = None
                  /\ PyDict.get "barcodes" payload = PyDict.get "barcodes" data
           else String.eqb mode "update" = false ->
                exists payload rest,
                  sent st'
                  = (sent st1 ++ mkRequest POST "Item" (Some payload) :: rest)%list
                  /\ PyDict.get "gtin" payload = None
                  /\ PyDict.get "barcodes" payload
                     = Some (VList [VDict
                          [("barcode", g);
                           ("barcode_type",
                            VStr (if (String.length (PyVal.str g) =? 13)%nat
                                  then "EAN" else "UPC-A"))]])
                  /\ forall r, In r rest -> req_endpoint r = "Item Price"
  | (Raise _, _) => True
  end.
Proof.
  intros Hs Hcode Hg Htrue Hplace.
  unfold Importer.import_item, Importer.get_or_empty. rewrite Hcode.
  pose proof (get_item_session code st) as Hs1.
  destruct (Api.get_item remote code st) as [[existing|e] st1]; [|exact I].
  cbn [snd] in Hs1. rewrite Hs in Hs1.
  destruct (PyVal.truthy existing); cbn [andb negb].
  - (* the item exists: [update_item] *)
    destruct (String.eqb mode "create") eqn:Hm.
    + eexists. split; [reflexivity|]. discriminate.
    + unfold Api.update_item.
      match goal with |- context [Api.make_request remote PUT ?e ?d st1] =>
        pose proof (make_request_connected PUT e d st1 Hs1) as [Hsent _];
        destruct (Api.make_request remote PUT e d st1) as [[body|e'] st2]
      end; cbn [snd fst] in *.
      * eexists. split; [reflexivity|]. intros _. eexists. split; [exact Hsent|].
        split; [apply PyDictFacts.get_remove_same|].
        now rewrite !PyDictFacts.get_remove_other by discriminate.
      * eexists. split; [reflexivity|]. intros _. eexists. split; [exact Hsent|].
        split; [apply PyDictFacts.get_remove_same|].
        now rewrite !PyDictFacts.get_remove_other by discriminate.
  - (* no such item: [create_item] *)
    destruct (String.eqb mode "update") eqn:Hm.
    + eexists. split; [reflexivity|]. discriminate.
    + destruct (create_item_dict remote data st1 code Hcode)
        as (d7 & Hrun & _ & _ & _ & _ & _ & _ & _ & _ & Hbar).
      rewrite Hg, Htrue, Hplace in Hbar. destruct Hbar as [Hb1 Hb2].
      pose proof (make_request_connected POST "Item" (Some d7) st1 Hs1) as [Hsent Hs2].
      destruct (Api.make_request remote POST "Item" (Some d7) st1) as [r stx] eqn:Hreq.
      cbn [snd] in Hsent, Hs2.
      destruct (Hrun r stx eq_refl) as (ok_msg & st2 & Hc & Hsame & Hok).
      rewrite Hc.
      assert (Hsent2 : sent st2
                       = (sent st1 ++ [mkRequest POST "Item" (Some d7)])%list)
        by now rewrite Hsame.
      destruct (fst ok_msg) eqn:Hfst.
      * destruct (PyDict.get "standard_rate" d7) as [price|].
        -- destruct (PyDict.get "item_code" d7) as [code'|].
           ++ assert (Hs2' : has_session st2 = true).
              { destruct (Hok eq_refl) as (body & _ & _ & name & _ & ->).
                exact Hs2. }
              unfold Api.create_item_price.
              match goal with |- context [Api.make_request remote POST ?e ?d st2] =>
                pose proof (make_request_connected POST e d st2 Hs2') as [Hp _];
                destruct (Api.make_request remote POST e d st2) as [[body|e'] st3]
              end; cbn [snd] in Hp;
                (eexists; split; [reflexivity|]; intros _;
                 eexists d7, [_]; split;
                 [rewrite Hp, Hsent2, <- app_assoc; reflexivity|];
                 split; [exact Hb1|]; split; [exact Hb2|];
                 intros r0 [<-|[]]; reflexivity).
           ++ eexists. split; [reflexivity|]. intros _. exists d7, [].
              split; [exact Hsent2|]. split; [exact Hb1|]. split; [exact Hb2|].
              intros r0 [].
        -- eexists. split; [reflexivity|]. intros _. exists d7, [].
           split; [exact Hsent2|]. split; [exact Hb1|]. split; [exact Hb2|].
           intros r0 [].
      * eexists. split; [reflexivity|]. intros _. exists d7, [].
        split; [exact Hsent2|]. split; [exact Hb1|]. split; [exact Hb2|].
        intros r0 [].
Qed.

(** X24. A barcode that [is_valid_barcode] accepts is stored, stripped,
    under [gtin] by the row processing.  What the live import of an item
    row (without category columns, on a connected client) then sends
    depends on whether the item exists: when it does not, and the mode is
    not "update", the POST that creates it carries the one-element
    [barcodes] list (typed EAN when 13 characters long, UPC-A otherwise)
    and no [gtin]; when it exists, and the mode is not "create", the PUT
    that updates it carries neither [gtin] nor a barcode entry of the row,
    so the barcode does not reach an existing item.  Two runs of one row
    with columns "Nr" and "EAN", against an empty and against a populated
    catalog, show both. *)
Theorem valid_barcode_sent_on_create_only (b : string) :
  Utils.is_valid_barcode b = true ->
  let g := VStr (PyStr.strip b) in
  let entry :=
    VList [VDict [("barcode", g);
                  ("barcode_type",
                   VStr (if (String.length (PyStr.strip b) =? 13)%nat
                         then "EAN" else "UPC-A"))]] in
  (forall record,
     PyDict.get "barcode" record = Some (VStr b) ->
     PyDict.get "gtin" (Importer.post_process record) = Some g)
  /\ (forall mode import_type fm total i row rs st code,
        let item_data := Importer.post_process (Importer.transform_row row fm) in
        let rs' := Importer.process_row remote create_attribute create_variant
                     false mode import_type fm total i row rs in
        Importer.is_item_import import_type = true ->
        api rs = Some st -> has_session st = true ->
        PyDict.get "barcode" (Importer.transform_row row fm) = Some (VStr b) ->
        PyDict.get "item_code" item_data = Some code ->
        (forall k, In k ("category_path" :: Importer.level_keys) ->
                   PyDict.get k item_data = None) ->
        match Api.get_item remote code st with
        | (Ok existing, st1) =>
            exists st',
              api rs' = Some st'
              /\ if PyVal.truthy existing
                 then String.eqb mode "create" = false ->
                      exists payload,
                        sent st'
                        = (sent st1
                           ++ [mkRequest PUT ("Item/" ++ PyVal.str code)
                                 (Some payload)])%list
                        /\ PyDict.get "gtin" payload = None
                        /\ PyDict.get "barcodes" payload
                           = PyDict.get "barcodes" item_data
                 else String.eqb mode "update" = false ->
                      exists payload rest,
                        sent st'
                        = (sent st1
                           ++ mkRequest POST "Item" (Some payload) :: rest)%list
                        /\ PyDict.get "gtin" payload = None
                        /\ PyDict.get "barcodes" payload = Some entry
                        /\ forall r, In r rest -> req_endpoint r = "Item Price"
        | (Raise _, _) => True
        end)
  /\ (let fm := [("Nr", new_mapping "Nr" "item_code");
                 ("EAN", new_mapping "EAN" "barcode")] in
      let rows := [[("Nr", "A-1"); ("EAN", " 4006381333931 ")]] in
      let sent_by outcome :=
        match outcome with
        | Started _ rs =>
            match api rs with
            | Some st => map (fun r => (req_method r, req_endpoint r,
                                        match req_data r with
                                        | Some d => PyDict.get "barcodes" d
                                        | None => None
                                        end,
                                        match req_data r with
                                        | Some d => PyDict.get "gtin" d
                                        | None => None
                                        end)) (sent st)
            | None => []
            end
        | _ => []
        end in
      sent_by (Importer.start_import Sample.accepting Sample.no_attribute
                 Sample.no_variant false "upsert" "artikel" fm rows
                 (Some Sample.client))
      = [(GET, "Item/A-1", None, None);
         (POST, "Item",
          Some (VList [VDict [("barcode", VStr "4006381333931");
                              ("barcode_type", VStr "EAN")]]), None)]
      /\ sent_by (Importer.start_import Sample.populated Sample.no_attribute
                    Sample.no_variant false "upsert" "artikel" fm rows
                    (Some Sample.client))
         = [(GET, "Item/A-1", None, None); (PUT, "Item/A-1", None, None)]).
Proof.
  intros Hv. cbv zeta.
  destruct (is_valid_barcode_inv b Hv) as (Hne & _ & Hlen & Hinv).
  pose proof (long_not_empty _ Hlen) as Hse.
  assert (Hpost : forall record,
            PyDict.get "barcode" record = Some (VStr b) ->
            PyDict.get "gtin" (Importer.post_process record)
            = Some (VStr (PyStr.strip b))).
  { intros record Hb. unfold Importer.post_process.
    rewrite alias_description_frame, invert_active_frame by discriminate.
    unfold Importer.normalize_barcode.
    rewrite convert_brutto_frame by discriminate. rewrite Hb.
    change (PyVal.str (VStr b)) with b.
    change (PyVal.truthy (VStr b)) with (negb (PyStr.is_empty b)).
    rewrite Hne, Hse. cbn [negb andb].
    replace (8 <=? String.length (PyStr.strip b))%nat with true
      by (symmetry; now apply Nat.leb_le).
    replace (Importer.mem_str (PyStr.strip b) ["0"; ""]) with false.
    + cbn [negb andb]. apply PyDictFacts.get_set_same.
    + symmetry. unfold Importer.mem_str. cbn [existsb].
      destruct (PyStr.strip b) as [|c1 [|c2 r]]; simpl in Hlen; try lia.
      simpl. destruct (Ascii.eqb c1 "0"); reflexivity. }
  assert (Hplace : PyVal.eq_str (VStr (PyStr.strip b)) "4017980000000" = false).
  { unfold Utils.INVALID_BARCODES in Hinv. cbn [existsb] in Hinv.
    repeat (apply orb_false_iff in Hinv; destruct Hinv as [? Hinv]).
    assumption. }
  split; [exact Hpost|]. split.
  - intros mode import_type fm total i row rs st code Hitem Hapi Hs Hb Hcode Hcat.
    pose proof (import_item_barcode mode
                  (Importer.identifier_of i
                     (Importer.post_process (Importer.transform_row row fm)))
                  (Importer.post_process (Importer.transform_row row fm))
                  st rs code (VStr (PyStr.strip b)) Hs Hcode (Hpost _ Hb)) as H.
    change (PyVal.truthy (VStr (PyStr.strip b)))
      with (negb (PyStr.is_empty (PyStr.strip b))) in H.
    rewrite Hse in H. specialize (H eq_refl Hplace).
    change (PyVal.str (VStr (PyStr.strip b))) with (PyStr.strip b) in H.
    unfold Importer.process_row, Importer.row_body.
    rewrite Hitem, resolve_category_plain by exact Hcat.
    cbv beta iota. rewrite Hapi.
    destruct (Api.get_item remote code st) as [[existing|e] st1]; [|exact I].
    destruct H as (st' & Hst' & Hrest).
    exists st'. split; [|exact Hrest].
    destruct (Importer.import_item remote mode _ _ st rs) as [[| |e] rs1];
      exact Hst'.
  - vm_compute. split; reflexivity.
Qed.

End BarcodeFacts.

Lemma valid_barcode_sent_on_create_only_witness :
  PyDict.get "gtin"
    (Importer.post_process [("item_code", VStr "A-1"); ("barcode", VStr " 4006381333931 ")])
  = Some (VStr "4006381333931").
Proof.
  apply (proj1 (valid_barcode_sent_on_create_only Sample.accepting
                  Sample.no_attribute Sample.no_variant
                  " 4006381333931 " eq_refl)).
  reflexivity.
Defined.

(** ** Picking a target: what else changes, and what the list shows *)

Section SelectFacts.

Lemma nodup_get (V : Type) (k : string) (v : V) (d : PyDict.t V) :
  NoDup (PyDict.keys d) -> In (k, v) d -> PyDict.get k d = Some v.
Proof.
  unfold PyDict.keys. induction d as [|[k0 v0] r IH]; simpl; [tauto|].
  intros Hnd [H|H].
  - inversion H; subst. now rewrite String.eqb_refl.
  - inversion Hnd as [|? ? Hnotin Hnd']; subst.
    destruct (String.eqb k0 k) eqn:E.
    + apply String.eqb_eq in E. subst k0. exfalso. apply Hnotin.
      apply in_map_iff. exists (k, v). auto.
    + now apply IH.
Qed.

(** Under distinct keys, a column is evicted exactly when it holds the
    target. *)
Lemma evicted_iff_holds c target other (fm : PyDict.t FieldMapping) :
  NoDup (PyDict.keys fm) -> other <> c ->
  existsb (fun it => Mapping.evicted_by c target it && String.eqb (fst it) other) fm
  = match PyDict.get other fm with
    | Some m => String.eqb (target_field m) target
    | None => false
    end.
Proof.
  intros Hnd Hne.
  destruct (existsb _ fm) eqn:E.
  - apply existsb_exists in E. destruct E as ([k m] & Hin & Hev).
    apply andb_true_iff in Hev. destruct Hev as [Hev Hk].
    cbn [fst] in Hk. apply String.eqb_eq in Hk. subst k.
    rewrite (nodup_get _ _ _ _ Hnd Hin).
    unfold Mapping.evicted_by in Hev. apply andb_true_iff in Hev.
    destruct Hev as [_ Ht]. cbn [snd] in Ht. now rewrite Ht.
  - destruct (PyDict.get other fm) as [m|] eqn:Hg; [|reflexivity].
    destruct (String.eqb (target_field m) target) eqn:Ht; [|reflexivity].
    apply get_In in Hg.
    assert (Hex : existsb (fun it => Mapping.evicted_by c target it
                                     && String.eqb (fst it) other) fm = true).
    { apply existsb_exists. exists (other, m). split; [exact Hg|].
      unfold Mapping.evicted_by. cbn [fst snd]. rewrite Ht, String.eqb_refl.
      apply String.eqb_neq in Hne. now rewrite Hne. }
    congruence.
Qed.

(** X25. Picking a target for a column touches no other column except
    its rivals: another column loses its mapping exactly when it held the
    picked target, and otherwise keeps its mapping as it was.  Clearing the
    target of a column changes no other column at all.  (The mapping set
    is a dict: its keys are distinct.) *)
Theorem retarget_touches_only_rivals (st : MappingState) (c target other : string) :
  NoDup (PyDict.keys (field_mappings st)) ->
  other <> c ->
  PyDict.get other (field_mappings (Mapping.on_mapping_changed c target st))
  = match PyDict.get other (field_mappings st) with
    | Some m =>
        if negb (PyStr.is_empty target) && String.eqb (target_field m) target
        then None else Some m
    | None => None
    end.
Proof.
  intros Hnd Hne.
  destruct (PyStr.is_empty target) eqn:Het.
  - unfold Mapping.on_mapping_changed. rewrite Het. cbn [negb andb].
    destruct (PyDict.mem c (field_mappings st)).
    + cbn [field_mappings]. rewrite PyDictFacts.get_remove_other by exact Hne.
      destruct (PyDict.get other (field_mappings st)); reflexivity.
    + destruct (PyDict.get other (field_mappings st)); reflexivity.
  - rewrite on_mapping_changed_get_other by assumption.
    rewrite evicted_iff_holds by assumption. cbn [negb andb].
    destruct (PyDict.get other (field_mappings st)) as [m|]; [|reflexivity].
    destruct (String.eqb (target_field m) target); reflexivity.
Qed.

Lemma set_first_dropdown_map col v cs :
  NoDup (map source_text cs) ->
  Mapping.set_first_dropdown col v cs
  = map (fun row => if String.eqb (source_text row) col
                    then mkControl (source_text row) v else row) cs.
Proof.
  induction cs as [|row r IH]; [reflexivity|].
  cbn [map Mapping.set_first_dropdown]. intros Hnd.
  inversion Hnd as [|? ? Hnotin Hnd']; subst.
  destruct (String.eqb (source_text row) col) eqn:E.
  - f_equal. apply String.eqb_eq in E.
    transitivity (map (fun x => x) r); [now rewrite map_id|].
    apply map_ext_in. intros row' Hin.
    destruct (String.eqb (source_text row') col) eqn:E'; [|reflexivity].
    apply String.eqb_eq in E'. exfalso. apply Hnotin.
    apply in_map_iff. exists row'. split; [congruence|exact Hin].
  - f_equal. now apply IH.
Qed.

Lemma set_registered_dropdown_map col v cs :
  NoDup (map source_text cs) ->
  Mapping.set_registered_dropdown col v cs
  = map (fun row => if String.eqb (source_text row) col
                    then mkControl (source_text row) v else row) cs.
Proof.
  intros Hnd. unfold Mapping.set_registered_dropdown.
  rewrite set_first_dropdown_map.
  - now rewrite <- map_rev, rev_involutive.
  - rewrite map_rev. apply NoDup_rev. exact Hnd.
Qed.

Lemma set_dropdown_at_map v cs : forall i c,
  NoDup (map source_text cs) ->
  nth_error cs i = Some c ->
  Mapping.set_dropdown_at i v cs
  = map (fun row => if String.eqb (source_text row) (source_text c)
                    then mkControl (source_text row) v else row) cs.
Proof.
  induction cs as [|row r IH]; intros i c Hnd Hnth; [destruct i; discriminate|].
  inversion Hnd as [|? ? Hnotin Hnd']; subst.
  destruct i as [|j]; cbn [Mapping.set_dropdown_at map].
  - simpl in Hnth. inversion Hnth; subst. rewrite String.eqb_refl. f_equal.
    transitivity (map (fun x => x) r); [now rewrite map_id|].
    apply map_ext_in. intros row' Hin.
    destruct (String.eqb (source_text row') (source_text c)) eqn:E'; [|reflexivity].
    apply String.eqb_eq in E'. exfalso. apply Hnotin.
    apply in_map_iff. exists row'. split; [exact E'|exact Hin].
  - simpl in Hnth.
    destruct (String.eqb (source_text row) (source_text c)) eqn:E.
    + apply String.eqb_eq in E. exfalso. apply Hnotin. rewrite E.
      apply in_map. eapply nth_error_In; eauto.
    + f_equal. now apply IH.
Qed.

Lemma evict_fold_controls c target items : forall st,
  NoDup (map source_text (controls st)) ->
  controls (fold_left (Mapping.evict_step c target) items st)
  = map (fun row =>
           if existsb (fun it => Mapping.evicted_by c target it
                                 && String.eqb (fst it) (source_text row)) items
           then mkControl (source_text row) "" else row)
        (controls st).
Proof.
  induction items as [|[k m] r IH]; intros st Hnd.
  - simpl. now rewrite map_id.
  - cbn [fold_left]. rewrite IH.
    + rewrite evict_step_test. cbn [fst].
      destruct (Mapping.evicted_by c target (k, m)) eqn:Hev; cbn [controls existsb andb].
      * rewrite set_registered_dropdown_map by exact Hnd. rewrite map_map.
        apply map_ext. intros row. rewrite Hev. cbn [fst andb].
        rewrite (String.eqb_sym k (source_text row)).
        destruct (String.eqb (source_text row) k) eqn:E; cbn [orb source_text].
        -- destruct (existsb _ r); reflexivity.
        -- reflexivity.
      * rewrite Hev. reflexivity.
    + rewrite evict_step_test.
      destruct (Mapping.evicted_by c target (k, m)); [|exact Hnd].
      cbn [controls]. rewrite set_registered_dropdown_map by exact Hnd.
      rewrite map_map.
      erewrite map_ext; [exact Hnd|].
      intros row. cbn [fst]. destruct (String.eqb (source_text row) k); reflexivity.
Qed.

Lemma evicted_self_false c target items :
  existsb (fun it => Mapping.evicted_by c target it && String.eqb (fst it) c) items
  = false.
Proof.
  induction items as [|[k m] r IH]; [reflexivity|].
  cbn [existsb]. rewrite IH, orb_false_r.
  unfold Mapping.evicted_by. cbn [fst snd].
  destruct (String.eqb k c) eqn:E; [reflexivity|].
  cbn [negb andb]. now rewrite andb_false_r.
Qed.

Lemma is_empty_false s : s <> "" -> PyStr.is_empty s = false.
Proof. destruct s; [congruence|reflexivity]. Qed.

Lemma select_target_agree i target st :
  NoDup (map source_text (controls st)) ->
  Mapping.dropdowns_agree st ->
  Mapping.dropdowns_agree (Mapping.select_target i target st)
  /\ map source_text (controls (Mapping.select_target i target st))
     = map source_text (controls st).
Proof.
  intros Hnd Hag. unfold Mapping.select_target.
  destruct (nth_error (controls st) i) as [c|] eqn:Hnth; [|auto].
  rewrite (set_dropdown_at_map target (controls st) i c Hnd Hnth).
  set (f := fun row => if String.eqb (source_text row) (source_text c)
                       then mkControl (source_text row) target else row).
  assert (Hsrc : map source_text (map f (controls st)) = map source_text (controls st)).
  { rewrite map_map. apply map_ext. intros row. unfold f.
    destruct (String.eqb (source_text row) (source_text c)); reflexivity. }
  destruct (PyStr.is_empty target) eqn:Het.
  - (* the target is cleared *)
    assert (Htarget : target = "") by (destruct target; [reflexivity|discriminate]).
    unfold Mapping.on_mapping_changed. rewrite Het. cbn [negb field_mappings controls].
    assert (Hrows : forall row', In row' (map f (controls st)) ->
              dropdown_value row' <> "" ->
              source_text row' <> source_text c
              /\ Mapping.holds (field_mappings st) (source_text row') (dropdown_value row')).
    { intros row' Hin Hd. apply in_map_iff in Hin. destruct Hin as (row & <- & Hin).
      unfold f in *.
      destruct (String.eqb (source_text row) (source_text c)) eqn:E.
      - simpl in Hd. congruence.
      - apply String.eqb_neq in E. split; [exact E|now apply Hag]. }
    destruct (PyDict.mem (source_text c) (field_mappings st)); cbn [controls field_mappings].
    + split; [|exact Hsrc]. intros row' Hin Hd. cbn [controls field_mappings] in *.
      destruct (Hrows row' Hin Hd) as [Hne (m & Hg & Ht)].
      exists m. split; [|exact Ht].
      rewrite PyDictFacts.get_remove_other by exact Hne. exact Hg.
    + split; [|exact Hsrc]. intros row' Hin Hd. cbn [controls field_mappings] in *.
      now destruct (Hrows row' Hin Hd).
  - (* a target is picked *)
    set (st1 := mkMappingState (field_mappings st) (map f (controls st)) (notices st)).
    assert (Hnd1 : NoDup (map source_text (controls st1))).
    { cbn [controls st1]. now rewrite Hsrc. }
    assert (Hcs : controls (Mapping.on_mapping_changed (source_text c) target st1)
                  = map (fun row =>
                      if existsb (fun it => Mapping.evicted_by (source_text c) target it
                                   && String.eqb (fst it) (source_text row))
                                 (field_mappings st)
                      then mkControl (source_text row) "" else row)
                    (map f (controls st))).
    { unfold Mapping.on_mapping_changed. rewrite Het. cbn [negb controls].
      now rewrite evict_fold_controls. }
    split.
    + intros row' Hin Hd. rewrite Hcs in Hin.
      apply in_map_iff in Hin. destruct Hin as (row1 & Hrow' & Hin).
      apply in_map_iff in Hin. destruct Hin as (row & Hrow1 & Hin).
      subst row1. unfold f in Hrow'.
      destruct (String.eqb (source_text row) (source_text c)) eqn:E.
      * apply String.eqb_eq in E. cbn [source_text] in Hrow'. rewrite E in Hrow'.
        rewrite evicted_self_false in Hrow'. subst row'.
        cbn [source_text dropdown_value].
        now apply on_mapping_changed_holds.
      * destruct (existsb _ (field_mappings st)) eqn:Hev.
        -- subst row'. simpl in Hd. congruence.
        -- subst row'. apply String.eqb_neq in E.
           destruct (Hag row Hin Hd) as (m & Hg & Ht).
           exists m. split; [|exact Ht].
           rewrite on_mapping_changed_get_other by assumption.
           cbn [field_mappings st1]. now rewrite Hev.
    + rewrite Hcs, map_map. rewrite <- Hsrc at 1. rewrite !map_map.
      apply map_ext. intros row.
      destruct (existsb _ (field_mappings st)); reflexivity.
Qed.

Lemma auto_map_loop_agree rules cs : forall fm used n,
  NoDup (map source_text cs) ->
  (forall row, In row cs -> dropdown_value row <> "" ->
     Mapping.holds fm (source_text row) (dropdown_value row)) ->
  let '(cs', fm', _, _) := Mapping.auto_map_loop rules cs fm used n in
  map source_text cs' = map source_text cs
  /\ (forall row, In row cs' -> dropdown_value row <> "" ->
        Mapping.holds fm' (source_text row) (dropdown_value row))
  /\ (forall k, ~ In k (map source_text cs) -> PyDict.get k fm' = PyDict.get k fm).
Proof.
  induction cs as [|row r IH]; intros fm used n Hnd Hag.
  - simpl. split; [reflexivity|]. split; [intros row []|reflexivity].
  - cbn [Mapping.auto_map_loop].
    inversion Hnd as [|? ? Hnotin Hnd']; subst.
    set (target := Mapping.auto_map_target rules (source_text row)).
    destruct (negb (PyStr.is_empty target) && negb (Mapping.mem_str target used)).
    + specialize (IH (PyDict.set (source_text row) (new_mapping (source_text row) target) fm)
                     (target :: used) (S n) Hnd').
      destruct (Mapping.auto_map_loop rules r _ (target :: used) (S n))
        as [[[r' fm'] used'] n'].
      destruct IH as (Hsrc & Hshow & Hframe).
      { intros row' Hin Hd. destruct (Hag row' (or_intror Hin) Hd) as (m & Hg & Ht).
        exists m. split; [|exact Ht].
        rewrite PyDictFacts.get_set_other; [exact Hg|].
        intros E. apply Hnotin. rewrite <- E. now apply in_map. }
      split; [simpl; now rewrite Hsrc|]. split.
      * intros row' [<-|Hin] Hd; [|now apply Hshow].
        cbn [source_text dropdown_value].
        exists (new_mapping (source_text row) target). split; [|reflexivity].
        rewrite Hframe by exact Hnotin. apply PyDictFacts.get_set_same.
      * intros k Hk. simpl in Hk. rewrite Hframe by tauto.
        apply PyDictFacts.get_set_other. intros E. apply Hk. now left.
    + specialize (IH fm used n Hnd').
      destruct (Mapping.auto_map_loop rules r fm used n) as [[[r' fm'] used'] n'].
      destruct IH as (Hsrc & Hshow & Hframe).
      { intros row' Hin Hd. apply Hag; [now right|exact Hd]. }
      split; [simpl; now rewrite Hsrc|]. split.
      * intros row' [<-|Hin] Hd; [|now apply Hshow].
        destruct (Hag row (or_introl eq_refl) Hd) as (m & Hg & Ht).
        exists m. split; [|exact Ht]. now rewrite Hframe.
      * intros k Hk. simpl in Hk. apply Hframe. tauto.
Qed.

Lemma ai_map_loop_agree ai cs : forall fm used n,
  NoDup (map source_text cs) ->
  (forall row, In row cs -> dropdown_value row <> "" ->
     Mapping.holds fm (source_text row) (dropdown_value row)) ->
  let '(cs', fm', _, _) := Mapping.ai_map_loop ai cs fm used n in
  map source_text cs' = map source_text cs
  /\ (forall row, In row cs' -> dropdown_value row <> "" ->
        Mapping.holds fm' (source_text row) (dropdown_value row))
  /\ (forall k, ~ In k (map source_text cs) -> PyDict.get k fm' = PyDict.get k fm).
Proof.
  induction cs as [|row r IH]; intros fm used n Hnd Hag.
  - simpl. split; [reflexivity|]. split; [intros row []|reflexivity].
  - cbn [Mapping.ai_map_loop].
    inversion Hnd as [|? ? Hnotin Hnd']; subst.
    assert (Hskip :
      let '(cs', fm', _, _) :=
        (let '(r', fm', used', n') := Mapping.ai_map_loop ai r fm used n in
         (row :: r', fm', used', n')) in
      map source_text cs' = map source_text (row :: r)
      /\ (forall row0, In row0 cs' -> dropdown_value row0 <> "" ->
            Mapping.holds fm' (source_text row0) (dropdown_value row0))
      /\ (forall k, ~ In k (map source_text (row :: r)) ->
            PyDict.get k fm' = PyDict.get k fm)).
    { specialize (IH fm used n Hnd').
      destruct (Mapping.ai_map_loop ai r fm used n) as [[[r' fm'] used'] n'].
      destruct IH as (Hsrc & Hshow & Hframe).
      { intros row' Hin Hd. apply Hag; [now right|exact Hd]. }
      split; [simpl; now rewrite Hsrc|]. split.
      * intros row' [<-|Hin] Hd; [|now apply Hshow].
        destruct (Hag row (or_introl eq_refl) Hd) as (m & Hg & Ht).
        exists m. split; [|exact Ht]. now rewrite Hframe.
      * intros k Hk. simpl in Hk. apply Hframe. tauto. }
    destruct (PyDict.get (source_text row) ai) as [target|]; [|exact Hskip].
    destruct (negb (Mapping.mem_str target used)); [|exact Hskip].
    specialize (IH (PyDict.set (source_text row) (new_mapping (source_text row) target) fm)
                   (target :: used) (S n) Hnd').
    destruct (Mapping.ai_map_loop ai r _ (target :: used) (S n))
      as [[[r' fm'] used'] n'].
    destruct IH as (Hsrc & Hshow & Hframe).
    { intros row' Hin Hd. destruct (Hag row' (or_intror Hin) Hd) as (m & Hg & Ht).
      exists m. split; [|exact Ht].
      rewrite PyDictFacts.get_set_other; [exact Hg|].
      intros E. apply Hnotin. rewrite <- E. now apply in_map. }
    split; [simpl; now rewrite Hsrc|]. split.
    * intros row' [<-|Hin] Hd; [|now apply Hshow].
      cbn [source_text dropdown_value].
      exists (new_mapping (source_text row) target). split; [|reflexivity].
      rewrite Hframe by exact Hnotin. apply PyDictFacts.get_set_same.
    * intros k Hk. simpl in Hk. rewrite Hframe by tauto.
      apply PyDictFacts.get_set_other. intros E. apply Hk. now left.
Qed.

Lemma create_rows_keeps rules cols : forall fm c,
  PyDict.get c fm = Some (new_mapping c (Mapping.create_row_target rules c)) ->
  PyDict.get c (snd (Mapping.create_rows rules cols fm))
  = Some (new_mapping c (Mapping.create_row_target rules c)).
Proof.
  induction cols as [|c0 r IH]; intros fm c Hg; [exact Hg|].
  cbn [Mapping.create_rows]. unfold Mapping.create_mapping_row.
  match goal with |- context [Mapping.create_rows rules r ?f] =>
    specialize (IH f c); destruct (Mapping.create_rows rules r f) as [rows fm2]
  end.
  apply IH. destruct (PyStr.is_empty (Mapping.create_row_target rules c0)); [exact Hg|].
  destruct (String.eqb c0 c) eqn:E.
  - apply String.eqb_eq in E. subst c0. apply PyDictFacts.get_set_same.
  - apply String.eqb_neq in E. rewrite PyDictFacts.get_set_other by congruence. exact Hg.
Qed.

Lemma create_rows_agree rules cols : forall fm,
  let '(rows, fm') := Mapping.create_rows rules cols fm in
  forall row, In row rows -> dropdown_value row <> "" ->
    Mapping.holds fm' (source_text row) (dropdown_value row).
Proof.
  induction cols as [|c r IH]; intros fm; [intros row []|].
  cbn [Mapping.create_rows]. unfold Mapping.create_mapping_row.
  match goal with |- context [Mapping.create_rows rules r ?f] =>
    specialize (IH f); pose proof (create_rows_keeps rules r f c) as Hkeep;
    destruct (Mapping.create_rows rules r f) as [rows fm2]
  end.
  intros row [<-|Hin] Hd; [|now apply IH].
  cbn [source_text dropdown_value snd] in *.
  rewrite (is_empty_false _ Hd) in Hkeep.
  eexists. split; [apply Hkeep; apply PyDictFacts.get_set_same|reflexivity].
Qed.

(** X26. On a list whose rows have distinct source columns, the list
    never shows a target that is not stored.  If every row that shows a
    target shows the one stored for its column, then so it is after a
    target is picked or cleared in any row (with the rival rows reset),
    after an auto-mapping pass and after an AI-mapping pass, and the rows
    keep their columns.  Rebuilding the list and clearing the mappings
    leave the list in agreement as well. *)
Theorem list_shows_what_is_stored (rules ai : PyDict.t string) (cols : list string)
    (i : nat) (target : string) (st : MappingState) :
  NoDup (map source_text (controls st)) ->
  Mapping.dropdowns_agree st ->
  (Mapping.dropdowns_agree (Mapping.select_target i target st)
   /\ map source_text (controls (Mapping.select_target i target st))
      = map source_text (controls st))
  /\ (Mapping.dropdowns_agree (Mapping.auto_map_fields rules st)
      /\ map source_text (controls (Mapping.auto_map_fields rules st))
         = map source_text (controls st))
  /\ (Mapping.dropdowns_agree (Mapping.run_ai_mapping ai st)
      /\ map source_text (controls (Mapping.run_ai_mapping ai st))
         = map source_text (controls st))
  /\ Mapping.dropdowns_agree (Mapping.clear_mappings st)
  /\ Mapping.dropdowns_agree (Mapping.update_mapping_list rules cols st).
Proof.
  intros Hnd Hag.
  split; [now apply select_target_agree|].
  split.
  { unfold Mapping.auto_map_fields, Mapping.dropdowns_agree.
    pose proof (auto_map_loop_agree rules (controls st) (field_mappings st) [] 0 Hnd Hag)
      as H.
    destruct (Mapping.auto_map_loop rules (controls st) (field_mappings st) [] 0)
      as [[[cs fm] used] n].
    destruct H as (Hsrc & Hshow & _). cbn [controls field_mappings]. auto. }
  split.
  { unfold Mapping.run_ai_mapping. destruct ai as [|p ai']; [split; [exact Hag|reflexivity]|].
    unfold Mapping.dropdowns_agree.
    pose proof (ai_map_loop_agree (p :: ai') (controls st) (field_mappings st) [] 0 Hnd Hag)
      as H.
    destruct (Mapping.ai_map_loop (p :: ai') (controls st) (field_mappings st) [] 0)
      as [[[cs fm] used] n].
    destruct H as (Hsrc & Hshow & _). cbn [controls field_mappings]. auto. }
  split.
  { unfold Mapping.clear_mappings, Mapping.dropdowns_agree. cbn [controls field_mappings].
    intros row Hin Hd. apply in_map_iff in Hin. destruct Hin as (c & <- & _).
    simpl in Hd. congruence. }
  unfold Mapping.update_mapping_list, Mapping.dropdowns_agree.
  pose proof (create_rows_agree rules cols (field_mappings st)) as H.
  destruct (Mapping.create_rows rules cols (field_mappings st)) as [rows fm].
  cbn [controls field_mappings]. exact H.
Qed.

End SelectFacts.

Lemma retarget_touches_only_rivals_witness :
  let st := Mapping.update_mapping_list AUTO_MAPPING_RULES
              ["Artikelnummer"; "VK Brutto"] Sample.no_mappings in
  PyDict.get "VK Brutto"
    (field_mappings (Mapping.on_mapping_changed "EAN" "item_code" st))
  = Some (new_mapping "VK Brutto" "standard_rate_brutto")
  /\ PyDict.get "Artikelnummer"
       (field_mappings (Mapping.on_mapping_changed "EAN" "item_code" st)) = None.
Proof.
  intros st.
  assert (Hnd : NoDup (PyDict.keys (field_mappings st))).
  { vm_compute. repeat constructor; simpl; intuition discriminate. }
  split.
  - etransitivity;
      [apply (retarget_touches_only_rivals st "EAN" "item_code" "VK Brutto" Hnd);
       discriminate|vm_compute; reflexivity].
  - etransitivity;
      [apply (retarget_touches_only_rivals st "EAN" "item_code" "Artikelnummer" Hnd);
       discriminate|vm_compute; reflexivity].
Defined.

Lemma list_shows_what_is_stored_witness :
  let st := Mapping.update_mapping_list AUTO_MAPPING_RULES
              ["Artikelnummer"; "VK Brutto"] Sample.no_mappings in
  Mapping.dropdowns_agree (Mapping.select_target 1 "item_code" st)
  /\ map dropdown_value (controls (Mapping.select_target 1 "item_code" st))
     = [""; "item_code"].
Proof.
  intros st. split; [|vm_compute; reflexivity].
  assert (Hnd : NoDup (map source_text (controls st))).
  { vm_compute. repeat constructor; simpl; intuition discriminate. }
  assert (Hag : Mapping.dropdowns_agree st).
  { intros row [<-|[<-|[]]] _; eexists; split; vm_compute; reflexivity. }
  destruct (list_shows_what_is_stored AUTO_MAPPING_RULES [] [] 1 "item_code" st Hnd Hag)
    as ((H & _) & _).
  exact H.
Defined.

(** ** The category keys of a record *)

Section CategoryKeyFacts.
Variable remote : list request -> request -> response.

(** X27. The category step of an item import consumes the category keys:
    when it returns a record, in a dry or a live run and whatever the
    client answered, none of [category_level_1] to [category_level_4] and
    [category_path] is left in it, and every other key except [item_group]
    is as it was. *)
Theorem category_keys_never_reach_payload (dry_run : bool)
    (item_data : PyDict.t pyval) (rs : run_state) :
  match fst (Importer.resolve_category remote dry_run item_data rs) with
  | Ok d =>
      (forall k, In k Importer.category_keys -> PyDict.get k d = None)
      /\ (forall k, ~ In k Importer.category_keys -> k <> "item_group" ->
            PyDict.get k d = PyDict.get k item_data)
  | Raise _ => True
  end.
Proof.
  unfold Importer.resolve_category.
  pose proof (gather_levels_consumes Importer.level_keys item_data) as Hcons.
  pose proof (gather_levels_keeps Importer.level_keys item_data) as Hframe.
  destruct (Importer.gather_levels Importer.level_keys item_data) as [levels0 d0].
  cbn [snd] in Hcons, Hframe.
  assert (Hfinal : forall (levels : list pyval) (d1 : PyDict.t pyval),
    (forall k, In k Importer.category_keys -> PyDict.get k d1 = None) ->
    (forall k, ~ In k Importer.category_keys -> PyDict.get k d1 = PyDict.get k item_data) ->
    match fst (match levels with
      | [] => (Ok d1, rs)
      | _ :: _ =>
          if negb dry_run then
            match api rs with
            | Some st =>
                match Api.ensure_category_hierarchy remote levels st with
                | (Raise e, st') => (Raise e, Importer.set_api st' rs)
                | (Ok (final_category, logs), st') =>
                    (Ok (PyDict.set "item_group" (VStr final_category) d1),
                     Importer.add_logs logs (Importer.set_api st' rs))
                end
            | None => (Ok d1, rs)
            end
          else
            match Importer.strings_of levels with
            | None => (Raise TypeError, rs)
            | Some names =>
                (Ok (PyDict.set "item_group" (last levels VNone) d1),
                 Importer.add_log (LogDryHierarchy (PyStr.join " > " names)) rs)
            end
      end) with
    | Ok d =>
        (forall k, In k Importer.category_keys -> PyDict.get k d = None)
        /\ (forall k, ~ In k Importer.category_keys -> k <> "item_group" ->
              PyDict.get k d = PyDict.get k item_data)
    | Raise _ => True
    end).
  { intros levels d1 H1 H2.
    assert (Hset : forall v,
      (forall k, In k Importer.category_keys ->
         PyDict.get k (PyDict.set "item_group" v d1) = None)
      /\ (forall k, ~ In k Importer.category_keys -> k <> "item_group" ->
            PyDict.get k (PyDict.set "item_group" v d1) = PyDict.get k item_data)).
    { intros v. split.
      - intros k Hk. rewrite PyDictFacts.get_set_other; [now apply H1|].
        intros ->. simpl in Hk. intuition discriminate.
      - intros k Hk Hne. rewrite PyDictFacts.get_set_other by exact Hne. now apply H2. }
    destruct levels as [|v vs]; cbv beta iota zeta; [cbn [fst]; auto|].
    destruct dry_run; cbv beta iota delta [negb].
    - destruct (Importer.strings_of (v :: vs)); cbn [fst]; [apply Hset|exact I].
    - destruct (api rs) as [st|]; [|cbn [fst]; auto].
      destruct (Api.ensure_category_hierarchy remote (v :: vs) st)
        as [[[res logs]|e] st']; cbn [fst]; [apply Hset|exact I]. }
  assert (Hkeys : forall k, In k Importer.category_keys ->
                    In k Importer.level_keys \/ k = "category_path").
  { intros k Hk. unfold Importer.category_keys in Hk. apply in_app_or in Hk.
    destruct Hk as [?|[<-|[]]]; auto. }
  assert (Hnot : forall k, ~ In k Importer.category_keys ->
                   ~ In k Importer.level_keys /\ k <> "category_path").
  { intros k Hk. unfold Importer.category_keys in Hk. split.
    - intros H. apply Hk. apply in_or_app. now left.
    - intros ->. apply Hk. apply in_or_app. right. now left. }
  destruct (PyDict.get "category_path" d0) as [path|] eqn:Hpath.
  - assert (H1 : forall k, In k Importer.category_keys ->
                   PyDict.get k (PyDict.remove "category_path" d0) = None).
    { intros k Hk. destruct (Hkeys k Hk) as [Hl| ->].
      - rewrite PyDictFacts.get_remove_other; [now apply Hcons|].
        intros ->. simpl in Hl. intuition discriminate.
      - apply PyDictFacts.get_remove_same. }
    assert (H2 : forall k, ~ In k Importer.category_keys ->
                   PyDict.get k (PyDict.remove "category_path" d0)
                   = PyDict.get k item_data).
    { intros k Hk. destruct (Hnot k Hk) as [Hl Hp].
      rewrite PyDictFacts.get_remove_other by exact Hp. now apply Hframe. }
    destruct (api rs) as [st|] eqn:Hapi.
    + destruct (PyVal.truthy path).
      * destruct (Importer.parse_path_value path) as [[|p ps]|e]; [| |exact I].
        -- exact (Hfinal levels0 _ H1 H2).
        -- exact (Hfinal (map VStr (p :: ps)) _ H1 H2).
      * exact (Hfinal levels0 _ H1 H2).
    + exact (Hfinal levels0 _ H1 H2).
  - apply Hfinal.
    + intros k Hk. destruct (Hkeys k Hk) as [Hl| ->]; [now apply Hcons|exact Hpath].
    + intros k Hk. destruct (Hnot k Hk) as [Hl Hp]. now apply Hframe.
Qed.

End CategoryKeyFacts.
